(** * PineScript-Builder ingest pipeline: a shallow embedding and its properties

    The development follows the Python sources module by module:

    - [Py]: the few built-in string and path operations the sources rely on
      ([str.startswith], [str.rstrip], [str.strip], [os.path.join], ...);
    - [RenderedReference]: [tradingview_ingest/rendered_reference.py];
    - [IngestScript]: [scripts/ingest_reference_v6_rendered.py];
    - [Segmentation]: [tradingview_ingest/segmentation.py];
    - [ReferenceNormalization]: [tradingview_ingest/reference_normalization.py];
    - [Acquisition]: [tradingview_ingest/acquisition.py];
    - [Discovery]: [tradingview_ingest/discovery.py].

    Python integers are [Z], strings and byte strings are [string], dictionaries
    with a fixed key set are records, dictionaries used as maps are [gmap]s.
    The outside world (network, browser, clock, parsed HTML) enters as explicit
    arguments. *)

From Stdlib Require Import ZArith String Ascii List Bool Lia QArith.
From stdpp Require Import base option list strings pretty gmap fin_maps.
Import ListNotations.

Set Warnings "-register-all,-clear-no-such-hyp".

Local Open Scope string_scope.
Local Open Scope Z_scope.

(** ** Python built-ins used by the sources *)

Module Py.

(** [s.startswith(p)] *)
Definition startswith (s p : string) : bool := String.prefix p s.

(** [s.endswith(p)] for a one-character [p] *)
Fixpoint endswith_char (s : string) (c : ascii) : bool :=
  match s with
  | EmptyString => false
  | String a EmptyString => Ascii.eqb a c
  | String _ rest => endswith_char rest c
  end.

(** [s.rstrip(c)] for a one-character set: drops every trailing [c]. *)
Fixpoint rstrip_char (s : string) (c : ascii) : string :=
  match s with
  | EmptyString => EmptyString
  | String a rest =>
      match rstrip_char rest c with
      | EmptyString => if Ascii.eqb a c then EmptyString else String a EmptyString
      | rest' => String a rest'
      end
  end.

(** Truthiness of a string: [bool(s)]. *)
Definition truthy (s : string) : bool :=
  match s with EmptyString => false | String _ _ => true end.

(** [any(pred(x) for x in l)] *)
Definition any {A} (pred : A -> bool) (l : list A) : bool := existsb pred l.

(** [abs(n)] *)
Definition abs (n : Z) : Z := Z.abs n.

(** [len(l)] as a Python integer *)
Definition len {A} (l : list A) : Z := Z.of_nat (length l).

(** [sub in s] for strings *)
Definition contains (s sub : string) : bool :=
  match String.index 0 sub s with Some _ => true | None => false end.

(** ASCII white space, the characters [str.strip()] removes. *)
Definition is_space (c : ascii) : bool :=
  let n := nat_of_ascii c in
  ((9 <=? n) && (n <=? 13) || (28 <=? n) && (n <=? 32))%nat.

Fixpoint lstrip (s : string) : string :=
  match s with
  | EmptyString => EmptyString
  | String a rest => if is_space a then lstrip rest else s
  end.

Fixpoint rstrip (s : string) : string :=
  match s with
  | EmptyString => EmptyString
  | String a rest =>
      match rstrip rest with
      | EmptyString => if is_space a then EmptyString else String a EmptyString
      | rest' => String a rest'
      end
  end.

(** [s.strip()] *)
Definition strip (s : string) : string := rstrip (lstrip s).

(** [s.lower()] on ASCII letters *)
Definition lower_char (c : ascii) : ascii :=
  let n := nat_of_ascii c in
  if ((65 <=? n) && (n <=? 90))%nat then ascii_of_nat (n + 32) else c.

Fixpoint lower (s : string) : string :=
  match s with
  | EmptyString => EmptyString
  | String a rest => String (lower_char a) (lower rest)
  end.

(** [sep.join(parts)] *)
Fixpoint join (sep : string) (parts : list string) : string :=
  match parts with
  | [] => ""
  | [x] => x
  | x :: rest => x +:+ sep +:+ join sep rest
  end.

(** [s.split()]: the white-space separated words of [s]. *)
Fixpoint split_ws_aux (s : string) (cur : string) : list string :=
  match s with
  | EmptyString => if truthy cur then [cur] else []
  | String a rest =>
      if is_space a
      then ((if truthy cur then [cur] else []) ++ split_ws_aux rest "")%list
      else split_ws_aux rest (cur +:+ String a EmptyString)
  end.

Definition split_ws (s : string) : list string := split_ws_aux s "".

(** The ASCII line boundaries of [str.splitlines()]. *)
Definition is_linebreak (c : ascii) : bool :=
  let n := nat_of_ascii c in
  ((10 <=? n) && (n <=? 13) || (28 <=? n) && (n <=? 30))%nat.

(** [s.splitlines()], up to empty lines (a two-character line end gives one
    more empty line here; the callers skip empty lines). *)
Fixpoint splitlines_aux (s : string) (cur : string) : list string :=
  match s with
  | EmptyString => if truthy cur then [cur] else []
  | String a rest =>
      if is_linebreak a then cur :: splitlines_aux rest ""
      else splitlines_aux rest (cur +:+ String a EmptyString)
  end.

Definition splitlines (s : string) : list string := splitlines_aux s "".

(** [s.split(c, 1)[1]]: what follows the first [c] ([None] without one). *)
Fixpoint after_first (c : ascii) (s : string) : option string :=
  match s with
  | EmptyString => None
  | String a rest => if Ascii.eqb a c then Some rest else after_first c rest
  end.

(** [os.path.join(a, b)] on POSIX paths *)
Definition path_join (a b : string) : string :=
  if startswith b "/" then b
  else if negb (truthy a) || endswith_char a "/" then a +:+ b
  else a +:+ "/" +:+ b.

(** [os.path.join(a, *parts)] *)
Definition path_join_all (a : string) (parts : list string) : string :=
  fold_left path_join parts a.

(** Exceptions the sources raise, with their message. *)
Inductive exception : Type :=
| ValueError (msg : string)
| SystemExit (msg : string)
| FileExistsError (msg : string)
| AttributeError (msg : string).

(** A call either returns a value or raises. *)
Inductive result (A : Type) : Type :=
| Return (a : A)
| Raise (e : exception).
Arguments Return {A} a.
Arguments Raise {A} e.

End Py.

(** ** The parsed document (BeautifulSoup)

    The HTML parser is outside the repository; the embedding starts from the
    parsed tree.  A node is a text node or a tag with its attributes and
    children; the [class] attribute is kept as its source text and split into
    tokens where the code looks at it. *)

Module Soup.

Inductive node : Type :=
| NavigableString (text : string)
| Tag (name : string) (attrs : list (string * string)) (contents : list node).

(** A tag as the code holds it: the tag together with the siblings that
    follow it under its parent ([tag.next_siblings]). *)
Record element : Type := Element {
  el_tag : node;
  next_siblings : list node;
}.

Fixpoint attr_lookup (key : string) (attrs : list (string * string)) : option string :=
  match attrs with
  | [] => None
  | (k, v) :: rest => if String.eqb k key then Some v else attr_lookup key rest
  end.

(** [getattr(node, "attrs", {}).get(key)] : text nodes have no attributes. *)
Definition get (n : node) (key : string) : option string :=
  match n with
  | NavigableString _ => None
  | Tag _ attrs _ => attr_lookup key attrs
  end.

Definition has_attr (n : node) (key : string) : bool :=
  match get n key with Some _ => true | None => false end.

Definition tag_name (n : node) : option string :=
  match n with
  | NavigableString _ => None
  | Tag name _ _ => Some name
  end.

Definition contents (n : node) : list node :=
  match n with
  | NavigableString _ => []
  | Tag _ _ cs => cs
  end.

(** [tag["class"]]: the list of class tokens. *)
Definition classes (n : node) : list string :=
  match get n "class" with
  | Some v => Py.split_ws v
  | None => []
  end.

(** Every tag of a forest in document order, each with its next siblings
    ([tag.descendants] restricted to tags). *)
Fixpoint walk (n : node) (following : list node) {struct n} : list element :=
  match n with
  | NavigableString _ => []
  | Tag _ _ cs =>
      Element n following ::
      (fix walk_children (l : list node) : list element :=
         match l with
         | [] => []
         | c :: rest => (walk c rest ++ walk_children rest)%list
         end) cs
  end.

Fixpoint walk_forest (l : list node) : list element :=
  match l with
  | [] => []
  | c :: rest => (walk c rest ++ walk_forest rest)%list
  end.

(** [tag.find_all(pred)]: the matching tags below [tag], in document order. *)
Definition find_all (pred : node -> bool) (n : node) : list element :=
  filter (fun e => pred (el_tag e) = true) (walk_forest (contents n)).

(** Every text node below a node, in document order. *)
Fixpoint strings (n : node) : list string :=
  match n with
  | NavigableString s => [s]
  | Tag _ _ cs =>
      (fix strings_children (l : list node) : list string :=
         match l with
         | [] => []
         | c :: rest => (strings c ++ strings_children rest)%list
         end) cs
  end.

(** [tag.get_text(separator, strip=True)] *)
Definition get_text (separator : string) (n : node) : string :=
  Py.join separator
    (filter (fun s => Py.truthy s = true) (map Py.strip (strings n))).

Definition render_attr (kv : string * string) : string :=
  " " +:+ fst kv +:+ "=" +:+ String (ascii_of_nat 34) (snd kv +:+ String (ascii_of_nat 34) "").

(** [str(node)]: a text node is its text, a tag is its markup. *)
Fixpoint str (n : node) : string :=
  match n with
  | NavigableString s => s
  | Tag name attrs cs =>
      "<" +:+ name +:+ Py.join "" (map render_attr attrs) +:+ ">" +:+
      (fix str_children (l : list node) : string :=
         match l with
         | [] => ""
         | c :: rest => str c +:+ str_children rest
         end) cs +:+
      "</" +:+ name +:+ ">"
  end.

(** [soup.select_one(selector)] for the two selector shapes the code uses:
    [name#id] and [name.class]; the soup is the list of top-level nodes. *)
Definition matches_id (name id : string) (n : node) : bool :=
  match n with
  | NavigableString _ => false
  | Tag nm _ _ =>
      String.eqb nm name &&
      match get n "id" with Some v => String.eqb v id | None => false end
  end.

Definition matches_class (name cls : string) (n : node) : bool :=
  match n with
  | NavigableString _ => false
  | Tag nm _ _ =>
      String.eqb nm name && existsb (String.eqb cls) (classes n)
  end.

Definition select_one (pred : node -> bool) (soup : list node) : option node :=
  match filter (fun e => pred (el_tag e) = true) (walk_forest soup) with
  | [] => None
  | e :: _ => Some (el_tag e)
  end.

End Soup.


(** ** tradingview_ingest/rendered_reference.py *)

Module RenderedReference.

Definition REFERENCE_URL : string :=
  "https://www.tradingview.com/pine-script-reference/v6/".

Definition ANCHOR_PREFIXES : list string :=
  ["var_"; "fun_"; "const_"; "type_"; "kw_"; "op_"; "an_"].

Record Viewport : Type := {
  width : Z;
  height : Z;
}.

Record RenderConfig : Type := {
  viewport : Viewport;
  locale : string;
  timezone : string;
  user_agent : string;
  render_wait_strategy : string;
  max_wait_seconds : Z;
  post_render_delay_ms : Z;
  anchor_min_threshold : Z;
  stabilize_checks : Z;
  stabilize_interval_seconds : Q;
  max_scrolls : Z;
}.

Record RenderResult : Type := {
  html : string;
  anchor_ids : list string;
  anchor_counts_by_prefix : gmap string Z;
  browser_name : string;
  browser_version : string;
  status : string;
  notes : string;
}.

(** The inner loop of [anchor_prefix_counts]: the first prefix the id starts
    with gets [counts[prefix] += 1], then [break]. *)
Fixpoint count_first_prefix (anchor_id : string) (prefixes : list string)
    (counts : gmap string Z) : gmap string Z :=
  match prefixes with
  | [] => counts
  | prefix :: rest =>
      if Py.startswith anchor_id prefix
      then <[prefix := counts !!! prefix + 1]> counts
      else count_first_prefix anchor_id rest counts
  end.

(** [anchor_prefix_counts(anchor_ids)] *)
Definition anchor_prefix_counts (anchor_ids : list string) : gmap string Z :=
  fold_left
    (fun counts anchor_id => count_first_prefix anchor_id ANCHOR_PREFIXES counts)
    anchor_ids
    (list_to_map (map (fun prefix => (prefix, 0)) ANCHOR_PREFIXES)).

(** The browser session as [render_reference] sees it.  [page_ids k] is the
    [id] attribute of every element carrying one when the [k]-th poll runs
    (the effect of earlier scrolls included), [page_elapsed k] is
    [time.time() - start_time] read after the sleep that follows that poll. *)
Record Page : Type := {
  page_ids : nat -> list string;
  page_elapsed : nat -> Q;
  page_content : string;
  page_browser_version : string;
}.

(** The script evaluated in the page: keep the non-empty ids other than
    [tv-content] that start with one of the prefixes. *)
Fixpoint collect_anchor_ids (prefixes : list string) (ids : list string) : list string :=
  match ids with
  | [] => []
  | id :: rest =>
      if negb (Py.truthy id) then collect_anchor_ids prefixes rest
      else if String.eqb id "tv-content" then collect_anchor_ids prefixes rest
      else if Py.any (Py.startswith id) prefixes
           then id :: collect_anchor_ids prefixes rest
           else collect_anchor_ids prefixes rest
  end.

(** What the [while True] loop leaves behind when it ends. *)
Record PollState : Type := {
  poll_anchor_ids : list string;
  poll_stable_count : Z;
  poll_scrolls : Z;
  poll_notes : string;
}.

(** The polling loop of [render_reference]; the [k]-th iteration is the
    [k]-th poll.  [fuel] bounds the number of iterations. *)
Fixpoint poll_loop (fuel : nat) (config : RenderConfig) (page : Page) (k : nat)
    (stable_count previous_count scrolls : Z) : option PollState :=
  match fuel with
  | O => None
  | S fuel' =>
      let anchor_ids := collect_anchor_ids ANCHOR_PREFIXES (page_ids page k) in
      let current_count := Py.len anchor_ids in
      let stable_count :=
        if current_count =? previous_count then stable_count + 1 else 0 in
      let previous_count := current_count in
      if (current_count >=? anchor_min_threshold config)
         && (stable_count >=? stabilize_checks config)
      then Some {| poll_anchor_ids := anchor_ids; poll_stable_count := stable_count;
                   poll_scrolls := scrolls; poll_notes := "" |}
      else
        let scrolls := if scrolls <? max_scrolls config then scrolls + 1 else scrolls in
        if negb (Qle_bool (page_elapsed page k) (inject_Z (max_wait_seconds config)))
        then Some {| poll_anchor_ids := anchor_ids; poll_stable_count := stable_count;
                     poll_scrolls := scrolls; poll_notes := "render_timeout" |}
        else poll_loop fuel' config page (S k) stable_count previous_count scrolls
  end.

(** [render_reference(url, config)] *)
Definition render_reference (fuel : nat) (url : string) (config : RenderConfig)
    (page : Page) : option RenderResult :=
  match poll_loop fuel config page 0 0 (-1) 0 with
  | None => None
  | Some st =>
      let notes := poll_notes st in
      let anchor_ids := poll_anchor_ids st in
      let stable_count := poll_stable_count st in
      let html := page_content page in
      let browser_name := "chromium" in
      let browser_version := page_browser_version page in
      let counts := anchor_prefix_counts anchor_ids in
      let status :=
        if (Py.len anchor_ids >=? anchor_min_threshold config)
           && (stable_count >=? stabilize_checks config)
        then "complete" else "partial" in
      let status := if Py.truthy notes then "failed" else status in
      Some {| html := html; anchor_ids := anchor_ids;
              anchor_counts_by_prefix := counts;
              browser_name := browser_name; browser_version := browser_version;
              status := status; notes := notes |}
  end.

(** [find_anchor_elements(soup)] *)
Definition find_anchor_elements (container : Soup.node) : list Soup.element :=
  filter
    (fun tag =>
       let anchor_id := default "" (Soup.get (Soup.el_tag tag) "id") in
       (negb (String.eqb anchor_id "tv-content")
        && Py.any (Py.startswith anchor_id) ANCHOR_PREFIXES) = true)
    (Soup.find_all (fun n => Soup.has_attr n "id") container).

(** [serialize_nodes(nodes)] *)
Definition serialize_nodes (nodes : list Soup.node) : string :=
  Py.strip (Py.join "" (map Soup.str nodes)).

Definition is_heading (n : Soup.node) : bool :=
  match Soup.tag_name n with
  | Some name => existsb (String.eqb name) ["h1"; "h2"; "h3"; "h4"]
  | None => false
  end.

Fixpoint first_truthy (texts : list string) : option string :=
  match texts with
  | [] => None
  | text :: rest => if Py.truthy text then Some text else first_truthy rest
  end.

(** [infer_symbol_name(anchor_tag)] *)
Definition infer_symbol_name (anchor_tag : Soup.node) : string :=
  match first_truthy
          (map (fun heading => Soup.get_text " " (Soup.el_tag heading))
               (Soup.find_all is_heading anchor_tag)) with
  | Some text => text
  | None => Soup.get_text " " anchor_tag
  end.

Definition has_kind_class (tag : Soup.node) : bool :=
  Soup.has_attr tag "class"
  && Py.any (fun key => Py.contains (Py.lower (Py.join " " (Soup.classes tag))) key)
       ["type"; "kind"; "category"].

Fixpoint prefix_symbol_type (anchor_id : string) (prefixes : list string) : option string :=
  match prefixes with
  | [] => None
  | prefix :: rest =>
      if Py.startswith anchor_id prefix then Some (Py.rstrip_char prefix "_")
      else prefix_symbol_type anchor_id rest
  end.

(** [infer_symbol_type(anchor_tag, anchor_id)] *)
Definition infer_symbol_type (anchor_tag : Soup.node) (anchor_id : string) : string :=
  match first_truthy
          (map (fun candidate => Soup.get_text "" (Soup.el_tag candidate))
               (Soup.find_all has_kind_class anchor_tag)) with
  | Some text => text
  | None => default "unknown" (prefix_symbol_type anchor_id ANCHOR_PREFIXES)
  end.

(** One segment dictionary of [segment_reference_html]. *)
Record Segment : Type := {
  canonical_url : string;
  doc_type : string;
  pine_version : string;
  run_id : string;
  source_artifact_id : string;
  anchor_id : string;
  symbol_type : string;
  symbol_name : string;
  segment_order : Z;
  raw_html : string;
  segment_id : string;
}.

Record QC : Type := {
  segment_count : Z;
  empty_symbol_names : Z;
  empty_raw_html : Z;
}.

(** The siblings collected after an anchor: up to, not including, the first
    one whose id starts with an anchor prefix. *)
Fixpoint siblings_until_anchor (siblings : list Soup.node) : list Soup.node :=
  match siblings with
  | [] => []
  | sibling :: rest =>
      let sibling_id := default "" (Soup.get sibling "id") in
      if Py.truthy sibling_id && Py.any (Py.startswith sibling_id) ANCHOR_PREFIXES
      then []
      else sibling :: siblings_until_anchor rest
  end.

(** The [for idx, anchor in enumerate(anchors, start=1)] loop. *)
Fixpoint segment_loop (canonical_url run_id source_artifact_id : string)
    (anchors : list Soup.element) (idx : Z)
    (segments : list Segment) (seen : gset string)
    (empty_symbol_names empty_raw : Z) : Py.result (list Segment * QC) :=
  match anchors with
  | [] =>
      Py.Return (segments,
                 {| segment_count := Py.len segments;
                    empty_symbol_names := empty_symbol_names;
                    empty_raw_html := empty_raw |})
  | anchor :: rest =>
      let anchor_id := default "" (Soup.get (Soup.el_tag anchor) "id") in
      if bool_decide (anchor_id ∈ seen) then Py.Raise (Py.ValueError "duplicate_anchor_id")
      else
        let seen := ({[anchor_id]} ∪ seen : gset string) in
        let nodes := Soup.el_tag anchor :: siblings_until_anchor (Soup.next_siblings anchor) in
        let raw_html := serialize_nodes nodes in
        let empty_raw := if negb (Py.truthy raw_html) then empty_raw + 1 else empty_raw in
        let symbol_name := infer_symbol_name (Soup.el_tag anchor) in
        let empty_symbol_names :=
          if negb (Py.truthy symbol_name) then empty_symbol_names + 1
          else empty_symbol_names in
        let symbol_type := infer_symbol_type (Soup.el_tag anchor) anchor_id in
        segment_loop canonical_url run_id source_artifact_id rest (idx + 1)
          (segments ++
           [{| canonical_url := canonical_url;
               doc_type := "reference";
               pine_version := "v6";
               run_id := run_id;
               source_artifact_id := source_artifact_id;
               anchor_id := anchor_id;
               symbol_type := symbol_type;
               symbol_name := symbol_name;
               segment_order := idx;
               raw_html := raw_html;
               segment_id := source_artifact_id +:+ ":" +:+ anchor_id |}])%list
          seen empty_symbol_names empty_raw
  end.

(** [soup.select_one("main#tv-content") or soup.select_one("main.tv-content")] *)
Definition select_container (soup : list Soup.node) : option Soup.node :=
  match Soup.select_one (Soup.matches_id "main" "tv-content") soup with
  | Some container => Some container
  | None => Soup.select_one (Soup.matches_class "main" "tv-content") soup
  end.

(** [segment_reference_html(html, canonical_url, run_id, source_artifact_id)],
    on the parsed [html]. *)
Definition segment_reference_html (soup : list Soup.node)
    (canonical_url run_id source_artifact_id : string)
    : Py.result (list Segment * QC) :=
  match select_container soup with
  | None => Py.Raise (Py.ValueError "reference_container_missing")
  | Some container =>
      let anchors := find_anchor_elements container in
      match anchors with
      | [] => Py.Raise (Py.ValueError "reference_no_anchors")
      | _ =>
          segment_loop canonical_url run_id source_artifact_id anchors 1 [] ∅ 0 0
      end
  end.

(** [drift_severity(anchor_count_delta, env_delta)] *)
Definition drift_severity (anchor_count_delta : Z) (env_delta : bool) : string :=
  if (anchor_count_delta =? 0) && negb env_delta then "none"
  else if negb (anchor_count_delta =? 0) then
    if Py.abs anchor_count_delta >=? 10 then "high" else "medium"
  else "low".

(** [drift_recommended_action(severity)] *)
Definition drift_recommended_action (severity : string) : string :=
  if String.eqb severity "none" then "ignore"
  else if String.eqb severity "low" then "manual_review"
  else if String.eqb severity "medium" then "resegment"
  else "block_pipeline".

End RenderedReference.

(** ** scripts/ingest_reference_v6_rendered.py *)

Module IngestScript.

Import RenderedReference.

(** The manifest dictionary, with its fixed keys. *)
Record Manifest : Type := {
  m_manifest_version : string;
  m_canonical_url : string;
  m_doc_type : string;
  m_pine_version : string;
  m_run_id : string;
  m_capture_method : string;
  m_capture_timestamp : string;
  m_render_engine : string;
  m_browser_name : string;
  m_browser_version : string;
  m_user_agent : string;
  m_viewport : Viewport;
  m_locale : string;
  m_timezone : string;
  m_render_wait_strategy : string;
  m_max_wait_seconds : Z;
  m_post_render_delay_ms : Z;
  m_anchor_count_total : Z;
  m_anchor_counts_by_prefix : gmap string Z;
  m_artifact_path : string;
  m_artifact_size_bytes : Z;
  m_artifact_checksum_sha256 : string;
  m_status : string;
  m_notes : string;
}.

Section Paths.

(** The directory the scripts live under ([PROJECT_ROOT]). *)
Variable PROJECT_ROOT : string.

Definition manifest_path (run_id : string) : string :=
  Py.path_join_all PROJECT_ROOT
    ["raw"; "rendered"; "v6"; "reference"; run_id; "manifest.json"].

Definition reference_html_path (run_id : string) : string :=
  Py.path_join_all PROJECT_ROOT
    ["raw"; "rendered"; "v6"; "reference"; run_id; "reference.html"].

Definition segment_log_path (run_id : string) : string :=
  Py.path_join_all PROJECT_ROOT
    ["artifacts"; "segmentation_runs"; "v6"; run_id +:+ ".jsonl"].

Definition segment_output_path (run_id : string) : string :=
  Py.path_join_all PROJECT_ROOT
    ["artifacts"; "segments"; "v6"; run_id +:+ ".jsonl"].

(** One line of the segmentation run log. *)
Record LogRecord : Type := {
  log_run_id : string;
  log_status : string;
  log_reason : option string;
  log_counts : list (string * Z);
}.

(** The JSON-lines files [segment_reference] appends to: per path, the
    records written so far, one per line. *)
Record Store : Type := {
  segment_files : gmap string (list Segment);
  log_files : gmap string (list LogRecord);
}.

(** [write_jsonl(path, record)]: append one line, creating the file. *)
Definition write_jsonl (path : string) (record : LogRecord) (st : Store) : Store :=
  {| segment_files := segment_files st;
     log_files := <[path := (default [] (log_files st !! path) ++ [record])%list]> (log_files st) |}.

(** [open(output_path, "a")] followed by one line per segment. *)
Definition append_segments (path : string) (segments : list Segment) (st : Store) : Store :=
  {| segment_files :=
       <[path := (default [] (segment_files st !! path) ++ segments)%list]> (segment_files st);
     log_files := log_files st |}.

(** [render_and_manifest(run_id)] from the render result on: the manifest
    built from a [RenderResult]; [html_size] and [checksum] are
    [len(html_bytes)] and [sha256_hex(html_bytes)], [now] is [utc_now_iso()]. *)
Definition build_manifest (run_id : string) (config : RenderConfig)
    (result : RenderResult) (html_size : Z) (checksum now rel_path : string) : Manifest :=
  {| m_manifest_version := "1.0";
     m_canonical_url := REFERENCE_URL;
     m_doc_type := "reference";
     m_pine_version := "v6";
     m_run_id := run_id;
     m_capture_method := "rendered_playwright";
     m_capture_timestamp := now;
     m_render_engine := "playwright";
     m_browser_name := browser_name result;
     m_browser_version := browser_version result;
     m_user_agent := user_agent config;
     m_viewport := viewport config;
     m_locale := locale config;
     m_timezone := timezone config;
     m_render_wait_strategy := render_wait_strategy config;
     m_max_wait_seconds := max_wait_seconds config;
     m_post_render_delay_ms := post_render_delay_ms config;
     m_anchor_count_total := Py.len (anchor_ids result);
     m_anchor_counts_by_prefix := anchor_counts_by_prefix result;
     m_artifact_path := rel_path;
     m_artifact_size_bytes := html_size;
     m_artifact_checksum_sha256 := checksum;
     m_status := status result;
     m_notes := notes result |}.

(** The configuration [render_and_manifest] renders with. *)
Definition default_config : RenderConfig :=
  {| viewport := {| width := 1400; height := 900 |};
     locale := "en-US";
     timezone := "UTC";
     user_agent := "PineScript-Builder rendered acquisition/0.1";
     render_wait_strategy := "anchor_stability";
     max_wait_seconds := 120;
     post_render_delay_ms := 1000;
     anchor_min_threshold := 200;
     stabilize_checks := 3;
     stabilize_interval_seconds := 1%Q;
     max_scrolls := 5 |}.

(** [render_and_manifest(run_id)]: the manifest of a run whose browser
    session is [page]. *)
Definition render_and_manifest (fuel : nat) (run_id : string) (page : Page)
    (html_size : Z) (checksum now rel_path : string) : option Manifest :=
  match render_reference fuel REFERENCE_URL default_config page with
  | None => None
  | Some result =>
      Some (build_manifest run_id default_config result html_size checksum now rel_path)
  end.

(** [segment_reference(run_id, manifest)].  [soup] is the parsed content of
    the file [manifest["artifact_path"]] names.  [int(anchor_total * 0.1)] is
    the truncated quotient by ten. *)
Definition segment_reference (run_id : string) (manifest : Manifest)
    (soup : list Soup.node) (st : Store) : Store * Py.result unit :=
  if negb (String.eqb (m_status manifest) "complete")
  then (st, Py.Raise (Py.SystemExit "render_incomplete"))
  else
    match segment_reference_html soup (m_canonical_url manifest) run_id
            (m_artifact_checksum_sha256 manifest) with
    | Py.Raise e => (st, Py.Raise e)
    | Py.Return (segments, qc) =>
        let anchor_total := m_anchor_count_total manifest in
        if negb (segment_count qc =? anchor_total) then
          (write_jsonl (segment_log_path run_id)
             {| log_run_id := run_id; log_status := "failed";
                log_reason := Some "segment_count_mismatch";
                log_counts := [("segment_count", segment_count qc);
                               ("anchor_count_total", anchor_total)] |} st,
           Py.Raise (Py.SystemExit "segment_count_mismatch"))
        else
          let empty_limit := Z.max 5 (Z.quot anchor_total 10) in
          if empty_symbol_names qc >? empty_limit then
            (write_jsonl (segment_log_path run_id)
               {| log_run_id := run_id; log_status := "failed";
                  log_reason := Some "empty_symbol_names";
                  log_counts := [("empty_symbol_names", empty_symbol_names qc);
                                 ("anchor_count_total", anchor_total)] |} st,
             Py.Raise (Py.SystemExit "empty_symbol_names"))
          else if empty_raw_html qc >? 0 then
            (write_jsonl (segment_log_path run_id)
               {| log_run_id := run_id; log_status := "failed";
                  log_reason := Some "empty_raw_html";
                  log_counts := [("empty_raw_html", empty_raw_html qc)] |} st,
             Py.Raise (Py.SystemExit "empty_raw_html"))
          else
            let st := append_segments (segment_output_path run_id) segments st in
            (write_jsonl (segment_log_path run_id)
               {| log_run_id := run_id; log_status := "complete";
                  log_reason := None;
                  log_counts := [("segment_count", segment_count qc);
                                 ("empty_symbol_names", empty_symbol_names qc);
                                 ("empty_raw_html", empty_raw_html qc)] |} st,
             Py.Return tt)
    end.

End Paths.

(** The [environment_deltas] entry of a drift report: baseline and candidate
    value of each environment field. *)
Record EnvDelta : Type := {
  d_browser_version : string * string;
  d_user_agent : string * string;
  d_viewport : Viewport * Viewport;
  d_locale : string * string;
  d_timezone : string * string;
}.

Definition viewport_eqb (a b : Viewport) : bool :=
  (width a =? width b) && (height a =? height b).

Definition str_differs (value : string * string) : bool :=
  negb (String.eqb (fst value) (snd value)).

(** [any(value[0] != value[1] for value in env_delta.values())] *)
Definition env_changed_of (env_delta : EnvDelta) : bool :=
  str_differs (d_browser_version env_delta)
  || str_differs (d_user_agent env_delta)
  || negb (viewport_eqb (fst (d_viewport env_delta)) (snd (d_viewport env_delta)))
  || str_differs (d_locale env_delta)
  || str_differs (d_timezone env_delta).

Record DriftReport : Type := {
  baseline_run_id : string;
  candidate_run_id : string;
  r_canonical_url : string;
  r_pine_version : string;
  environment_deltas : EnvDelta;
  artifact_checksum_changed : bool;
  artifact_size_delta : Z;
  anchor_count_delta : Z;
  anchor_prefix_deltas : gmap string Z;
  r_drift_severity : string;
  recommended_action : string;
}.

(** [generate_drift_report(baseline_manifest, candidate_manifest)] *)
Definition generate_drift_report (baseline_manifest candidate_manifest : Manifest)
    : DriftReport :=
  let env_delta :=
    {| d_browser_version :=
         (m_browser_version baseline_manifest, m_browser_version candidate_manifest);
       d_user_agent := (m_user_agent baseline_manifest, m_user_agent candidate_manifest);
       d_viewport := (m_viewport baseline_manifest, m_viewport candidate_manifest);
       d_locale := (m_locale baseline_manifest, m_locale candidate_manifest);
       d_timezone := (m_timezone baseline_manifest, m_timezone candidate_manifest) |} in
  let env_changed := env_changed_of env_delta in
  let anchor_delta :=
    m_anchor_count_total candidate_manifest - m_anchor_count_total baseline_manifest in
  let prefix_delta :=
    map_imap
      (fun prefix count =>
         Some (default 0 (m_anchor_counts_by_prefix candidate_manifest !! prefix) - count))
      (m_anchor_counts_by_prefix baseline_manifest) in
  let checksum_changed :=
    negb (String.eqb (m_artifact_checksum_sha256 baseline_manifest)
                     (m_artifact_checksum_sha256 candidate_manifest)) in
  let size_delta :=
    m_artifact_size_bytes candidate_manifest - m_artifact_size_bytes baseline_manifest in
  let severity := drift_severity anchor_delta env_changed in
  {| baseline_run_id := m_run_id baseline_manifest;
     candidate_run_id := m_run_id candidate_manifest;
     r_canonical_url := m_canonical_url candidate_manifest;
     r_pine_version := m_pine_version candidate_manifest;
     environment_deltas := env_delta;
     artifact_checksum_changed := checksum_changed;
     artifact_size_delta := size_delta;
     anchor_count_delta := anchor_delta;
     anchor_prefix_deltas := prefix_delta;
     r_drift_severity := severity;
     recommended_action := drift_recommended_action severity |}.

End IngestScript.

(** ** tradingview_ingest/segmentation.py *)

Module Segmentation.

Record Artifact : Type := {
  source_artifact_id : string;
  raw_path : string;
  canonical_url : string;
  doc_type : string;
  pine_version : string;
}.

Record Segment : Type := {
  seg_source_artifact_id : string;
  seg_canonical_url : string;
  seg_doc_type : string;
  seg_pine_version : string;
  segment_id : string;
  segment_type : string;
  segment_order : Z;
  raw_html : string;
  anchor_id : option string;
  symbol_name : option string;
  symbol_type : option string;
}.

(** [serialize_nodes(nodes)] *)
Definition serialize_nodes (nodes : list Soup.node) : string :=
  Py.strip (Py.join "" (map Soup.str nodes)).

(** [extract_symbol_type(anchor_tag)] *)
Definition extract_symbol_type (anchor_tag : Soup.node) : option string :=
  RenderedReference.first_truthy
    (map (fun candidate => Soup.get_text "" (Soup.el_tag candidate))
         (Soup.find_all RenderedReference.has_kind_class anchor_tag)).

(** The siblings collected after an anchor: up to, not including, the first
    one carrying a non-empty id. *)
Fixpoint siblings_until_id (siblings : list Soup.node) : list Soup.node :=
  match siblings with
  | [] => []
  | sibling :: rest =>
      if Py.truthy (default "" (Soup.get sibling "id")) then []
      else sibling :: siblings_until_id rest
  end.

(** The [for anchor in anchors] loop of [parse_reference_segments]. *)
Fixpoint reference_loop (artifact : Artifact) (anchors : list Soup.element)
    (segment_order : Z) (segments : list Segment) : list Segment :=
  match anchors with
  | [] => segments
  | anchor :: rest =>
      let anchor_id := default "" (Soup.get (Soup.el_tag anchor) "id") in
      let nodes := Soup.el_tag anchor :: siblings_until_id (Soup.next_siblings anchor) in
      let raw_html := serialize_nodes nodes in
      let text := Soup.get_text " " (Soup.el_tag anchor) in
      let symbol_name := if Py.truthy text then Some text else None in
      let symbol_type := extract_symbol_type (Soup.el_tag anchor) in
      reference_loop artifact rest (segment_order + 1)
        (segments ++
         [{| seg_source_artifact_id := source_artifact_id artifact;
             seg_canonical_url := canonical_url artifact;
             seg_doc_type := doc_type artifact;
             seg_pine_version := pine_version artifact;
             segment_id := source_artifact_id artifact +:+ ":" +:+ anchor_id;
             segment_type := "reference_entry";
             segment_order := segment_order;
             raw_html := raw_html;
             anchor_id := Some anchor_id;
             symbol_name := symbol_name;
             symbol_type := symbol_type |}])%list
  end.

(** [parse_reference_segments(artifact)], on the parsed artifact. *)
Definition parse_reference_segments (artifact : Artifact) (soup : list Soup.node)
    : Py.result (list Segment) :=
  match RenderedReference.select_container soup with
  | None => Py.Raise (Py.ValueError "reference_container_missing")
  | Some container =>
      let anchors :=
        filter
          (fun tag =>
             negb (String.eqb (default "" (Soup.get (Soup.el_tag tag) "id")) "tv-content")
             = true)
          (Soup.find_all (fun n => Soup.has_attr n "id") container) in
      match anchors with
      | [] => Py.Raise (Py.ValueError "reference_no_anchors")
      | _ => Py.Return (reference_loop artifact anchors 1 [])
      end
  end.

End Segmentation.

(** [segment_artifacts] of the same file, over the artifacts [load_artifacts]
    returns.  [parse_guide_segments] is taken as given; [read artifact] is the
    parsed content of the file at [artifact.raw_path]. *)
Module SegmentationRun.

Import Segmentation.

Record Failure : Type := {
  fail_source_artifact_id : string;
  fail_canonical_url : string;
  fail_doc_type : string;
  fail_pine_version : string;
  fail_reason : string;
}.

Definition failure_for (artifact : Artifact) (why : string) : Failure :=
  {| fail_source_artifact_id := source_artifact_id artifact;
     fail_canonical_url := canonical_url artifact;
     fail_doc_type := doc_type artifact;
     fail_pine_version := pine_version artifact;
     fail_reason := why |}.

Section Artifacts.

Variable parse_guide_segments : Artifact -> Py.result (list Segment).
Variable read : Artifact -> list Soup.node.

(** The body of the [try] for one artifact: [None] for a document type that
    is neither [guide] nor [reference]. *)
Definition parse_artifact (artifact : Artifact) : option (Py.result (list Segment)) :=
  if String.eqb (doc_type artifact) "guide" then Some (parse_guide_segments artifact)
  else if String.eqb (doc_type artifact) "reference"
  then Some (parse_reference_segments artifact (read artifact))
  else None.

(** The [for artifact in artifacts] loop.  Only [ValueError] is caught; any
    other exception leaves the function. *)
Fixpoint artifacts_loop (artifacts : list Artifact) (segments : list Segment)
    (failures : list Failure) : Py.result (list Segment * list Failure) :=
  match artifacts with
  | [] => Py.Return (segments, failures)
  | artifact :: rest =>
      match parse_artifact artifact with
      | None =>
          artifacts_loop rest segments
            (failures ++ [failure_for artifact "unknown_doc_type"])%list
      | Some (Py.Return parsed) => artifacts_loop rest (segments ++ parsed)%list failures
      | Some (Py.Raise (Py.ValueError msg)) =>
          let failures := (failures ++ [failure_for artifact msg])%list in
          if String.eqb (doc_type artifact) "reference"
          then Py.Return (segments, failures)
          else artifacts_loop rest segments failures
      | Some (Py.Raise e) => Py.Raise e
      end
  end.

(** [segment_artifacts(raw_root)], from the loaded artifacts on. *)
Definition segment_artifacts (artifacts : list Artifact)
    : Py.result (list Segment * list Failure) :=
  artifacts_loop artifacts [] [].

End Artifacts.

End SegmentationRun.

(** ** tradingview_ingest/reference_normalization.py *)

Module ReferenceNormalization.

Definition ANCHOR_PREFIXES : list string :=
  ["var_"; "fun_"; "const_"; "type_"; "kw_"; "op_"; "an_"].

Definition SYMBOL_TYPES : list string :=
  map (fun prefix => Py.rstrip_char prefix "_") ANCHOR_PREFIXES.

(** [derive_symbol_type(anchor_id)] *)
Fixpoint derive_symbol_type_from (prefixes : list string) (anchor_id : string)
    : Py.result string :=
  match prefixes with
  | [] => Py.Raise (Py.ValueError ("unknown_anchor_prefix:" +:+ anchor_id))
  | prefix :: rest =>
      if Py.startswith anchor_id prefix then Py.Return (Py.rstrip_char prefix "_")
      else derive_symbol_type_from rest anchor_id
  end.

Definition derive_symbol_type (anchor_id : option string) : Py.result string :=
  match anchor_id with
  | None => Py.Raise (Py.AttributeError "'NoneType' object has no attribute 'startswith'")
  | Some anchor_id => derive_symbol_type_from ANCHOR_PREFIXES anchor_id
  end.

(** One parsed line of the segments file: what [segment.get(key)] returns
    for the keys the function reads ([None] for an absent or null key). *)
Record SegmentLine : Type := {
  seg_anchor_id : option string;
  seg_source_artifact_id : option string;
  seg_symbol_name : option string;
  seg_canonical_url : option string;
  seg_segment_order : option Z;
  seg_raw_html : option string;
  seg_run_id : option string;
  seg_segment_id : option string;
}.

Inductive line : Type :=
| Blank
| Json (segment : SegmentLine).

(** The record written for one segment. *)
Record SymbolRecord : Type := {
  reference_symbol_id : string;
  anchor_id : option string;
  symbol_name : option string;
  symbol_type : string;
  canonical_url : option string;
  pine_version : string;
  segment_order : option Z;
  raw_html : option string;
  run_id : option string;
  source_artifact_id : option string;
  segment_id : option string;
  symbol_name_normalized : string;
  symbol_signature : string;
  symbol_category : string;
  notes : string;
}.

(** [f"{value}"] for a value that may be [None] *)
Definition fmt (value : option string) : string := default "None" value.

(** [value in (None, "")] *)
Definition is_missing (value : option string) : bool :=
  match value with
  | None => true
  | Some v => negb (Py.truthy v)
  end.

Definition is_missing_int (value : option Z) : bool :=
  match value with
  | None => true
  | Some _ => false
  end.

(** [[key for key in required if record.get(key) in (None, "")]] *)
Definition missing_keys (record : SymbolRecord) : list string :=
  map fst
    (filter (fun kv => snd kv = true)
       [("reference_symbol_id", is_missing (Some (reference_symbol_id record)));
        ("anchor_id", is_missing (anchor_id record));
        ("symbol_name", is_missing (symbol_name record));
        ("symbol_type", is_missing (Some (symbol_type record)));
        ("canonical_url", is_missing (canonical_url record));
        ("pine_version", is_missing (Some (pine_version record)));
        ("segment_order", is_missing_int (segment_order record));
        ("raw_html", is_missing (raw_html record));
        ("run_id", is_missing (run_id record));
        ("source_artifact_id", is_missing (source_artifact_id record));
        ("segment_id", is_missing (segment_id record))]).

(** The output file: [None] when it does not exist, otherwise its lines. *)
Definition output_file : Type := option (list SymbolRecord).

(** The variables of the [for line in source] loop; [target] is what has
    been written to the output file. *)
Record LoopState : Type := {
  seen_ids : gset string;
  sample_ids : list string;
  written : Z;
  target : list SymbolRecord;
}.

(** The body of the loop for one parsed line. *)
Definition normalize_line (segment : SegmentLine) (st : LoopState)
    : Py.result LoopState :=
  let anchor_id := seg_anchor_id segment in
  let source_artifact_id := seg_source_artifact_id segment in
  let reference_symbol_id := fmt source_artifact_id +:+ ":" +:+ fmt anchor_id in
  match derive_symbol_type anchor_id with
  | Py.Raise e => Py.Raise e
  | Py.Return derived_type =>
      let record :=
        {| reference_symbol_id := reference_symbol_id;
           anchor_id := anchor_id;
           symbol_name := seg_symbol_name segment;
           symbol_type := derived_type;
           canonical_url := seg_canonical_url segment;
           pine_version := "v6";
           segment_order := seg_segment_order segment;
           raw_html := seg_raw_html segment;
           run_id := seg_run_id segment;
           source_artifact_id := source_artifact_id;
           segment_id := seg_segment_id segment;
           symbol_name_normalized := "";
           symbol_signature := "";
           symbol_category := "";
           notes := "" |} in
      let missing := missing_keys record in
      match missing with
      | _ :: _ => Py.Raise (Py.ValueError ("missing_required:" +:+ Py.join "," missing))
      | [] =>
          if negb (String.eqb (pine_version record) "v6") then
            Py.Raise (Py.ValueError ("invalid_pine_version:" +:+ pine_version record))
          else if negb (existsb (String.eqb (symbol_type record)) SYMBOL_TYPES) then
            Py.Raise (Py.ValueError ("invalid_symbol_type:" +:+ symbol_type record))
          else if bool_decide (reference_symbol_id ∈ seen_ids st) then
            Py.Raise (Py.ValueError
                        ("duplicate_reference_symbol_id:" +:+ reference_symbol_id))
          else
            Py.Return
              {| seen_ids := {[reference_symbol_id]} ∪ seen_ids st;
                 sample_ids :=
                   if Py.len (sample_ids st) <? 5
                   then (sample_ids st ++ [reference_symbol_id])%list
                   else sample_ids st;
                 written := written st + 1;
                 target := (target st ++ [record])%list |}
      end
  end.

(** The [for line in source] loop: what the output file holds when the loop
    ends, and what the function returns or raises. *)
Fixpoint normalize_loop (lines : list line) (st : LoopState)
    : list SymbolRecord * Py.result (Z * list string) :=
  match lines with
  | [] => (target st, Py.Return (written st, sample_ids st))
  | Blank :: rest => normalize_loop rest st
  | Json segment :: rest =>
      match normalize_line segment st with
      | Py.Raise e => (target st, Py.Raise e)
      | Py.Return st' => normalize_loop rest st'
      end
  end.

(** [normalize_reference_symbols(segments_path, output_path)]: [lines] is the
    content of the segments file, [output] the output file before the call;
    the result pairs the output file after the call with what the call
    returns or raises. *)
Definition normalize_reference_symbols (output_path : string) (lines : list line)
    (output : output_file) : output_file * Py.result (Z * list string) :=
  match output with
  | Some (_ :: _) => (output, Py.Raise (Py.FileExistsError ("output_exists:" +:+ output_path)))
  | _ =>
      let '(target, outcome) :=
        normalize_loop lines
          {| seen_ids := ∅; sample_ids := []; written := 0;
             target := default [] output |} in
      (Some target, outcome)
  end.

End ReferenceNormalization.

(** ** tradingview_ingest/acquisition.py *)

Module Acquisition.

Record InventoryItem : Type := {
  canonical_url : string;
  doc_type : string;
  pine_version : string;
  source_entry_point : string;
  discovered_at : string;
  discovery_method : string;
  segmentation_strategy : option string;
}.

Record FetchResult : Type := {
  status : Z;
  content_type : option string;
  content_encoding : option string;
  raw_bytes : string;
  decoded_length : option Z;
}.

Record FailureRecord : Type := {
  f_canonical_url : string;
  f_doc_type : string;
  f_pine_version : string;
  reason : string;
}.

(** The metadata dictionary [write_raw_and_meta] dumps next to an artifact.
    When read back, an absent or null ["checksum"] is the empty string (the
    code treats all three alike). *)
Record Meta : Type := {
  meta_canonical_url : string;
  meta_doc_type : string;
  meta_pine_version : string;
  meta_source_entry_point : string;
  meta_discovered_at : string;
  meta_discovery_method : string;
  meta_segmentation_strategy : option string;
  fetched_at : string;
  http_status : Z;
  meta_content_type : option string;
  content_length : option Z;
  meta_content_encoding : option string;
  checksum : string;
  acquisition_run_id : string;
}.

(** What [json.loads] makes of a sidecar file. *)
Inductive sidecar : Type :=
| Unparsable
| Parsed (meta : Meta).

(** The files under the output root, by the way the code accesses them:
    artifacts are read and written as bytes, sidecars as JSON. *)
Record Store : Type := {
  raw_files : gmap string string;
  meta_files : gmap string sidecar;
}.

(** The counters dictionary. *)
Record Counts : Type := {
  attempted : Z;
  written : Z;
  skipped : Z;
  failed_guide : Z;
  failed_reference : Z;
}.

(** The world a run talks to.  [robots] is the answer to the request for
    [robots.txt] ([None]: the request raised); [fetch i k] the answer to
    attempt number [k] (from zero) for the inventory item at position [i]
    ([None]: [fetch_bytes] raised); [now_suffix i] and [now_iso i] what
    [datetime.now(...).strftime(...)] and [utc_now_iso()] give while item
    [i] is written. *)
Record World : Type := {
  robots : option FetchResult;
  fetch : nat -> nat -> option FetchResult;
  now_suffix : nat -> string;
  now_iso : nat -> string;
}.

(** Everything a run changes: the counters, the lines of the run log, the
    files, and the requests sent (one url per call to [fetch_bytes]). *)
Record RunState : Type := {
  counts : Counts;
  run_log : list FailureRecord;
  store : Store;
  requests : list string;
}.

Inductive flow : Type :=
| Continue
| Break.

(** [parse_robots_disallow(robots_txt)] *)
Fixpoint parse_robots_lines (lines : list string) (active : bool) (disallow : list string)
    : list string :=
  match lines with
  | [] => disallow
  | line :: rest =>
      let stripped := Py.strip line in
      if negb (Py.truthy stripped) || Py.startswith stripped "#"
      then parse_robots_lines rest active disallow
      else
        let lower := Py.lower stripped in
        if Py.startswith lower "user-agent:" then
          let agent := Py.strip (default "" (Py.after_first ":" stripped)) in
          parse_robots_lines rest (String.eqb agent "*") disallow
        else if active && Py.startswith lower "disallow:" then
          let path := Py.strip (default "" (Py.after_first ":" stripped)) in
          if Py.truthy path then parse_robots_lines rest active (disallow ++ [path])%list
          else parse_robots_lines rest active disallow
        else parse_robots_lines rest active disallow
  end.

Definition parse_robots_disallow (robots_txt : string) : list string :=
  parse_robots_lines (Py.splitlines robots_txt) false [].

(** [fetch_robots_txt(host)], given the answer to the request. *)
Definition fetch_robots_txt (answer : FetchResult) : string :=
  if negb (status answer =? 200) then "" else raw_bytes answer.

Section Run.

(** [hashlib.sha256(data).hexdigest()] *)
Variable sha256_hex : string -> string.

(** [urlparse(url).path] *)
Variable url_path : string -> string.

(** [url_hash(url)] *)
Definition url_hash (url : string) : string := sha256_hex url.

(** [is_allowed_by_robots(url, disallow_paths)] *)
Definition is_allowed_by_robots (url : string) (disallow_paths : list string) : bool :=
  let path := if Py.truthy (url_path url) then url_path url else "/" in
  negb (Py.any (Py.startswith path) disallow_paths).

(** [artifact_paths(output_root, item, suffix)] *)
Definition artifact_paths (output_root : string) (item : InventoryItem)
    (suffix : option string) : string * string :=
  let base_dir := Py.path_join_all output_root [doc_type item; pine_version item] in
  let file_hash := url_hash (canonical_url item) in
  let base_name :=
    match suffix with
    | Some sfx => if Py.truthy sfx then file_hash +:+ "." +:+ sfx +:+ ".html"
                  else file_hash +:+ ".html"
    | None => file_hash +:+ ".html"
    end in
  let raw_path := Py.path_join base_dir base_name in
  let meta_path := raw_path +:+ ".meta.json" in
  (raw_path, meta_path).

(** [existing_checksum(meta_path, raw_path)] *)
Definition existing_checksum (st : Store) (meta_path raw_path : string) : option string :=
  match meta_files st !! meta_path, raw_files st !! raw_path with
  | Some side, Some bytes =>
      match side with
      | Unparsable => None
      | Parsed meta =>
          let expected := checksum meta in
          if negb (Py.truthy expected) then None
          else
            let actual := sha256_hex bytes in
            if negb (String.eqb actual expected) then None else Some expected
      end
  | _, _ => None
  end.

(** [write_raw_and_meta(raw_path, meta_path, item, result, run_id)] *)
Definition write_raw_and_meta (raw_path meta_path : string) (item : InventoryItem)
    (result : FetchResult) (run_id now : string) (st : Store) : Store :=
  let checksum := sha256_hex (raw_bytes result) in
  let meta :=
    {| meta_canonical_url := canonical_url item;
       meta_doc_type := doc_type item;
       meta_pine_version := pine_version item;
       meta_source_entry_point := source_entry_point item;
       meta_discovered_at := discovered_at item;
       meta_discovery_method := discovery_method item;
       meta_segmentation_strategy := segmentation_strategy item;
       fetched_at := now;
       http_status := status result;
       meta_content_type := content_type result;
       content_length := decoded_length result;
       meta_content_encoding := content_encoding result;
       checksum := checksum;
       acquisition_run_id := run_id |} in
  {| raw_files := <[raw_path := raw_bytes result]> (raw_files st);
     meta_files := <[meta_path := Parsed meta]> (meta_files st) |}.

(** [fetch_with_retries(url, retries, backoff_seconds)] for item [i]:
    attempt [k] is tried; when it raises and [attempt > retries] does not
    hold yet, the next one follows.  [left] is the number of retries left.
    Returns the answer ([None]: the last attempt raised) and the number of
    calls to [fetch_bytes]. *)
Fixpoint fetch_attempts (w : World) (i : nat) (k : nat) (left : nat)
    : option FetchResult * nat :=
  match fetch w i k with
  | Some result => (Some result, S k)
  | None =>
      match left with
      | O => (None, S k)
      | S left' => fetch_attempts w i (S k) left'
      end
  end.

Definition fetch_with_retries (w : World) (i : nat) (retries : Z)
    : option FetchResult * nat :=
  fetch_attempts w i 0 (Z.to_nat retries).

Definition bump_attempted (c : Counts) : Counts :=
  {| attempted := attempted c + 1; written := written c; skipped := skipped c;
     failed_guide := failed_guide c; failed_reference := failed_reference c |}.

Definition bump_written (c : Counts) : Counts :=
  {| attempted := attempted c; written := written c + 1; skipped := skipped c;
     failed_guide := failed_guide c; failed_reference := failed_reference c |}.

Definition bump_skipped (c : Counts) : Counts :=
  {| attempted := attempted c; written := written c; skipped := skipped c + 1;
     failed_guide := failed_guide c; failed_reference := failed_reference c |}.

Definition bump_failed_guide (c : Counts) : Counts :=
  {| attempted := attempted c; written := written c; skipped := skipped c;
     failed_guide := failed_guide c + 1; failed_reference := failed_reference c |}.

Definition bump_failed_reference (c : Counts) : Counts :=
  {| attempted := attempted c; written := written c; skipped := skipped c;
     failed_guide := failed_guide c; failed_reference := failed_reference c + 1 |}.

(** The three failure branches of the loop body share their shape: write the
    failure record to the log, then either count a reference failure and
    [break], or count a guide failure and [continue]. *)
Definition record_failure (item : InventoryItem) (why : string) (st : RunState)
    : RunState * flow :=
  let record :=
    {| f_canonical_url := canonical_url item; f_doc_type := doc_type item;
       f_pine_version := pine_version item; reason := why |} in
  let log' := (run_log st ++ [record])%list in
  if String.eqb (doc_type item) "reference" then
    ({| counts := bump_failed_reference (counts st); run_log := log';
        store := store st; requests := requests st |}, Break)
  else
    ({| counts := bump_failed_guide (counts st); run_log := log';
        store := store st; requests := requests st |}, Continue).

(** [f"http_{result.status}"] *)
Definition http_reason (code : Z) : string :=
  "http_" +:+ pretty code.

(** The body of [for item in inventory] for the item at position [i]. *)
Definition process_item (w : World) (disallow_paths : list string)
    (output_root run_id : string) (retries : Z)
    (i : nat) (item : InventoryItem) (st : RunState) : RunState * flow :=
  let st := {| counts := bump_attempted (counts st); run_log := run_log st;
               store := store st; requests := requests st |} in
  if negb (is_allowed_by_robots (canonical_url item) disallow_paths)
  then record_failure item "robots_disallow" st
  else
    let '(raw_path, meta_path) := artifact_paths output_root item None in
    match existing_checksum (store st) meta_path raw_path with
    | Some _ =>
        ({| counts := bump_skipped (counts st); run_log := run_log st;
            store := store st; requests := requests st |}, Continue)
    | None =>
        let '(answer, calls) := fetch_with_retries w i retries in
        let st := {| counts := counts st; run_log := run_log st; store := store st;
                     requests := (requests st ++ repeat (canonical_url item) calls)%list |} in
        match answer with
        | None => record_failure item "fetch_error" st
        | Some result =>
            if (status result <? 200) || (status result >=? 300)
            then record_failure item (http_reason (status result)) st
            else
              let '(raw_path, meta_path) :=
                if bool_decide (is_Some (raw_files (store st) !! raw_path))
                   || bool_decide (is_Some (meta_files (store st) !! meta_path))
                then artifact_paths output_root item (Some (now_suffix w i))
                else (raw_path, meta_path) in
              ({| counts := bump_written (counts st); run_log := run_log st;
                  store := write_raw_and_meta raw_path meta_path item result run_id
                             (now_iso w i) (store st);
                  requests := requests st |}, Continue)
        end
    end.

(** The [for item in inventory] loop, from position [i] on. *)
Fixpoint acquire_loop (w : World) (disallow_paths : list string)
    (output_root run_id : string) (retries : Z)
    (inventory : list InventoryItem) (i : nat) (st : RunState) : RunState :=
  match inventory with
  | [] => st
  | item :: rest =>
      match process_item w disallow_paths output_root run_id retries i item st with
      | (st', Break) => st'
      | (st', Continue) =>
          acquire_loop w disallow_paths output_root run_id retries rest (S i) st'
      end
  end.

Definition zero_counts : Counts :=
  {| attempted := 0; written := 0; skipped := 0; failed_guide := 0; failed_reference := 0 |}.

(** [acquire_inventory(inventory, output_root, run_log_path, retries, ...)]
    on the files [files]; [run_id] is the stem of [run_log_path].  [None]
    when the request for [robots.txt] raises, which ends the call before the
    loop. *)
Definition acquire_inventory (w : World) (inventory : list InventoryItem)
    (output_root run_id : string) (retries : Z) (files : Store) : option RunState :=
  match robots w with
  | None => None
  | Some answer =>
      let robots_txt := fetch_robots_txt answer in
      let disallow_paths := parse_robots_disallow robots_txt in
      Some (acquire_loop w disallow_paths output_root run_id retries inventory 0
              {| counts := zero_counts; run_log := []; store := files; requests := [] |})
  end.

End Run.

End Acquisition.

(** ** urllib.parse

    [urlparse] and [urlunparse] belong to the Python library; the sources
    are embedded over any pair of them.  [urlparse_simple] and
    [urlunparse_simple] are an instance for URLs of the shape
    [scheme://netloc/path?query#fragment] (no [;params]), used to run the
    embedded functions on examples. *)

Module Urllib.

Record ParseResult : Type := {
  scheme : string;
  netloc : string;
  path : string;
  params : string;
  query : string;
  fragment : string;
}.

(** The text before the first [c], and the text after it if there is one. *)
Fixpoint split_first (c : ascii) (s : string) : string * option string :=
  match s with
  | EmptyString => (EmptyString, None)
  | String a rest =>
      if Ascii.eqb a c then (EmptyString, Some rest)
      else let '(before, after) := split_first c rest in (String a before, after)
  end.

(** The text before the first [/], and the text from that [/] on. *)
Fixpoint split_before_slash (s : string) : string * string :=
  match s with
  | EmptyString => (EmptyString, EmptyString)
  | String a rest =>
      if Ascii.eqb a "/" then (EmptyString, s)
      else let '(before, after) := split_before_slash rest in (String a before, after)
  end.

Definition is_scheme_char (c : ascii) : bool :=
  let n := nat_of_ascii c in
  ((65 <=? n) && (n <=? 90) || (97 <=? n) && (n <=? 122) || (48 <=? n) && (n <=? 57)
   || (n =? 43) || (n =? 45) || (n =? 46))%nat.

Fixpoint all_scheme_chars (s : string) : bool :=
  match s with
  | EmptyString => true
  | String a rest => is_scheme_char a && all_scheme_chars rest
  end.

Definition split_netloc (rest : string) : string * string :=
  match rest with
  | String "/" (String "/" after) => split_before_slash after
  | _ => (EmptyString, rest)
  end.

Definition urlparse_simple (url : string) : ParseResult :=
  let '(url, frag) := split_first "#" url in
  let '(url, qry) := split_first "?" url in
  let '(sch, rest) :=
    match split_first ":" url with
    | (before, Some after) =>
        if Py.truthy before && all_scheme_chars before then (Py.lower before, after)
        else (EmptyString, url)
    | (_, None) => (EmptyString, url)
    end in
  let '(loc, pth) := split_netloc rest in
  {| scheme := sch; netloc := loc; path := pth; params := "";
     query := default "" qry; fragment := default "" frag |}.

Definition urlunparse_simple (parts : ParseResult) : string :=
  (if Py.truthy (scheme parts) then scheme parts +:+ ":" else "")
  +:+ (if Py.truthy (netloc parts) then "//" +:+ netloc parts else "")
  +:+ path parts
  +:+ (if Py.truthy (params parts) then ";" +:+ params parts else "")
  +:+ (if Py.truthy (query parts) then "?" +:+ query parts else "")
  +:+ (if Py.truthy (fragment parts) then "#" +:+ fragment parts else "").

End Urllib.

(** ** tradingview_ingest/discovery.py *)

Module Discovery.

Import Urllib.

Section Canonical.

Variable urlparse : string -> ParseResult.
Variable urlunparse : ParseResult -> string.

(** [canonicalize_url(raw_url)] *)
Definition canonicalize_url (raw_url : string) : option string :=
  let parsed := urlparse raw_url in
  if negb (Py.truthy (scheme parsed)) && negb (Py.truthy (netloc parsed)) then None
  else
    let scheme := "https" in
    let netloc :=
      if Py.truthy (netloc parsed) then netloc parsed else "www.tradingview.com" in
    let netloc :=
      if String.eqb netloc "tradingview.com" then "www.tradingview.com" else netloc in
    let path := if Py.truthy (path parsed) then path parsed else "/" in
    let path :=
      if negb (String.eqb path "/") && Py.endswith_char path "/"
      then Py.rstrip_char path "/" else path in
    Some (urlunparse
            {| scheme := scheme; netloc := netloc; path := path;
               params := ""; query := ""; fragment := "" |}).

End Canonical.

Definition EXCLUDED_PATH_SEGMENTS : list string :=
  ["/blog/"; "/support/"; "/community/"; "/ideas/"; "/pricing/"; "/markets/";
   "/brokers/"; "/accounts/"; "/login/"].

Definition PINE_DOCS_PREFIX : string := "/pine-script-docs".
Definition PINE_REFERENCE_PREFIX : string := "/pine-script-reference".
Definition PINE_REFERENCE_V6_PREFIX : string := "/pine-script-reference/v6".

Record DiscoveredUrl : Type := {
  canonical_url : string;
  source_entry_point : string;
  doc_type : string;
  pine_version : string;
  discovered_at : string;
  discovery_method : string;
  segmentation_strategy : option string;
}.

Record ExcludedUrl : Type := {
  raw_url : string;
  resolved_url : string;
  ex_source_entry_point : string;
  reason : string;
}.

(** [s.endswith(suffix)]: some tail of [s] is [suffix]. *)
Fixpoint endswith (s suffix : string) : bool :=
  String.eqb s suffix
  || match s with
     | EmptyString => false
     | String _ rest => endswith rest suffix
     end.

Section Scope.

Variable urlparse : string -> ParseResult.
Variable urlunparse : ParseResult -> string.

(** [is_in_scope(canonical_url, entry_prefixes)] *)
Definition is_in_scope (canonical_url : string) (entry_prefixes : list string) : bool :=
  let parsed := urlparse canonical_url in
  if negb (String.eqb (netloc parsed) "www.tradingview.com") then false
  else
    existsb
      (fun prefix =>
         String.eqb (path parsed) prefix || Py.startswith (path parsed) (prefix +:+ "/"))
      entry_prefixes.

(** [is_excluded_path(canonical_url)] *)
Definition is_excluded_path (canonical_url : string) : bool :=
  let path := Py.lower (path (urlparse canonical_url)) in
  Py.any (fun segment => Py.contains path segment) EXCLUDED_PATH_SEGMENTS.

(** [detect_doc_type(canonical_url)] *)
Definition detect_doc_type (canonical_url : string) : option string :=
  let path := path (urlparse canonical_url) in
  if Py.startswith path PINE_DOCS_PREFIX then Some "guide"
  else if Py.startswith path PINE_REFERENCE_PREFIX then Some "reference"
  else None.

(** [detect_pine_version(canonical_url)] *)
Definition detect_pine_version (canonical_url : string) : option string :=
  let path := path (urlparse canonical_url) in
  if Py.contains path "/v6/" || endswith path "/v6" then Some "v6"
  else if Py.contains path "/v5/" || endswith path "/v5" then Some "v5"
  else None.

(** What the body of the inner loop of [discover_guide_urls] does with one
    URL of a sitemap: [continue] without a trace, one more excluded URL, or
    an entry of the [discovered] dictionary under the canonical URL. *)
Inductive guide_outcome : Type :=
| Skipped
| Excluded (excluded : ExcludedUrl)
| Discovered (found : DiscoveredUrl).

Definition discover_guide_url (entry_point discovered_at raw : string) : guide_outcome :=
  match canonicalize_url urlparse urlunparse raw with
  | None => Skipped
  | Some canonical =>
      if negb (Py.truthy canonical) then Skipped
      else
        let excluded why :=
          Excluded {| raw_url := raw; resolved_url := canonical;
                      ex_source_entry_point := entry_point; reason := why |} in
        let path := path (urlparse canonical) in
        if negb (Py.startswith path PINE_DOCS_PREFIX) then excluded "out_of_scope"
        else if String.eqb path PINE_DOCS_PREFIX then excluded "out_of_scope"
        else if is_excluded_path canonical then excluded "out_of_scope"
        else
          match detect_pine_version canonical with
          | None => excluded "non_explicit_version"
          | Some version =>
              if negb (existsb (String.eqb version) ["v5"; "v6"])
              then excluded "out_of_scope"
              else
                Discovered
                  {| canonical_url := canonical; source_entry_point := entry_point;
                     doc_type := "guide"; pine_version := version;
                     discovered_at := discovered_at; discovery_method := "sitemap";
                     segmentation_strategy := None |}
          end
  end.

(** [discover_reference_urls(entry_point, discovered_at)] *)
Definition discover_reference_urls (entry_point discovered_at : string)
    : list DiscoveredUrl * list ExcludedUrl :=
  match canonicalize_url urlparse urlunparse entry_point with
  | None =>
      ([], [{| raw_url := entry_point; resolved_url := entry_point;
               ex_source_entry_point := entry_point; reason := "out_of_scope" |}])
  | Some canonical =>
      if negb (Py.truthy canonical) then
        ([], [{| raw_url := entry_point; resolved_url := entry_point;
                 ex_source_entry_point := entry_point; reason := "out_of_scope" |}])
      else if negb (Py.startswith (path (urlparse canonical)) PINE_REFERENCE_V6_PREFIX)
      then
        ([], [{| raw_url := entry_point; resolved_url := canonical;
                 ex_source_entry_point := entry_point; reason := "out_of_scope" |}])
      else
        ([{| canonical_url := canonical; source_entry_point := entry_point;
             doc_type := "reference"; pine_version := "v6";
             discovered_at := discovered_at;
             discovery_method := "single_page_reference";
             segmentation_strategy := Some "anchor_based" |}], [])
  end.

End Scope.

End Discovery.

(** ** Vocabulary of the statements *)

Module Vocabulary.

Import RenderedReference IngestScript.

(** The five environment fields of two manifests agree. *)
Definition env_unchanged (baseline candidate : Manifest) : Prop :=
  m_browser_version baseline = m_browser_version candidate
  /\ m_user_agent baseline = m_user_agent candidate
  /\ m_viewport baseline = m_viewport candidate
  /\ m_locale baseline = m_locale candidate
  /\ m_timezone baseline = m_timezone candidate.

(** Candidate minus baseline. *)
Definition anchor_delta (baseline candidate : Manifest) : Z :=
  m_anchor_count_total candidate - m_anchor_count_total baseline.

(** The sum of a counts dictionary over a list of keys. *)
Definition sum_over (keys : list string) (counts : gmap string Z) : Z :=
  fold_right Z.add 0 (map (fun key => counts !!! key) keys).

(** One poll of [render_reference]: from the stability counter and the
    previous count to the new counter and the count just seen. *)
Definition poll_step (page : Page) (k : nat) (before : Z * Z) : Z * Z :=
  let current_count := Py.len (collect_anchor_ids ANCHOR_PREFIXES (page_ids page k)) in
  ((if current_count =? snd before then fst before + 1 else 0), current_count).

(** [(stable_count, previous_count)] before the [k]-th poll. *)
Fixpoint counts_before (page : Page) (k : nat) : Z * Z :=
  match k with
  | O => (0, -1)
  | S k' => poll_step page k' (counts_before page k')
  end.

(** [(stable_count, current_count)] once the [k]-th poll is taken. *)
Definition counts_after (page : Page) (k : nat) : Z * Z :=
  poll_step page k (counts_before page k).

(** The threshold-and-stability condition holds at the [k]-th poll. *)
Definition stable_at (config : RenderConfig) (page : Page) (k : nat) : bool :=
  (snd (counts_after page k) >=? anchor_min_threshold config)
  && (fst (counts_after page k) >=? stabilize_checks config).

(** After the [k]-th poll and its sleep, more than [max_wait_seconds] have
    elapsed. *)
Definition timed_out_at (config : RenderConfig) (page : Page) (k : nat) : bool :=
  negb (Qle_bool (page_elapsed page k) (inject_Z (max_wait_seconds config))).


(** The condition holds, at poll [k], before the timeout has elapsed. *)
Definition stable_first (config : RenderConfig) (page : Page) (k : nat) : Prop :=
  (forall j, (j < k)%nat ->
     stable_at config page j = false /\ timed_out_at config page j = false)
  /\ stable_at config page k = true.

(** The ids of a list of anchors, as the segmentation loop reads them. *)
Definition anchor_ids_of (anchors : list Soup.element) : list string :=
  map (fun anchor => default "" (Soup.get (Soup.el_tag anchor) "id")) anchors.

(** The number of segments whose field [field] is empty. *)
Definition count_empty (field : Segment -> string) (segments : list Segment) : Z :=
  Py.len (filter (fun segment => Py.truthy (field segment) = false) segments).

(** The reasons with which reference segmentation gives up. *)
Definition structural_reasons : list string :=
  ["reference_container_missing"; "reference_no_anchors"; "duplicate_anchor_id"].

Definition qc_reasons : list string :=
  ["segment_count_mismatch"; "empty_symbol_names"; "empty_raw_html"].

(** [n] slashes. *)
Fixpoint slashes (n : nat) : string :=
  match n with
  | O => EmptyString
  | S n' => String "/" (slashes n')
  end.

End Vocabulary.

Module NormalizationVocabulary.

Import ReferenceNormalization.

(** The loop state after a list of lines that all pass ([None] when one of
    them raises). *)
Fixpoint normalize_prefix (lines : list line) (st : LoopState) : option LoopState :=
  match lines with
  | [] => Some st
  | Blank :: rest => normalize_prefix rest st
  | Json segment :: rest =>
      match normalize_line segment st with
      | Py.Raise _ => None
      | Py.Return st' => normalize_prefix rest st'
      end
  end.

(** The state the loop starts in over an output file that is absent or
    empty. *)
Definition initial_state : LoopState :=
  {| seen_ids := ∅; sample_ids := []; written := 0; target := [] |}.

(** The identifier a line derives. *)
Definition derived_id (segment : SegmentLine) : string :=
  fmt (seg_source_artifact_id segment) +:+ ":" +:+ fmt (seg_anchor_id segment).

(** The parsed lines of the segments file, the blank ones left out. *)
Definition json_lines (lines : list line) : list SegmentLine :=
  omap (fun l => match l with Blank => None | Json segment => Some segment end) lines.

(** The required keys that depend on what the segment holds for them. *)
Definition segment_keys : list string :=
  ["symbol_name"; "canonical_url"; "segment_order"; "raw_html"; "run_id";
   "source_artifact_id"; "segment_id"].

(** A record that passes the checks of the loop body. *)
Definition valid_record (record : SymbolRecord) : Prop :=
  missing_keys record = []
  /\ pine_version record = "v6"
  /\ symbol_type record ∈ SYMBOL_TYPES.

End NormalizationVocabulary.

Module AcquisitionVocabulary.

Import Acquisition.

Section Run.

Variable sha256_hex : string -> string.
Variable url_path : string -> string.
Variable w : World.
Variable disallow_paths : list string.
Variable output_root run_id : string.
Variable retries : Z.

(** The item's path matches a disallow rule. *)
Definition robots_disallows (item : InventoryItem) : Prop :=
  is_allowed_by_robots url_path (canonical_url item) disallow_paths = false.

(** The artifact and the sidecar of the item exist under the item's
    un-suffixed paths and the stored checksum, which is not empty, is the
    checksum of the artifact's bytes. *)
Definition unchanged_on_disk (files : Store) (item : InventoryItem) : Prop :=
  exists bytes meta,
    raw_files files !! fst (artifact_paths sha256_hex output_root item None) = Some bytes
    /\ meta_files files !! snd (artifact_paths sha256_hex output_root item None)
       = Some (Parsed meta)
    /\ checksum meta <> ""
    /\ checksum meta = sha256_hex bytes.

(** Every attempt for the item at position [i] raises. *)
Definition retries_exhausted (i : nat) : Prop :=
  forall k, (k <= Z.to_nat retries)%nat -> fetch w i k = None.

(** Some attempt for the item at position [i] is answered, the earlier ones
    having raised, with a status outside 200..299. *)
Definition answered_non_2xx (i : nat) (code : Z) : Prop :=
  exists k result,
    (k <= Z.to_nat retries)%nat
    /\ (forall j, (j < k)%nat -> fetch w i j = None)
    /\ fetch w i k = Some result
    /\ status result = code
    /\ (code < 200 \/ 300 <= code).

(** Some attempt for the item at position [i] is answered with a 2xx
    status, the earlier ones having raised. *)
Definition answered_2xx (i : nat) (result : FetchResult) : Prop :=
  exists k,
    (k <= Z.to_nat retries)%nat
    /\ (forall j, (j < k)%nat -> fetch w i j = None)
    /\ fetch w i k = Some result
    /\ 200 <= status result < 300.

(** The item at position [i] fails with reason [why] when the files are
    [files]: robots disallow, or a fetch that is attempted and ends in an
    error after the retries or in a non-2xx status. *)
Definition item_fails (files : Store) (i : nat) (item : InventoryItem) (why : string)
    : Prop :=
  (robots_disallows item /\ why = "robots_disallow")
  \/ (~ robots_disallows item
      /\ existing_checksum sha256_hex files
           (snd (artifact_paths sha256_hex output_root item None))
           (fst (artifact_paths sha256_hex output_root item None)) = None
      /\ ((retries_exhausted i /\ why = "fetch_error")
          \/ exists code, answered_non_2xx i code /\ why = http_reason code)).

(** The loop over a prefix of the inventory, telling whether it ended by
    [break]. *)
Fixpoint acquire_prefix (inventory : list InventoryItem) (i : nat) (st : RunState)
    : RunState * flow :=
  match inventory with
  | [] => (st, Continue)
  | item :: rest =>
      match process_item sha256_hex url_path w disallow_paths output_root run_id retries
              i item st with
      | (st', Break) => (st', Break)
      | (st', Continue) => acquire_prefix rest (S i) st'
      end
  end.

(** The paths of the item at position [i] under the time stamp read while
    it is processed. *)
Definition stamped_paths (i : nat) (item : InventoryItem) : string * string :=
  artifact_paths sha256_hex output_root item (Some (now_suffix w i)).

(** The un-suffixed paths of an item. *)
Definition plain_paths (item : InventoryItem) : string * string :=
  artifact_paths sha256_hex output_root item None.

(** The paths [process_item] writes to after a successful fetch: the
    time-stamped ones when the un-suffixed artifact or sidecar exists. *)
Definition write_target (i : nat) (item : InventoryItem) (files : Store) : string * string :=
  if bool_decide (is_Some (raw_files files !! fst (plain_paths item)))
     || bool_decide (is_Some (meta_files files !! snd (plain_paths item)))
  then stamped_paths i item else plain_paths item.

(** The failure record logged for an item. *)
Definition failure_of (item : InventoryItem) (why : string) : FailureRecord :=
  {| f_canonical_url := canonical_url item; f_doc_type := doc_type item;
     f_pine_version := pine_version item; reason := why |}.

End Run.

(** The bookkeeping every state of a run satisfies. *)
Definition balanced (st : RunState) : Prop :=
  attempted (counts st)
  = written (counts st) + skipped (counts st) + failed_guide (counts st)
    + failed_reference (counts st)
  /\ Py.len (run_log st) = failed_guide (counts st) + failed_reference (counts st)
  /\ 0 <= written (counts st) /\ 0 <= skipped (counts st)
  /\ 0 <= failed_guide (counts st).

End AcquisitionVocabulary.

Module DiscoveryVocabulary.

Import Urllib.

(** The six components [canonicalize_url] hands to [urlunparse] ([None]
    when it returns [None]). *)
Definition canonical_parts (urlparse : string -> ParseResult) (raw_url : string)
    : option ParseResult :=
  let parsed := urlparse raw_url in
  if negb (Py.truthy (scheme parsed)) && negb (Py.truthy (netloc parsed)) then None
  else
    let netloc :=
      if Py.truthy (netloc parsed) then netloc parsed else "www.tradingview.com" in
    let netloc :=
      if String.eqb netloc "tradingview.com" then "www.tradingview.com" else netloc in
    let path := if Py.truthy (path parsed) then path parsed else "/" in
    let path :=
      if negb (String.eqb path "/") && Py.endswith_char path "/"
      then Py.rstrip_char path "/" else path in
    Some {| scheme := "https"; netloc := netloc; path := path;
            params := ""; query := ""; fragment := "" |}.

End DiscoveryVocabulary.

(** ** Inputs the statements are run on *)

Module Examples.

Import RenderedReference IngestScript.

(** A page that never shows more than two anchors and on which the clock
    has passed the 120 seconds of [default_config] after the first poll. *)
Definition slow_page : Page :=
  {| page_ids := fun _ => ["fun_plot"; "var_close"; "header"; ""; "tv-content"];
     page_elapsed := fun _ => 121%Q;
     page_content := "<html><body><main id='tv-content'></main></body></html>";
     page_browser_version := "120.0.6099.28" |}.

Definition hex_digit (n : nat) : ascii :=
  ascii_of_nat (if (n <? 10)%nat then 48 + n else 87 + n).

Fixpoint hex_of (data : string) : string :=
  match data with
  | EmptyString => EmptyString
  | String a rest =>
      String (hex_digit (nat_of_ascii a / 16))
        (String (hex_digit (nat_of_ascii a mod 16)) (hex_of rest))
  end.

(** A stand-in for SHA-256 on examples: a hexadecimal digest that is
    injective and never empty. *)
Definition toy_sha256_hex (data : string) : string := "5a" +:+ hex_of data.

Definition url_path_simple (url : string) : string :=
  Urllib.path (Urllib.urlparse_simple url).

Definition welcome_item : Acquisition.InventoryItem :=
  {| Acquisition.canonical_url := "https://www.tradingview.com/pine-script-docs/welcome";
     Acquisition.doc_type := "guide";
     Acquisition.pine_version := "v6";
     Acquisition.source_entry_point := "https://www.tradingview.com/pine-script-docs";
     Acquisition.discovered_at := "2026-01-09T13:00:00Z";
     Acquisition.discovery_method := "sitemap";
     Acquisition.segmentation_strategy := None |}.

Definition reference_item : Acquisition.InventoryItem :=
  {| Acquisition.canonical_url := "https://www.tradingview.com/pine-script-reference/v6";
     Acquisition.doc_type := "reference";
     Acquisition.pine_version := "v6";
     Acquisition.source_entry_point := "https://www.tradingview.com/pine-script-reference/v6";
     Acquisition.discovered_at := "2026-01-09T13:00:00Z";
     Acquisition.discovery_method := "entry_point";
     Acquisition.segmentation_strategy := Some "anchor" |}.

Definition faq_item : Acquisition.InventoryItem :=
  {| Acquisition.canonical_url := "https://www.tradingview.com/pine-script-docs/faq";
     Acquisition.doc_type := "guide";
     Acquisition.pine_version := "v6";
     Acquisition.source_entry_point := "https://www.tradingview.com/pine-script-docs";
     Acquisition.discovered_at := "2026-01-09T13:00:00Z";
     Acquisition.discovery_method := "sitemap";
     Acquisition.segmentation_strategy := None |}.

Definition answer_200 (body : string) : Acquisition.FetchResult :=
  {| Acquisition.status := 200;
     Acquisition.content_type := Some "text/html";
     Acquisition.content_encoding := None;
     Acquisition.raw_bytes := body;
     Acquisition.decoded_length := Some (Z.of_nat (String.length body)) |}.

(** [robots.txt] with one rule for every agent. *)
Definition robots_answer : Acquisition.FetchResult :=
  answer_200 ("User-agent: *" +:+ String (ascii_of_nat 10) "Disallow: /private").

(** Every request is answered, except those for the item at position 1,
    which all raise. *)
Definition second_item_down : Acquisition.World :=
  {| Acquisition.robots := Some robots_answer;
     Acquisition.fetch :=
       fun i _ => match i with
                  | 1%nat => None
                  | _ => Some (answer_200 "<html>page</html>")
                  end;
     Acquisition.now_suffix := fun _ => "20260109T135601Z";
     Acquisition.now_iso := fun _ => "2026-01-09T13:56:01Z" |}.

(** Every request is answered with [body]; [robots.txt] is [robots_answer]. *)
Definition all_up (body : string) : Acquisition.World :=
  {| Acquisition.robots := Some robots_answer;
     Acquisition.fetch := fun _ _ => Some (answer_200 body);
     Acquisition.now_suffix := fun _ => "20260109T135601Z";
     Acquisition.now_iso := fun _ => "2026-01-09T13:56:01Z" |}.


Definition no_files : Acquisition.Store :=
  {| Acquisition.raw_files := ∅; Acquisition.meta_files := ∅ |}.

Definition fresh_run (files : Acquisition.Store) : Acquisition.RunState :=
  {| Acquisition.counts := Acquisition.zero_counts; Acquisition.run_log := [];
     Acquisition.store := files; Acquisition.requests := [] |}.


(** An artifact without its sidecar, as a run interrupted between the two
    writes leaves it. *)
Definition orphan_artifact : Acquisition.Store :=
  {| Acquisition.raw_files :=
       {[ fst (Acquisition.artifact_paths toy_sha256_hex "raw" welcome_item None)
          := "<html>interrupted</html>" ]};
     Acquisition.meta_files := ∅ |}.

(** A reference page on which two entries carry the same id. *)
Definition duplicate_doc : list Soup.node :=
  [Soup.Tag "html" []
     [Soup.Tag "body" []
        [Soup.Tag "main" [("id", "tv-content")]
           [Soup.Tag "div" [("id", "fun_plot")]
              [Soup.Tag "h3" [] [Soup.NavigableString "plot"];
               Soup.NavigableString "Plots a series."];
            Soup.Tag "div" [("id", "fun_plot")]
              [Soup.Tag "h3" [] [Soup.NavigableString "plot"];
               Soup.NavigableString "Plots a series, again."]]]]].

(** A reference page with two entries. *)
Definition two_entries_doc : list Soup.node :=
  [Soup.Tag "html" []
     [Soup.Tag "body" []
        [Soup.Tag "main" [("id", "tv-content")]
           [Soup.Tag "div" [("id", "fun_plot")]
              [Soup.Tag "h3" [] [Soup.NavigableString "plot"];
               Soup.NavigableString "Plots a series."];
            Soup.Tag "div" [("id", "var_close")]
              [Soup.Tag "h3" [] [Soup.NavigableString "close"];
               Soup.NavigableString "Close price."]]]]].

Definition reference_artifact : Segmentation.Artifact :=
  {| Segmentation.source_artifact_id := "5a68";
     Segmentation.raw_path := "raw/reference/v6/5a68.html";
     Segmentation.canonical_url := "https://www.tradingview.com/pine-script-reference/v6";
     Segmentation.doc_type := "reference";
     Segmentation.pine_version := "v6" |}.

(** A manifest of a complete render that counted [total] anchors. *)
Definition complete_manifest (total : Z) : IngestScript.Manifest :=
  {| IngestScript.m_manifest_version := "1.0";
     IngestScript.m_canonical_url := RenderedReference.REFERENCE_URL;
     IngestScript.m_doc_type := "reference";
     IngestScript.m_pine_version := "v6";
     IngestScript.m_run_id := "20260109T135601Z";
     IngestScript.m_capture_method := "rendered_playwright";
     IngestScript.m_capture_timestamp := "2026-01-09T13:56:01Z";
     IngestScript.m_render_engine := "playwright";
     IngestScript.m_browser_name := "chromium";
     IngestScript.m_browser_version := "120.0.6099.28";
     IngestScript.m_user_agent := "PineScript-Builder rendered acquisition/0.1";
     IngestScript.m_viewport :=
       {| RenderedReference.width := 1400; RenderedReference.height := 900 |};
     IngestScript.m_locale := "en-US";
     IngestScript.m_timezone := "UTC";
     IngestScript.m_render_wait_strategy := "anchor_stability";
     IngestScript.m_max_wait_seconds := 120;
     IngestScript.m_post_render_delay_ms := 1000;
     IngestScript.m_anchor_count_total := total;
     IngestScript.m_anchor_counts_by_prefix := ∅;
     IngestScript.m_artifact_path :=
       "raw/rendered/v6/reference/20260109T135601Z/reference.html";
     IngestScript.m_artifact_size_bytes := 4096;
     IngestScript.m_artifact_checksum_sha256 := "5a68";
     IngestScript.m_status := "complete";
     IngestScript.m_notes := "" |}.

(** One line of a segments file, as [segment_reference] writes it. *)
Definition plot_line : ReferenceNormalization.SegmentLine :=
  {| ReferenceNormalization.seg_anchor_id := Some "fun_plot";
     ReferenceNormalization.seg_source_artifact_id := Some "5a68";
     ReferenceNormalization.seg_symbol_name := Some "plot";
     ReferenceNormalization.seg_canonical_url :=
       Some "https://www.tradingview.com/pine-script-reference/v6/";
     ReferenceNormalization.seg_segment_order := Some 1;
     ReferenceNormalization.seg_raw_html := Some "<div id='fun_plot'>plot</div>";
     ReferenceNormalization.seg_run_id := Some "20260109T135601Z";
     ReferenceNormalization.seg_segment_id := Some "5a68:fun_plot" |}.

(** A line whose symbol name is missing. *)
Definition nameless_line : ReferenceNormalization.SegmentLine :=
  {| ReferenceNormalization.seg_anchor_id := Some "var_close";
     ReferenceNormalization.seg_source_artifact_id := Some "5a68";
     ReferenceNormalization.seg_symbol_name := Some "";
     ReferenceNormalization.seg_canonical_url :=
       Some "https://www.tradingview.com/pine-script-reference/v6/";
     ReferenceNormalization.seg_segment_order := Some 2;
     ReferenceNormalization.seg_raw_html := Some "<div id='var_close'></div>";
     ReferenceNormalization.seg_run_id := Some "20260109T135601Z";
     ReferenceNormalization.seg_segment_id := Some "5a68:var_close" |}.

(** A guide artifact, and a guide parser that finds one section in it. *)
Definition guide_artifact : Segmentation.Artifact :=
  {| Segmentation.source_artifact_id := "77aa";
     Segmentation.raw_path := "raw/guide/v6/77aa.html";
     Segmentation.canonical_url := "https://www.tradingview.com/pine-script-docs/welcome";
     Segmentation.doc_type := "guide";
     Segmentation.pine_version := "v6" |}.

Definition one_section (artifact : Segmentation.Artifact)
    : Py.result (list Segmentation.Segment) :=
  Py.Return
    [{| Segmentation.seg_source_artifact_id := Segmentation.source_artifact_id artifact;
        Segmentation.seg_canonical_url := Segmentation.canonical_url artifact;
        Segmentation.seg_doc_type := Segmentation.doc_type artifact;
        Segmentation.seg_pine_version := Segmentation.pine_version artifact;
        Segmentation.segment_id := Segmentation.source_artifact_id artifact +:+ ":1";
        Segmentation.segment_type := "guide_section";
        Segmentation.segment_order := 1;
        Segmentation.raw_html := "<h2>Welcome</h2>";
        Segmentation.anchor_id := None;
        Segmentation.symbol_name := None;
        Segmentation.symbol_type := None |}].

(** Every artifact file holds a page without the reference container. *)
Definition no_container (artifact : Segmentation.Artifact) : list Soup.node := [].

Definition empty_store : IngestScript.Store :=
  {| IngestScript.segment_files := ∅; IngestScript.log_files := ∅ |}.

(** A configuration with small thresholds: two anchors, one stable poll. *)
Definition quick_config : RenderedReference.RenderConfig :=
  {| RenderedReference.viewport :=
       {| RenderedReference.width := 1400; RenderedReference.height := 900 |};
     RenderedReference.locale := "en-US";
     RenderedReference.timezone := "UTC";
     RenderedReference.user_agent := "PineScript-Builder rendered acquisition/0.1";
     RenderedReference.render_wait_strategy := "anchor_stability";
     RenderedReference.max_wait_seconds := 120;
     RenderedReference.post_render_delay_ms := 1000;
     RenderedReference.anchor_min_threshold := 2;
     RenderedReference.stabilize_checks := 1;
     RenderedReference.stabilize_interval_seconds := 1%Q;
     RenderedReference.max_scrolls := 5 |}.

(** A page that shows the same two anchors at every poll, polled once per
    second. *)
Definition steady_page : RenderedReference.Page :=
  {| RenderedReference.page_ids :=
       fun _ => ["fun_plot"; "var_close"; "header"; ""; "tv-content"];
     RenderedReference.page_elapsed := fun k => inject_Z (Z.of_nat (S k));
     RenderedReference.page_content :=
       "<html><body><main id='tv-content'></main></body></html>";
     RenderedReference.page_browser_version := "120.0.6099.28" |}.

End Examples.

(** * Properties *)

Import Vocabulary.

(** ** Drift detector *)

Section Drift.

Import RenderedReference IngestScript.

Lemma viewport_eqb_eq (a b : Viewport) : viewport_eqb a b = true <-> a = b.
Proof.
  unfold viewport_eqb. destruct a as [wa ha], b as [wb hb]; simpl.
  rewrite andb_true_iff, !Z.eqb_eq. split.
  - intros [-> ->]. reflexivity.
  - intros H. injection H as -> ->. split; reflexivity.
Qed.

Lemma str_differs_false (a b : string) : str_differs (a, b) = false <-> a = b.
Proof.
  unfold str_differs; simpl. rewrite negb_false_iff. apply String.eqb_eq.
Qed.

Lemma env_changed_false (baseline candidate : Manifest) :
  env_changed_of (environment_deltas (generate_drift_report baseline candidate)) = false
  <-> env_unchanged baseline candidate.
Proof.
  unfold env_changed_of, env_unchanged; simpl.
  rewrite !orb_false_iff, negb_false_iff, viewport_eqb_eq, !str_differs_false.
  tauto.
Qed.

Lemma severity_of_report (baseline candidate : Manifest) :
  r_drift_severity (generate_drift_report baseline candidate)
  = drift_severity (anchor_delta baseline candidate)
      (env_changed_of (environment_deltas (generate_drift_report baseline candidate))).
Proof. reflexivity. Qed.

(** C1. For every pair of manifests the severity of the drift report is
    [none] exactly when the anchor-count delta (candidate minus baseline) is
    zero and the environment is unchanged, [high] exactly when the delta is
    non-zero with absolute value at least 10, [medium] exactly when it is
    non-zero with absolute value below 10, and [low] exactly when it is zero
    and the environment changed; the recommended action is the image of the
    severity under the fixed table none/ignore, low/manual_review,
    medium/resegment, high/block_pipeline. *)
Theorem drift_severity_policy (baseline candidate : Manifest) :
  let report := generate_drift_report baseline candidate in
  let delta := anchor_delta baseline candidate in
  (r_drift_severity report = "none" <-> delta = 0 /\ env_unchanged baseline candidate)
  /\ (r_drift_severity report = "high" <-> delta <> 0 /\ 10 <= Z.abs delta)
  /\ (r_drift_severity report = "medium" <-> delta <> 0 /\ Z.abs delta < 10)
  /\ (r_drift_severity report = "low" <-> delta = 0 /\ ~ env_unchanged baseline candidate)
  /\ anchor_count_delta report = delta
  /\ recommended_action report = drift_recommended_action (r_drift_severity report)
  /\ drift_recommended_action "none" = "ignore"
  /\ drift_recommended_action "low" = "manual_review"
  /\ drift_recommended_action "medium" = "resegment"
  /\ drift_recommended_action "high" = "block_pipeline".
Proof.
  intros report delta.
  assert (Hfour :
    (r_drift_severity report = "none" <-> delta = 0 /\ env_unchanged baseline candidate)
    /\ (r_drift_severity report = "high" <-> delta <> 0 /\ 10 <= Z.abs delta)
    /\ (r_drift_severity report = "medium" <-> delta <> 0 /\ Z.abs delta < 10)
    /\ (r_drift_severity report = "low"
        <-> delta = 0 /\ ~ env_unchanged baseline candidate)).
  { pose proof (env_changed_false baseline candidate) as Henv.
    unfold report. rewrite (severity_of_report baseline candidate).
    fold delta. unfold drift_severity, Py.abs.
    destruct (env_changed_of _) eqn:Hchg;
      destruct (Z.eqb_spec delta 0) as [Hz | Hnz]; simpl;
      try destruct (Z.geb_spec (Z.abs delta) 10) as [Hge | Hlt];
      repeat match goal with |- _ /\ _ => split end;
      try (split; [ discriminate | intros [Ha Hb]; first [ lia | tauto ] ]);
      try (split; [ intros _; split; first [ assumption | lia | tauto ] | reflexivity ]).
    - split; [ discriminate | intros [_ Hu]; apply Henv in Hu; discriminate ].
    - split; [ intros _; split; [ assumption | ] | reflexivity ].
      intros Hu. apply Henv in Hu. discriminate. }
  destruct Hfour as (H1 & H2 & H3 & H4).
  exact (conj H1 (conj H2 (conj H3 (conj H4
           (conj eq_refl (conj eq_refl (conj eq_refl (conj eq_refl
              (conj eq_refl eq_refl))))))))).
Qed.

(** The literal scenarios of the specification. *)
Example drift_scenarios :
  drift_severity (500 - 500) false = "none"
  /\ drift_severity (488 - 500) false = "high"
  /\ drift_severity (500 - 500) true = "low"
  /\ drift_severity (505 - 500) false = "medium".
Proof. repeat split. Qed.

End Drift.

(** ** Per-prefix anchor counts *)

Section PrefixCounts.

Import RenderedReference IngestScript.

Lemma sum_over_insert_notin (keys : list string) (p : string) (v : Z)
    (counts : gmap string Z) :
  p ∉ keys -> sum_over keys (<[p := v]> counts) = sum_over keys counts.
Proof.
  unfold sum_over. induction keys as [| k keys IH]; intros Hnotin; simpl.
  - reflexivity.
  - apply not_elem_of_cons in Hnotin as [Hne Hrest].
    rewrite lookup_total_insert_ne by congruence.
    rewrite IH by assumption. reflexivity.
Qed.

Lemma sum_over_insert (keys : list string) (p : string) (v : Z)
    (counts : gmap string Z) :
  NoDup keys -> p ∈ keys ->
  sum_over keys (<[p := v]> counts) = sum_over keys counts - counts !!! p + v.
Proof.
  induction keys as [| k keys IH]; intros Hnodup Hin.
  - apply elem_of_nil in Hin. contradiction.
  - apply NoDup_cons in Hnodup as [Hk Hnodup].
    destruct (decide (k = p)) as [-> | Hne].
    + change (sum_over (p :: keys) (<[p:=v]> counts))
        with (<[p:=v]> counts !!! p + sum_over keys (<[p:=v]> counts)).
      rewrite lookup_total_insert_eq, sum_over_insert_notin by assumption.
      change (sum_over (p :: keys) counts) with (counts !!! p + sum_over keys counts).
      lia.
    + apply elem_of_cons in Hin as [Heq | Hin]; [congruence |].
      change (sum_over (k :: keys) (<[p:=v]> counts))
        with (<[p:=v]> counts !!! k + sum_over keys (<[p:=v]> counts)).
      rewrite lookup_total_insert_ne by congruence.
      rewrite IH by assumption.
      change (sum_over (k :: keys) counts) with (counts !!! k + sum_over keys counts).
      lia.
Qed.

(** An id is counted under the first prefix it starts with, and under no
    other. *)
Lemma count_first_prefix_first (anchor_id : string) (before : list string)
    (p : string) (after : list string) (counts : gmap string Z) :
  Forall (fun q => Py.startswith anchor_id q = false) before ->
  Py.startswith anchor_id p = true ->
  count_first_prefix anchor_id (before ++ p :: after) counts
  = <[p := counts !!! p + 1]> counts.
Proof.
  intros Hbefore Hp. induction Hbefore as [| q before Hq _ IH]; simpl.
  - rewrite Hp. reflexivity.
  - rewrite Hq. exact IH.
Qed.

Lemma count_first_prefix_sum (keys : list string) (anchor_id : string)
    (prefixes : list string) (counts : gmap string Z) :
  NoDup keys -> prefixes ⊆ keys ->
  Py.any (Py.startswith anchor_id) prefixes = true ->
  sum_over keys (count_first_prefix anchor_id prefixes counts) = sum_over keys counts + 1.
Proof.
  intros Hnodup. induction prefixes as [| p prefixes IH]; intros Hsub Hany; simpl in *.
  - discriminate.
  - destruct (Py.startswith anchor_id p) eqn:Hp.
    + rewrite sum_over_insert by (try assumption; apply Hsub; left).
      lia.
    + apply IH; [ | exact Hany ].
      intros q Hq. apply Hsub. right. exact Hq.
Qed.

Lemma collect_anchor_ids_match (prefixes ids : list string) :
  Forall (fun id => Py.any (Py.startswith id) prefixes = true)
         (collect_anchor_ids prefixes ids).
Proof.
  induction ids as [| id ids IH]; simpl.
  - constructor.
  - destruct (Py.truthy id); simpl; [ | exact IH ].
    destruct (String.eqb id "tv-content"); [ exact IH | ].
    destruct (Py.any (Py.startswith id) prefixes) eqn:Hany; [ | exact IH ].
    constructor; assumption.
Qed.

Lemma anchor_prefixes_nodup : NoDup ANCHOR_PREFIXES.
Proof. apply (bool_decide_unpack (NoDup ANCHOR_PREFIXES)). vm_compute. exact I. Qed.

Lemma fold_counts_sum (ids : list string) (counts : gmap string Z) :
  Forall (fun id => Py.any (Py.startswith id) ANCHOR_PREFIXES = true) ids ->
  sum_over ANCHOR_PREFIXES
    (fold_left (fun counts anchor_id => count_first_prefix anchor_id ANCHOR_PREFIXES counts)
       ids counts)
  = sum_over ANCHOR_PREFIXES counts + Py.len ids.
Proof.
  intros Hall. revert counts.
  induction Hall as [| id ids Hid _ IH]; intros counts; cbn [fold_left].
  - unfold Py.len; simpl. lia.
  - rewrite IH.
    rewrite (count_first_prefix_sum ANCHOR_PREFIXES); try assumption.
    + unfold Py.len; simpl length. lia.
    + exact anchor_prefixes_nodup.
    + intros q Hq; exact Hq.
Qed.

(** The counts of a list of collected ids add up to its length. *)
Lemma anchor_prefix_counts_total (ids : list string) :
  sum_over ANCHOR_PREFIXES
    (anchor_prefix_counts (collect_anchor_ids ANCHOR_PREFIXES ids))
  = Py.len (collect_anchor_ids ANCHOR_PREFIXES ids).
Proof.
  unfold anchor_prefix_counts.
  rewrite fold_counts_sum by apply collect_anchor_ids_match.
  reflexivity.
Qed.

Lemma poll_loop_collected (fuel : nat) (config : RenderConfig) (page : Page) (k : nat)
    (stable_count previous_count scrolls : Z) (st : PollState) :
  poll_loop fuel config page k stable_count previous_count scrolls = Some st ->
  exists j, poll_anchor_ids st = collect_anchor_ids ANCHOR_PREFIXES (page_ids page j).
Proof.
  revert k stable_count previous_count scrolls.
  induction fuel as [| fuel IH]; intros k stable_count previous_count scrolls; simpl.
  - discriminate.
  - destruct (_ && _).
    + intros [= <-]. exists k. reflexivity.
    + destruct (negb _).
      * intros [= <-]. exists k. reflexivity.
      * apply IH.
Qed.

(** C9. In every manifest produced by a render run, [anchor_count_total]
    equals the sum of [anchor_counts_by_prefix] over the seven fixed
    prefixes. *)
Theorem manifest_total_is_sum_of_prefix_counts (fuel : nat) (run_id : string)
    (page : Page) (html_size : Z) (checksum now rel_path : string)
    (manifest : Manifest) :
  render_and_manifest fuel run_id page html_size checksum now rel_path = Some manifest ->
  m_anchor_count_total manifest
  = sum_over ANCHOR_PREFIXES (m_anchor_counts_by_prefix manifest).
Proof.
  unfold render_and_manifest, render_reference.
  destruct (poll_loop fuel _ page 0 0 (-1) 0) as [st |] eqn:Hloop; [ | discriminate ].
  intros [= <-]. simpl.
  apply poll_loop_collected in Hloop as [j ->].
  symmetry. apply anchor_prefix_counts_total.
Qed.

End PrefixCounts.

Lemma manifest_total_is_sum_of_prefix_counts_witness :
  exists manifest,
    IngestScript.render_and_manifest 1 "20260109T135601Z" Examples.slow_page
      55 "c0ffee" "2026-01-09T13:56:01Z" "raw/rendered/v6/reference/r/reference.html"
    = Some manifest
    /\ IngestScript.m_anchor_count_total manifest = 2
    /\ IngestScript.m_anchor_count_total manifest
       = sum_over RenderedReference.ANCHOR_PREFIXES
           (IngestScript.m_anchor_counts_by_prefix manifest).
Proof.
  eexists. split; [ reflexivity | ]. split; [ reflexivity | ].
  apply (manifest_total_is_sum_of_prefix_counts 1 "20260109T135601Z" Examples.slow_page
           55 "c0ffee" "2026-01-09T13:56:01Z" "raw/rendered/v6/reference/r/reference.html").
  reflexivity.
Defined.

(** ** Render outcome *)

Section RenderOutcome.

Import RenderedReference IngestScript.

Variable config : RenderConfig.
Variable page : Page.



Lemma poll_loop_stable (n fuel k : nat) (scrolls : Z) :
  (n < fuel)%nat ->
  (forall j, (k <= j < k + n)%nat ->
     stable_at config page j = false /\ timed_out_at config page j = false) ->
  stable_at config page (k + n) = true ->
  exists st,
    poll_loop fuel config page k (fst (counts_before page k)) (snd (counts_before page k))
      scrolls = Some st
    /\ poll_notes st = ""
    /\ poll_anchor_ids st = collect_anchor_ids ANCHOR_PREFIXES (page_ids page (k + n))
    /\ poll_stable_count st = fst (counts_after page (k + n)).
Proof.
  revert fuel k scrolls.
  induction n as [| n IH]; intros fuel k scrolls Hfuel Hbefore Hstable;
    (destruct fuel as [| fuel]; [ lia | ]); cbn [poll_loop]; cbv zeta;
    change (Py.len (collect_anchor_ids ANCHOR_PREFIXES (page_ids page k)))
      with (snd (counts_after page k));
    change (if snd (counts_after page k) =? snd (counts_before page k)
            then fst (counts_before page k) + 1 else 0)
      with (fst (counts_after page k));
    change ((snd (counts_after page k) >=? anchor_min_threshold config)
            && (fst (counts_after page k) >=? stabilize_checks config))
      with (stable_at config page k);
    change (negb (Qle_bool (page_elapsed page k) (inject_Z (max_wait_seconds config))))
      with (timed_out_at config page k).
  - rewrite Nat.add_0_r in Hstable. rewrite Hstable.
    eexists. split; [ reflexivity | ]. cbn. rewrite Nat.add_0_r. auto.
  - destruct (Hbefore k ltac:(lia)) as [-> ->].
    change (fst (counts_after page k)) with (fst (counts_before page (S k))).
    change (snd (counts_after page k)) with (snd (counts_before page (S k))).
    replace (k + S n)%nat with (S k + n)%nat in * by lia.
    apply IH; [ lia | | assumption ].
    intros j Hj. apply Hbefore. lia.
Qed.




(** When the condition holds first, the status is [complete]. *)
Lemma stable_status_is_complete (url : string) (k fuel : nat) :
  stable_first config page k ->
  (k < fuel)%nat ->
  exists result,
    render_reference fuel url config page = Some result
    /\ status result = "complete"
    /\ notes result = "".
Proof.
  intros (Hbefore & Hstable) Hfuel.
  destruct (poll_loop_stable k fuel 0 0 Hfuel) as (st & Hloop & Hnotes & Hids & Hs).
  - intros j Hj. apply Hbefore. lia.
  - exact Hstable.
  - unfold render_reference. cbn in Hloop. rewrite Hloop.
    eexists. split; [ reflexivity | ]. cbn. rewrite Hnotes, Hids, Hs.
    cbn [Nat.add] in *.
    change ((Py.len (collect_anchor_ids ANCHOR_PREFIXES (page_ids page k))
             >=? anchor_min_threshold config)
            && (fst (counts_after page k) >=? stabilize_checks config))
      with (stable_at config page k).
    rewrite Hstable. cbn. auto.
Qed.

End RenderOutcome.




(** ** Acquisition *)

Import AcquisitionVocabulary.

Section AcquisitionRun.

Import Acquisition.

Variable sha256_hex : string -> string.
Variable url_path : string -> string.
Variable w : World.
Variable disallow_paths : list string.
Variable output_root run_id : string.
Variable retries : Z.

Local Abbreviation process :=
  (process_item sha256_hex url_path w disallow_paths output_root run_id retries).
Local Abbreviation loop :=
  (acquire_loop sha256_hex url_path w disallow_paths output_root run_id retries).
Local Abbreviation prefix_loop :=
  (acquire_prefix sha256_hex url_path w disallow_paths output_root run_id retries).

Lemma fetch_attempts_exhausted (i k left : nat) :
  (forall j, (k <= j <= k + left)%nat -> fetch w i j = None) ->
  fetch_attempts w i k left = (None, S (k + left)).
Proof.
  revert k. induction left as [| left IH]; intros k Hnone; simpl.
  - rewrite (Hnone k) by lia. rewrite Nat.add_0_r. reflexivity.
  - rewrite (Hnone k) by lia. rewrite IH.
    + f_equal. lia.
    + intros j Hj. apply Hnone. lia.
Qed.

Lemma fetch_attempts_answered (i k left n : nat) (result : FetchResult) :
  (n <= left)%nat ->
  (forall j, (k <= j < k + n)%nat -> fetch w i j = None) ->
  fetch w i (k + n) = Some result ->
  fetch_attempts w i k left = (Some result, S (k + n)).
Proof.
  revert k left. induction n as [| n IH]; intros k left Hle Hnone Hsome.
  - rewrite Nat.add_0_r in *. destruct left; simpl; rewrite Hsome; reflexivity.
  - destruct left as [| left]; [ lia | ]. simpl.
    rewrite (Hnone k) by lia.
    replace (k + S n)%nat with (S k + n)%nat in * by lia.
    apply IH; [ lia | | assumption ].
    intros j Hj. apply Hnone. lia.
Qed.

(** A failing item takes the failure branch: the attempt is counted, the
    requests made for it are recorded, and [record_failure] runs. *)
Lemma process_item_fails (i : nat) (item : InventoryItem) (st : RunState) (why : string) :
  item_fails sha256_hex url_path w disallow_paths output_root retries (store st) i item why ->
  exists calls,
    process i item st
    = record_failure item why
        {| counts := bump_attempted (counts st); run_log := run_log st;
           store := store st;
           requests := (requests st ++ repeat (canonical_url item) calls)%list |}.
Proof.
  unfold item_fails, robots_disallows, process_item. cbn [counts run_log store requests].
  intros [[Hrobots ->] | (Hallowed & Hnone & Hfetch)].
  - exists 0%nat. rewrite Hrobots. cbn. rewrite app_nil_r. reflexivity.
  - destruct (is_allowed_by_robots url_path (canonical_url item) disallow_paths);
      [ | congruence ].
    cbn [negb].
    destruct (artifact_paths sha256_hex output_root item None) as [raw_path meta_path].
    cbn [fst snd] in Hnone. rewrite Hnone.
    unfold fetch_with_retries.
    destruct Hfetch as [[Hex ->] | (code & (k & result & Hk & Hbefore & Hsome & Hcode & Hrange) & ->)].
    + rewrite (fetch_attempts_exhausted i 0 (Z.to_nat retries)).
      * eexists. reflexivity.
      * intros j Hj. apply Hex. lia.
    + rewrite (fetch_attempts_answered i 0 (Z.to_nat retries) k result Hk).
      * cbn [fst snd]. rewrite Hcode.
        assert ((code <? 200) || (code >=? 300) = true) as ->.
        { apply orb_true_iff. destruct Hrange; [ left | right ]; lia. }
        eexists. reflexivity.
      * intros j Hj. apply Hbefore. lia.
      * exact Hsome.
Qed.

Lemma acquire_loop_app (before rest : list InventoryItem) (i : nat) (st : RunState) :
  loop (before ++ rest) i st
  = match prefix_loop before i st with
    | (st', Break) => st'
    | (st', Continue) => loop rest (i + length before)%nat st'
    end.
Proof.
  revert i st. induction before as [| item before IH]; intros i st; simpl.
  - rewrite Nat.add_0_r. reflexivity.
  - destruct (process i item st) as [st' [|]].
    + rewrite IH. replace (S i + length before)%nat with (i + S (length before))%nat by lia.
      reflexivity.
    + reflexivity.
Qed.

Lemma process_item_counts (i : nat) (item : InventoryItem) (st st' : RunState) :
  process i item st = (st', Continue) ->
  failed_reference (counts st') = failed_reference (counts st)
  /\ attempted (counts st') = attempted (counts st) + 1.
Proof.
  unfold process_item, record_failure. cbn [counts run_log store requests].
  repeat match goal with
         | |- context [if ?b then _ else _] => destruct b
         | |- context [match ?x with _ => _ end] => destruct x
         end;
    intros [= <-]; cbn; auto.
Qed.

(** A prefix that runs through leaves the reference-failure counter alone
    and counts one attempt per item. *)
Lemma acquire_prefix_counts (before : list InventoryItem) (i : nat) (st st' : RunState) :
  prefix_loop before i st = (st', Continue) ->
  failed_reference (counts st') = failed_reference (counts st)
  /\ attempted (counts st') = attempted (counts st) + Py.len before.
Proof.
  revert i st. induction before as [| item before IH]; intros i st; simpl.
  - intros [= <-]. unfold Py.len; simpl. split; [ reflexivity | lia ].
  - destruct (process i item st) as [st1 [|]] eqn:Hstep; [ | discriminate ].
    intros Hrest. apply process_item_counts in Hstep as [Hf Ha].
    apply IH in Hrest as [Hf' Ha'].
    rewrite Hf', Hf, Ha', Ha. unfold Py.len; simpl length. split; [ reflexivity | lia ].
Qed.

(** What a failure on an item does to the loop: on a [reference] item the
    loop ends there, whatever follows; on any other item the failure is
    counted and logged and the loop goes on with the next item. *)
Lemma failure_step (i : nat) (item : InventoryItem) (st : RunState) (why : string) :
  item_fails sha256_hex url_path w disallow_paths output_root retries (store st) i item why ->
  exists calls,
    let seen :=
      {| counts := bump_attempted (counts st); run_log := run_log st; store := store st;
         requests := (requests st ++ repeat (canonical_url item) calls)%list |} in
    (doc_type item = "reference" ->
       forall later,
         loop (item :: later) i st
         = {| counts := bump_failed_reference (counts seen);
              run_log := (run_log st ++ [failure_of item why])%list;
              store := store st; requests := requests seen |})
    /\ (doc_type item <> "reference" ->
        forall later,
          loop (item :: later) i st
          = loop later (S i)
              {| counts := bump_failed_guide (counts seen);
                 run_log := (run_log st ++ [failure_of item why])%list;
                 store := store st; requests := requests seen |}).
Proof.
  intros Hfails. destruct (process_item_fails i item st why Hfails) as [calls Hstep].
  exists calls. cbv zeta. split; intros Htype later; cbn [acquire_loop];
    rewrite Hstep; unfold record_failure; cbn [counts run_log store requests].
  - apply String.eqb_eq in Htype. rewrite Htype. reflexivity.
  - apply String.eqb_neq in Htype. rewrite Htype. reflexivity.
Qed.

End AcquisitionRun.

Section AcquisitionHalt.

Import Acquisition.

Variable sha256_hex : string -> string.
Variable url_path : string -> string.
Variable w : World.
Variable output_root run_id : string.
Variable retries : Z.
Variable answer : FetchResult.

Local Abbreviation disallow := (parse_robots_disallow (fetch_robots_txt answer)).
Local Abbreviation run :=
  (acquire_inventory sha256_hex url_path w).
Local Abbreviation fails :=
  (item_fails sha256_hex url_path w disallow output_root retries).

(** C2. Acquisition processes the items in order.  When the run reaches an
    item that fails (robots disallow, fetch error after the retries, or a
    non-2xx status): if the item is a [reference], the run ends there with
    exactly one reference failure, one more attempt and one more log line
    than before the item, and the result does not depend on the items that
    follow; if it is a [guide], the failure is logged and counted and the
    run goes on with the next item. *)
Theorem reference_failure_halts_run (before : list InventoryItem) (item : InventoryItem)
    (files : Store) (reached : RunState) (why : string) :
  robots w = Some answer ->
  acquire_prefix sha256_hex url_path w disallow output_root run_id retries before 0
    {| counts := zero_counts; run_log := []; store := files; requests := [] |}
  = (reached, Continue) ->
  fails (store reached) (length before) item why ->
  (doc_type item = "reference" ->
     exists final,
       (forall later,
          run (before ++ item :: later)%list output_root run_id retries files = Some final)
       /\ failed_reference (counts final) = 1
       /\ attempted (counts final) = Py.len before + 1
       /\ written (counts final) = written (counts reached)
       /\ skipped (counts final) = skipped (counts reached)
       /\ failed_guide (counts final) = failed_guide (counts reached)
       /\ run_log final = (run_log reached ++ [failure_of item why])%list
       /\ store final = store reached
       /\ exists calls,
            requests final = (requests reached ++ repeat (canonical_url item) calls)%list)
  /\ (doc_type item = "guide" ->
      exists next,
        (forall later,
           run (before ++ item :: later)%list output_root run_id retries files
           = Some (acquire_loop sha256_hex url_path w disallow output_root run_id retries
                     later (S (length before)) next))
        /\ failed_guide (counts next) = failed_guide (counts reached) + 1
        /\ failed_reference (counts next) = 0
        /\ attempted (counts next) = Py.len before + 1
        /\ run_log next = (run_log reached ++ [failure_of item why])%list
        /\ store next = store reached).
Proof.
  intros Hrobots Hprefix Hfails.
  destruct (acquire_prefix_counts _ _ _ _ _ _ _ _ _ _ _ Hprefix) as [Hfr Hat].
  cbn in Hfr, Hat.
  destruct (failure_step sha256_hex url_path w disallow output_root run_id retries
              (length before) item reached why Hfails) as (calls & Href & Hguide).
  split; intros Htype.
  - exists {| counts := bump_failed_reference (bump_attempted (counts reached));
              run_log := (run_log reached ++ [failure_of item why])%list;
              store := store reached;
              requests := (requests reached ++ repeat (canonical_url item) calls)%list |}.
    split.
    { intros later. unfold acquire_inventory. rewrite Hrobots.
      rewrite acquire_loop_app, Hprefix. cbn [Nat.add].
      rewrite (Href Htype later). reflexivity. }
    cbn. repeat (split; [ first [ reflexivity | lia ] | ]).
    exists calls. reflexivity.
  - assert (Hne : doc_type item <> "reference") by (rewrite Htype; discriminate).
    exists {| counts := bump_failed_guide (bump_attempted (counts reached));
              run_log := (run_log reached ++ [failure_of item why])%list;
              store := store reached;
              requests := (requests reached ++ repeat (canonical_url item) calls)%list |}.
    split.
    { intros later. unfold acquire_inventory. rewrite Hrobots.
      rewrite acquire_loop_app, Hprefix. cbn [Nat.add].
      rewrite (Hguide Hne later). reflexivity. }
    cbn. repeat (split; [ first [ reflexivity | lia ] | ]). reflexivity.
Qed.

End AcquisitionHalt.

(** The scenario of the specification: three items, the second a reference
    whose every attempt fails. *)
Lemma reference_failure_halts_run_witness :
  let disallow :=
    Acquisition.parse_robots_disallow (Acquisition.fetch_robots_txt Examples.robots_answer) in
  let reached :=
    fst (acquire_prefix Examples.toy_sha256_hex Examples.url_path_simple
           Examples.second_item_down disallow "raw" "20260109T135601Z" 2
           [Examples.welcome_item] 0 (Examples.fresh_run Examples.no_files)) in
  Acquisition.robots Examples.second_item_down = Some Examples.robots_answer
  /\ acquire_prefix Examples.toy_sha256_hex Examples.url_path_simple
       Examples.second_item_down disallow "raw" "20260109T135601Z" 2
       [Examples.welcome_item] 0 (Examples.fresh_run Examples.no_files)
     = (reached, Acquisition.Continue)
  /\ item_fails Examples.toy_sha256_hex Examples.url_path_simple Examples.second_item_down
       disallow "raw" 2 (Acquisition.store reached) 1 Examples.reference_item "fetch_error"
  /\ exists final,
       Acquisition.acquire_inventory Examples.toy_sha256_hex Examples.url_path_simple
         Examples.second_item_down
         [Examples.welcome_item; Examples.reference_item; Examples.faq_item]
         "raw" "20260109T135601Z" 2 Examples.no_files = Some final
       /\ Acquisition.failed_reference (Acquisition.counts final) = 1
       /\ Acquisition.attempted (Acquisition.counts final) = 2.
Proof.
  intros disallow reached.
  assert (Hrobots : Acquisition.robots Examples.second_item_down
                    = Some Examples.robots_answer) by reflexivity.
  assert (Hprefix :
            acquire_prefix Examples.toy_sha256_hex Examples.url_path_simple
              Examples.second_item_down disallow "raw" "20260109T135601Z" 2
              [Examples.welcome_item] 0 (Examples.fresh_run Examples.no_files)
            = (reached, Acquisition.Continue)) by (vm_compute; reflexivity).
  assert (Hfails :
            item_fails Examples.toy_sha256_hex Examples.url_path_simple
              Examples.second_item_down disallow "raw" 2 (Acquisition.store reached) 1
              Examples.reference_item "fetch_error").
  { right. split; [ | split ].
    - unfold robots_disallows. vm_compute. discriminate.
    - vm_compute. reflexivity.
    - left. split; [ | reflexivity ]. intros k _. reflexivity. }
  split; [ exact Hrobots | ]. split; [ exact Hprefix | ]. split; [ exact Hfails | ].
  destruct (reference_failure_halts_run Examples.toy_sha256_hex Examples.url_path_simple
              Examples.second_item_down "raw" "20260109T135601Z" 2 Examples.robots_answer
              [Examples.welcome_item] Examples.reference_item Examples.no_files reached
              "fetch_error" Hrobots Hprefix Hfails) as [Href _].
  destruct (Href eq_refl) as (final & Hrun & Hfailed & Hattempted & _).
  exists final. split; [ exact (Hrun [Examples.faq_item]) | ].
  split; [ exact Hfailed | exact Hattempted ].
Defined.

(** ** Skipping unchanged artifacts *)

Section AcquisitionSkip.

Import Acquisition.

Variable sha256_hex : string -> string.
Variable url_path : string -> string.
Variable w : World.
Variable disallow_paths : list string.
Variable output_root run_id : string.
Variable retries : Z.

Local Abbreviation process :=
  (process_item sha256_hex url_path w disallow_paths output_root run_id retries).
Local Abbreviation loop :=
  (acquire_loop sha256_hex url_path w disallow_paths output_root run_id retries).
Local Abbreviation disallowed := (robots_disallows url_path disallow_paths).
Local Abbreviation unchanged := (unchanged_on_disk sha256_hex output_root).

Lemma truthy_nonempty (s : string) : s <> "" -> Py.truthy s = true.
Proof. destruct s; [ congruence | reflexivity ]. Qed.

Lemma existing_checksum_unchanged (files : Store) (item : InventoryItem) :
  unchanged files item ->
  exists expected,
    existing_checksum sha256_hex files
      (snd (artifact_paths sha256_hex output_root item None))
      (fst (artifact_paths sha256_hex output_root item None)) = Some expected.
Proof.
  intros (bytes & meta & Hraw & Hmeta & Hnonempty & Hmatch).
  exists (checksum meta). unfold existing_checksum.
  rewrite Hmeta, Hraw, (truthy_nonempty _ Hnonempty). cbn [negb].
  rewrite <- Hmatch, String.eqb_refl. reflexivity.
Qed.

(** An allowed, unchanged item is skipped: one more attempt, one more skip,
    nothing else changes. *)
Lemma skip_step (i : nat) (item : InventoryItem) (st : RunState) :
  ~ disallowed item ->
  unchanged (store st) item ->
  process i item st
  = ({| counts := bump_skipped (bump_attempted (counts st)); run_log := run_log st;
        store := store st; requests := requests st |}, Continue).
Proof.
  intros Hallowed Hunchanged.
  destruct (existing_checksum_unchanged (store st) item Hunchanged) as [expected Hsome].
  unfold process_item. cbn [counts run_log store requests].
  unfold robots_disallows in Hallowed.
  destruct (is_allowed_by_robots url_path (canonical_url item) disallow_paths);
    [ | congruence ].
  cbn [negb].
  destruct (artifact_paths sha256_hex output_root item None) as [raw_path meta_path].
  cbn [fst snd] in Hsome. rewrite Hsome. reflexivity.
Qed.


End AcquisitionSkip.

Section AcquisitionRerun.

Import Acquisition.

Variable sha256_hex : string -> string.
Variable url_path : string -> string.
Variable w : World.
Variable output_root run_id : string.
Variable retries : Z.
Variable answer : FetchResult.

Local Abbreviation disallow := (parse_robots_disallow (fetch_robots_txt answer)).
Local Abbreviation run := (acquire_inventory sha256_hex url_path w).
Local Abbreviation disallowed := (robots_disallows url_path disallow).
Local Abbreviation unchanged := (unchanged_on_disk sha256_hex output_root).


End AcquisitionRerun.




(** ** Writing next to existing files *)

Section AcquisitionWrites.

Import Acquisition.

Variable sha256_hex : string -> string.
Variable url_path : string -> string.
Variable w : World.
Variable disallow_paths : list string.
Variable output_root run_id : string.
Variable retries : Z.

Local Abbreviation process :=
  (process_item sha256_hex url_path w disallow_paths output_root run_id retries).
Local Abbreviation loop :=
  (acquire_loop sha256_hex url_path w disallow_paths output_root run_id retries).
Local Abbreviation stamped := (stamped_paths sha256_hex w output_root).
Local Abbreviation plain := (plain_paths sha256_hex output_root).
Local Abbreviation target := (write_target sha256_hex w output_root).

(** Whatever branch the loop body takes, the files either stay as they are
    or one artifact and its sidecar are written at [write_target]. *)
Lemma process_item_store (i : nat) (item : InventoryItem) (st : RunState) :
  store (fst (process i item st)) = store st
  \/ exists result now,
       store (fst (process i item st))
       = write_raw_and_meta sha256_hex (fst (target i item (store st)))
           (snd (target i item (store st))) item result run_id now (store st).
Proof.
  unfold process_item, record_failure, write_target, plain_paths, stamped_paths.
  cbn [counts run_log store requests].
  destruct (negb (is_allowed_by_robots _ _ _)).
  { left. destruct (String.eqb _ _); reflexivity. }
  destruct (artifact_paths sha256_hex output_root item None) as [raw_path meta_path].
  cbn [fst snd].
  destruct (existing_checksum _ _ _ _); [ left; reflexivity | ].
  destruct (fetch_with_retries w i retries) as [[result |] calls].
  - destruct ((status result <? 200) || (status result >=? 300)).
    + left. destruct (String.eqb _ _); reflexivity.
    + right. exists result, (now_iso w i).
      destruct (bool_decide _ || bool_decide _);
        [ destruct (artifact_paths _ _ _ _) | ]; reflexivity.
  - left. destruct (String.eqb _ _); reflexivity.
Qed.







(** A successful fetch for an item that is allowed and not skipped writes
    the artifact and its sidecar at [write_target]. *)
Lemma write_step (i : nat) (item : InventoryItem) (st : RunState) (result : FetchResult) :
  ~ robots_disallows url_path disallow_paths item ->
  existing_checksum sha256_hex (store st) (snd (plain item)) (fst (plain item)) = None ->
  answered_2xx w retries i result ->
  exists calls,
    process i item st
    = ({| counts := bump_written (bump_attempted (counts st)); run_log := run_log st;
          store := write_raw_and_meta sha256_hex (fst (target i item (store st)))
                     (snd (target i item (store st))) item result run_id
                     (now_iso w i) (store st);
          requests := (requests st ++ repeat (canonical_url item) calls)%list |},
       Continue).
Proof.
  intros Hallowed Hnone (k & Hk & Hbefore & Hsome & Hrange).
  unfold process_item, write_target, plain_paths, stamped_paths, robots_disallows in *.
  cbn [counts run_log store requests].
  destruct (is_allowed_by_robots url_path (canonical_url item) disallow_paths);
    [ | congruence ].
  cbn [negb].
  destruct (artifact_paths sha256_hex output_root item None) as [raw_path meta_path].
  cbn [fst snd] in *. rewrite Hnone.
  unfold fetch_with_retries.
  rewrite (fetch_attempts_answered w i 0 (Z.to_nat retries) k result Hk);
    [ | intros j Hj; apply Hbefore; lia | exact Hsome ].
  assert ((status result <? 200) || (status result >=? 300) = false) as ->.
  { apply orb_false_iff. split; lia. }
  exists (S (0 + k)).
  destruct (bool_decide _ || bool_decide _);
    [ destruct (artifact_paths _ _ _ _) | ]; reflexivity.
Qed.

End AcquisitionWrites.

Section AcquisitionNoOverwrite.

Import Acquisition.

Variable sha256_hex : string -> string.
Variable url_path : string -> string.
Variable w : World.
Variable output_root run_id : string.
Variable retries : Z.
Variable answer : FetchResult.

Local Abbreviation disallow := (parse_robots_disallow (fetch_robots_txt answer)).
Local Abbreviation run := (acquire_inventory sha256_hex url_path w).
Local Abbreviation stamped := (stamped_paths sha256_hex w output_root).
Local Abbreviation plain := (plain_paths sha256_hex output_root).


End AcquisitionNoOverwrite.



(** ** Canonical URLs *)

Section StripSlashes.

Lemma rstrip_char_no_trailing (s : string) (c : ascii) :
  Py.endswith_char (Py.rstrip_char s c) c = false.
Proof.
  induction s as [| a s IH]; cbn [Py.rstrip_char].
  - reflexivity.
  - destruct (Py.rstrip_char s c) as [| b rest] eqn:Hrest.
    + destruct (Ascii.eqb a c) eqn:Hac; cbn; [ reflexivity | exact Hac ].
    + cbn [Py.endswith_char]. exact IH.
Qed.

Lemma rstrip_char_slashes (s : string) :
  exists n, s = Py.rstrip_char s "/" +:+ slashes n.
Proof.
  induction s as [| a s [n IH]]; cbn [Py.rstrip_char].
  - exists 0%nat. reflexivity.
  - destruct (Py.rstrip_char s "/") as [| b rest] eqn:Hrest.
    + destruct (Ascii.eqb_spec a "/") as [-> | Hne].
      * exists (S n). cbn in IH |- *. rewrite IH at 1. reflexivity.
      * exists n. cbn in IH |- *. rewrite IH at 1. reflexivity.
    + exists n. cbn in IH |- *. rewrite IH at 1. reflexivity.
Qed.

Lemma endswith_char_false_rstrip (s : string) (c : ascii) :
  Py.endswith_char s c = false -> Py.rstrip_char s c = s.
Proof.
  induction s as [| a s IH]; cbn [Py.rstrip_char Py.endswith_char].
  - reflexivity.
  - destruct s as [| b rest].
    + cbn. intros ->. reflexivity.
    + intros H. rewrite (IH H). reflexivity.
Qed.

Lemma append_empty_r (s : string) : s +:+ "" = s.
Proof.
  induction s as [| a s IH]; [ reflexivity | ].
  change (String a (s +:+ "") = String a s). f_equal. exact IH.
Qed.

End StripSlashes.

Section CanonicalUrl.

Import Urllib Discovery.

Variable urlparse : string -> ParseResult.
Variable urlunparse : ParseResult -> string.

Lemma truthy_false (s : string) : Py.truthy s = false <-> s = "".
Proof. destruct s; cbn; split; congruence. Qed.

(** C8. For an input with neither scheme nor network location
    [canonicalize_url] returns nothing.  Otherwise it returns the URL put
    together from scheme [https]; the parsed host, with an absent host and
    [tradingview.com] both replaced by [www.tradingview.com]; the parsed
    path without its trailing slashes, except that the path [/] is kept and
    an empty path becomes [/]; and empty parameters, query and fragment. *)
Theorem canonicalize_url_shape (raw_url : string) :
  let parsed := urlparse raw_url in
  (scheme parsed = "" /\ netloc parsed = "" ->
     canonicalize_url urlparse urlunparse raw_url = None)
  /\ (scheme parsed <> "" \/ netloc parsed <> "" ->
      exists host pth,
        canonicalize_url urlparse urlunparse raw_url
        = Some (urlunparse {| scheme := "https"; netloc := host; path := pth;
                              params := ""; query := ""; fragment := "" |})
        /\ (netloc parsed = "" \/ netloc parsed = "tradingview.com" ->
            host = "www.tradingview.com")
        /\ (netloc parsed <> "" -> netloc parsed <> "tradingview.com" ->
            host = netloc parsed)
        /\ (path parsed = "" \/ path parsed = "/" -> pth = "/")
        /\ (path parsed <> "" -> path parsed <> "/" ->
            Py.endswith_char pth "/" = false
            /\ exists n, path parsed = pth +:+ slashes n)).
Proof.
  intros parsed. unfold canonicalize_url. fold parsed. split.
  - intros [-> ->]. reflexivity.
  - intros Hsome.
    assert (negb (Py.truthy (scheme parsed)) && negb (Py.truthy (netloc parsed)) = false)
      as ->.
    { apply andb_false_iff.
      destruct Hsome as [H | H]; [ left | right ];
        apply negb_false_iff; destruct (scheme parsed), (netloc parsed);
        cbn; congruence. }
    eexists. eexists. split; [ reflexivity | ].
    split; [ | split; [ | split ] ].
    + intros [-> | ->]; reflexivity.
    + intros Hne Hne'.
      destruct (Py.truthy (netloc parsed)) eqn:Ht;
        [ | apply truthy_false in Ht; congruence ].
      apply String.eqb_neq in Hne'. rewrite Hne'. reflexivity.
    + intros [-> | ->]; reflexivity.
    + intros Hne Hne'.
      destruct (Py.truthy (path parsed)) eqn:Ht;
        [ | apply truthy_false in Ht; congruence ].
      apply String.eqb_neq in Hne'. rewrite Hne'. cbn [negb andb].
      destruct (Py.endswith_char (path parsed) "/") eqn:Hend.
      * split; [ apply rstrip_char_no_trailing | apply rstrip_char_slashes ].
      * split; [ exact Hend | ]. exists 0%nat. cbn [slashes].
        symmetry. apply append_empty_r.
Qed.

End CanonicalUrl.

Lemma canonicalize_url_shape_witness :
  let raw_url := "http://tradingview.com/pine-script-docs/welcome/?utm=1#top" in
  (Urllib.scheme (Urllib.urlparse_simple raw_url) <> ""
   \/ Urllib.netloc (Urllib.urlparse_simple raw_url) <> "")
  /\ Discovery.canonicalize_url Urllib.urlparse_simple Urllib.urlunparse_simple raw_url
     = Some "https://www.tradingview.com/pine-script-docs/welcome"
  /\ exists host pth,
       Discovery.canonicalize_url Urllib.urlparse_simple Urllib.urlunparse_simple raw_url
       = Some (Urllib.urlunparse_simple
                 {| Urllib.scheme := "https"; Urllib.netloc := host; Urllib.path := pth;
                    Urllib.params := ""; Urllib.query := ""; Urllib.fragment := "" |})
       /\ host = "www.tradingview.com"
       /\ Py.endswith_char pth "/" = false.
Proof.
  intros raw_url.
  assert (Hsome : Urllib.scheme (Urllib.urlparse_simple raw_url) <> ""
                  \/ Urllib.netloc (Urllib.urlparse_simple raw_url) <> "")
    by (left; vm_compute; discriminate).
  split; [ exact Hsome | ]. split; [ reflexivity | ].
  destruct (canonicalize_url_shape Urllib.urlparse_simple Urllib.urlunparse_simple raw_url)
    as [_ Hshape].
  destruct (Hshape Hsome) as (host & pth & Heq & Hhost & _ & _ & Hpath).
  exists host, pth. split; [ exact Heq | ].
  split; [ apply Hhost; right; reflexivity | ].
  apply Hpath; vm_compute; discriminate.
Defined.

(** ** Reference segmentation *)

Section SegmentLoop.

Import RenderedReference.

Variable canonical_url run_id source_artifact_id : string.

Local Abbreviation seg_loop := (segment_loop canonical_url run_id source_artifact_id).

(** A repeated id, or an id seen before, ends the loop with
    [duplicate_anchor_id]. *)
Lemma segment_loop_duplicate (anchors : list Soup.element) (idx : Z)
    (segments : list Segment) (seen : gset string) (empty_names empty_raw : Z) :
  ~ (NoDup (anchor_ids_of anchors) /\ forall id, id ∈ anchor_ids_of anchors -> id ∉ seen) ->
  seg_loop anchors idx segments seen empty_names empty_raw
  = Py.Raise (Py.ValueError "duplicate_anchor_id").
Proof.
  revert idx segments seen empty_names empty_raw.
  induction anchors as [| anchor anchors IH];
    intros idx segments seen empty_names empty_raw Hdirty.
  - exfalso. apply Hdirty. split; [ constructor | ].
    intros id Hid. apply elem_of_nil in Hid. contradiction.
  - cbn [segment_loop]. cbv zeta.
    destruct (bool_decide_reflect
                (default "" (Soup.get (Soup.el_tag anchor) "id") ∈ seen))
      as [Hin | Hnotin]; [ reflexivity | ].
    apply IH. intros [Hnodup Hfresh]. apply Hdirty.
    cbn [anchor_ids_of map]. fold (anchor_ids_of anchors). split.
    + apply NoDup_cons. split; [ | exact Hnodup ].
      intros Hhere. apply (Hfresh _ Hhere).
      apply elem_of_union. left. apply elem_of_singleton. reflexivity.
    + intros id Hid. apply elem_of_cons in Hid as [-> | Hid]; [ exact Hnotin | ].
      intros Hseen. apply (Hfresh id Hid). apply elem_of_union. right. exact Hseen.
Qed.

Lemma count_empty_cons (field : Segment -> string) (segment : Segment)
    (segments : list Segment) :
  count_empty field (segment :: segments)
  = (if Py.truthy (field segment) then 0 else 1) + count_empty field segments.
Proof.
  unfold count_empty. rewrite filter_cons.
  destruct (Py.truthy (field segment)).
  - rewrite decide_False by discriminate. lia.
  - rewrite decide_True by reflexivity. unfold Py.len. cbn [length]. lia.
Qed.

(** When the loop returns, it has added one segment per anchor, and the
    three counters describe the segments returned. *)
Lemma segment_loop_return (anchors : list Soup.element) (idx : Z)
    (segments : list Segment) (seen : gset string) (empty_names empty_raw : Z)
    (out : list Segment) (qc : QC) :
  seg_loop anchors idx segments seen empty_names empty_raw = Py.Return (out, qc) ->
  exists added,
    out = (segments ++ added)%list
    /\ length added = length anchors
    /\ segment_count qc = Py.len out
    /\ empty_symbol_names qc = empty_names + count_empty symbol_name added
    /\ empty_raw_html qc = empty_raw + count_empty raw_html added.
Proof.
  revert idx segments seen empty_names empty_raw out qc.
  induction anchors as [| anchor anchors IH];
    intros idx segments seen empty_names empty_raw out qc.
  - cbn [segment_loop]. intros [= <- <-]. exists [].
    rewrite app_nil_r. cbn. unfold count_empty, Py.len. cbn.
    repeat split; lia.
  - cbn [segment_loop]. cbv zeta.
    destruct (bool_decide _); [ discriminate | ].
    intros Hloop. apply IH in Hloop as (added & Hout & Hlen & Hcount & Hnames & Hraw).
    subst out.
    rewrite <- app_assoc in Hcount |- *.
    eexists (_ :: added). split; [ reflexivity | ].
    split; [ cbn; lia | ]. split; [ exact Hcount | ].
    rewrite Hnames, Hraw, !count_empty_cons. cbn [symbol_name raw_html].
    split.
    + destruct (Py.truthy (infer_symbol_name (Soup.el_tag anchor))); cbn [negb]; lia.
    + destruct (Py.truthy (serialize_nodes _)); cbn [negb]; lia.
Qed.

End SegmentLoop.

Section ReferenceSegmentation.

Import RenderedReference IngestScript.

Lemma count_empty_nonneg (field : Segment -> string) (segments : list Segment) :
  0 <= count_empty field segments.
Proof. unfold count_empty, Py.len. lia. Qed.

Lemma count_empty_zero (field : Segment -> string) (segments : list Segment) :
  count_empty field segments <= 0 ->
  Forall (fun segment => field segment <> "") segments.
Proof.
  induction segments as [| segment segments IH]; intros Hzero.
  - constructor.
  - rewrite count_empty_cons in Hzero.
    pose proof (count_empty_nonneg field segments) as Hrest.
    destruct (Py.truthy (field segment)) eqn:Htruthy; [ | lia ].
    constructor; [ | apply IH; lia ].
    intros Hempty. rewrite Hempty in Htruthy. discriminate.
Qed.

(** What [segment_reference_html] returns describes the segments returned. *)
Lemma segment_reference_html_return (soup : list Soup.node)
    (canonical_url run_id source_artifact_id : string)
    (segments : list Segment) (qc : QC) :
  segment_reference_html soup canonical_url run_id source_artifact_id
  = Py.Return (segments, qc) ->
  segment_count qc = Py.len segments
  /\ empty_symbol_names qc = count_empty symbol_name segments
  /\ empty_raw_html qc = count_empty raw_html segments.
Proof.
  unfold segment_reference_html.
  destruct (select_container soup) as [container |]; [ | discriminate ].
  destruct (find_anchor_elements container) as [| anchor anchors] eqn:Hanchors;
    [ discriminate | ].
  intros Hloop. apply segment_loop_return in Hloop as (added & -> & _ & Hc & Hn & Hr).
  cbn [app] in *. split; [ exact Hc | ]. split; lia.
Qed.

(** The loop raises nothing but [duplicate_anchor_id]. *)
Lemma segment_loop_raise (canonical_url run_id source_artifact_id : string)
    (anchors : list Soup.element) (idx : Z) (segments : list Segment)
    (seen : gset string) (empty_names empty_raw : Z) (e : Py.exception) :
  segment_loop canonical_url run_id source_artifact_id anchors idx segments seen
    empty_names empty_raw = Py.Raise e ->
  e = Py.ValueError "duplicate_anchor_id".
Proof.
  revert idx segments seen empty_names empty_raw.
  induction anchors as [| anchor anchors IH];
    intros idx segments seen empty_names empty_raw; cbn [segment_loop].
  - discriminate.
  - cbv zeta. destruct (bool_decide _); [ | apply IH ].
    intros [= <-]. reflexivity.
Qed.

(** What [segment_reference_html] raises is one of three reasons. *)
Lemma segment_reference_html_raise (soup : list Soup.node)
    (canonical_url run_id source_artifact_id : string) (e : Py.exception) :
  segment_reference_html soup canonical_url run_id source_artifact_id = Py.Raise e ->
  exists reason, e = Py.ValueError reason /\ reason ∈ structural_reasons.
Proof.
  unfold segment_reference_html, structural_reasons.
  destruct (select_container soup) as [container |].
  - destruct (find_anchor_elements container) as [| anchor anchors] eqn:Hanchors.
    + intros [= <-]. eexists. split; [ reflexivity | ].
      apply elem_of_cons. right. apply elem_of_cons. left. reflexivity.
    + intros Hloop. apply segment_loop_raise in Hloop as ->.
      eexists. split; [ reflexivity | ].
      do 2 (apply elem_of_cons; right). apply elem_of_cons. left. reflexivity.
  - intros [= <-]. eexists. split; [ reflexivity | ].
    apply elem_of_cons. left. reflexivity.
Qed.

(** Two anchors of the container with the same id make
    [segment_reference_html] raise [duplicate_anchor_id]: no segments. *)
Lemma duplicate_anchor_is_hard_failure (soup : list Soup.node) (container : Soup.node)
    (canonical_url run_id source_artifact_id : string) :
  select_container soup = Some container ->
  ~ NoDup (anchor_ids_of (find_anchor_elements container)) ->
  segment_reference_html soup canonical_url run_id source_artifact_id
  = Py.Raise (Py.ValueError "duplicate_anchor_id").
Proof.
  intros Hcontainer Hdup. unfold segment_reference_html. rewrite Hcontainer.
  destruct (find_anchor_elements container) as [| anchor anchors] eqn:Hanchors.
  - exfalso. apply Hdup. constructor.
  - apply segment_loop_duplicate. intros [Hnodup _]. exact (Hdup Hnodup).
Qed.

Variable PROJECT_ROOT : string.

(** C3, as the code has it. Segmentation refuses a manifest whose status is
    not [complete].  On a [complete] manifest with [anchor_count_total = N]
    it either appends exactly [N] segments to the output, each with
    non-empty serialized content and with at most [max(5, N quot 10)] empty
    symbol names among them, or it raises one of [reference_container_missing],
    [reference_no_anchors], [duplicate_anchor_id], [segment_count_mismatch],
    [empty_symbol_names], [empty_raw_html] and leaves the segment files as
    they were. *)
Theorem segmentation_completes_or_aborts (run_id : string) (manifest : Manifest)
    (soup : list Soup.node) (st : Store) :
  let total := m_anchor_count_total manifest in
  let path := segment_output_path PROJECT_ROOT run_id in
  let out := segment_reference PROJECT_ROOT run_id manifest soup st in
  (m_status manifest <> "complete" ->
     out = (st, Py.Raise (Py.SystemExit "render_incomplete")))
  /\ (m_status manifest = "complete" ->
      (exists segments,
         snd out = Py.Return tt
         /\ segment_files (fst out)
            = <[path := (default [] (segment_files st !! path) ++ segments)%list]>
                (segment_files st)
         /\ Py.len segments = total
         /\ Forall (fun segment => raw_html segment <> "") segments
         /\ count_empty symbol_name segments <= Z.max 5 (Z.quot total 10))
      \/ (exists reason,
            (snd out = Py.Raise (Py.ValueError reason) /\ reason ∈ structural_reasons
             \/ snd out = Py.Raise (Py.SystemExit reason) /\ reason ∈ qc_reasons)
            /\ segment_files (fst out) = segment_files st)).
Proof.
  intros total path out. subst out. unfold segment_reference. fold total. split.
  - intros Hstatus. apply String.eqb_neq in Hstatus. rewrite Hstatus. reflexivity.
  - intros Hstatus. apply String.eqb_eq in Hstatus. rewrite Hstatus. cbn [negb].
    destruct (segment_reference_html soup (m_canonical_url manifest) run_id
                (m_artifact_checksum_sha256 manifest)) as [[segments qc] | e] eqn:Hhtml.
    + apply segment_reference_html_return in Hhtml as (Hcount & Hnames & Hraw).
      destruct (Z.eqb_spec (segment_count qc) total) as [Htotal | Htotal]; cbn [negb].
      * destruct (Z.gtb_spec (empty_symbol_names qc) (Z.max 5 (Z.quot total 10)))
          as [Hmany | Hfew].
        { right. exists "empty_symbol_names". split; [ | reflexivity ].
          right. split; [ reflexivity | ].
          apply elem_of_cons. right. apply elem_of_cons. left. reflexivity. }
        destruct (Z.gtb_spec (empty_raw_html qc) 0) as [Hempty | Hfull].
        { right. exists "empty_raw_html". split; [ | reflexivity ].
          right. split; [ reflexivity | ].
          do 2 (apply elem_of_cons; right). apply elem_of_cons. left. reflexivity. }
        left. exists segments. cbn [fst snd].
        split; [ reflexivity | ]. split; [ reflexivity | ].
        split; [ lia | ]. split; [ apply count_empty_zero; lia | lia ].
      * right. exists "segment_count_mismatch". split; [ | reflexivity ].
        right. split; [ reflexivity | ]. apply elem_of_cons. left. reflexivity.
    + apply segment_reference_html_raise in Hhtml as (reason & -> & Hreason).
      right. exists reason. split; [ | reflexivity ].
      left. split; [ reflexivity | exact Hreason ].
Qed.

End ReferenceSegmentation.

Lemma segmentation_completes_or_aborts_witness :
  let manifest := Examples.complete_manifest 2 in
  let out :=
    IngestScript.segment_reference "/srv/pine" "20260109T135601Z" manifest
      Examples.two_entries_doc Examples.empty_store in
  IngestScript.m_status manifest = "complete"
  /\ snd out = Py.Return tt
  /\ ((exists segments,
         snd out = Py.Return tt
         /\ IngestScript.segment_files (fst out)
            = <[IngestScript.segment_output_path "/srv/pine" "20260109T135601Z" :=
                  (default [] (IngestScript.segment_files Examples.empty_store
                               !! IngestScript.segment_output_path "/srv/pine"
                                    "20260109T135601Z") ++ segments)%list]>
                (IngestScript.segment_files Examples.empty_store)
         /\ Py.len segments = IngestScript.m_anchor_count_total manifest
         /\ Forall (fun segment => RenderedReference.raw_html segment <> "") segments
         /\ count_empty RenderedReference.symbol_name segments
            <= Z.max 5 (Z.quot (IngestScript.m_anchor_count_total manifest) 10))
      \/ (exists reason,
            (snd out = Py.Raise (Py.ValueError reason) /\ reason ∈ structural_reasons
             \/ snd out = Py.Raise (Py.SystemExit reason) /\ reason ∈ qc_reasons)
            /\ IngestScript.segment_files (fst out)
               = IngestScript.segment_files Examples.empty_store)).
Proof.
  intros manifest out.
  split; [ reflexivity | ]. split; [ vm_compute; reflexivity | ].
  apply (segmentation_completes_or_aborts "/srv/pine" "20260109T135601Z" manifest
           Examples.two_entries_doc Examples.empty_store).
  reflexivity.
Defined.

(** A complete manifest over a page with a repeated id: segmentation gives
    up with [duplicate_anchor_id], which is none of the three reasons of the
    quality gate. *)
Lemma complete_manifest_aborts_with_duplicate_anchor_id :
  let manifest := Examples.complete_manifest 2 in
  let out :=
    IngestScript.segment_reference "/srv/pine" "20260109T135601Z" manifest
      Examples.duplicate_doc Examples.empty_store in
  IngestScript.m_status manifest = "complete"
  /\ IngestScript.m_anchor_count_total manifest = 2
  /\ out = (Examples.empty_store, Py.Raise (Py.ValueError "duplicate_anchor_id"))
  /\ "duplicate_anchor_id" ∉ qc_reasons.
Proof.
  intros manifest out.
  split; [ reflexivity | ]. split; [ reflexivity | ].
  split; [ vm_compute; reflexivity | ].
  unfold qc_reasons. intros Hin.
  repeat (apply elem_of_cons in Hin as [Hin | Hin]; [ discriminate Hin | ]).
  apply elem_of_nil in Hin. exact Hin.
Qed.

(** C6. On a page whose container holds two anchors with the id
    [fun_plot], [segment_reference_html] raises [duplicate_anchor_id], while
    [parse_reference_segments] of [segmentation.py] returns two segments
    that share the anchor id and the segment id. *)
Theorem parse_reference_segments_keeps_duplicates :
  RenderedReference.segment_reference_html Examples.duplicate_doc
    "https://www.tradingview.com/pine-script-reference/v6" "20260109T135601Z" "5a68"
  = Py.Raise (Py.ValueError "duplicate_anchor_id")
  /\ exists first second,
       Segmentation.parse_reference_segments Examples.reference_artifact
         Examples.duplicate_doc
       = Py.Return [first; second]
       /\ Segmentation.anchor_id first = Some "fun_plot"
       /\ Segmentation.anchor_id second = Some "fun_plot"
       /\ Segmentation.segment_id first = "5a68:fun_plot"
       /\ Segmentation.segment_id second = "5a68:fun_plot"
       /\ Segmentation.segment_order first = 1
       /\ Segmentation.segment_order second = 2.
Proof.
  split; [ vm_compute; reflexivity | ].
  eexists. eexists. split; [ vm_compute; reflexivity | ].
  repeat split.
Qed.

(** ** Normalization of reference symbols *)

Import NormalizationVocabulary.

Section Normalization.

Import ReferenceNormalization.


(** A line that passes appends exactly one record, the one with the derived
    identifier, and remembers that identifier. *)
Lemma normalize_line_return (segment : SegmentLine) (st st' : LoopState) :
  normalize_line segment st = Py.Return st' ->
  exists record,
    target st' = (target st ++ [record])%list
    /\ reference_symbol_id record = derived_id segment
    /\ written st' = written st + 1
    /\ seen_ids st' = {[derived_id segment]} ∪ seen_ids st
    /\ derived_id segment ∉ seen_ids st.
Proof.
  unfold normalize_line, derived_id.
  destruct (derive_symbol_type (seg_anchor_id segment)) as [derived_type | e];
    [ | discriminate ].
  cbv zeta. destruct (missing_keys _); [ | discriminate ].
  destruct (negb (String.eqb _ _)); [ discriminate | ].
  destruct (negb (existsb _ _)); [ discriminate | ].
  destruct (bool_decide_reflect
              (fmt (seg_source_artifact_id segment) +:+ ":" +:+ fmt (seg_anchor_id segment)
               ∈ seen_ids st)) as [Hin | Hnotin]; [ discriminate | ].
  intros [= <-]. cbn. eexists. repeat split. exact Hnotin.
Qed.

(** While the lines pass, the identifiers seen are those of the records
    written, and [written] counts them. *)
Lemma normalize_prefix_invariant (good : list line) (st reached : LoopState) :
  normalize_prefix good st = Some reached ->
  exists added,
    target reached = (target st ++ added)%list
    /\ written reached = written st + Py.len added
    /\ seen_ids reached = list_to_set (map reference_symbol_id added) ∪ seen_ids st
    /\ NoDup (map reference_symbol_id added)
    /\ (forall id, id ∈ map reference_symbol_id added -> id ∉ seen_ids st).
Proof.
  revert st. induction good as [| [| segment] good IH]; intros st; cbn.
  - intros [= <-]. exists []. rewrite app_nil_r. cbn. unfold Py.len. cbn.
    split; [ reflexivity | ]. split; [ lia | ]. split; [ set_solver | ].
    split; [ constructor | ]. intros id Hid. apply elem_of_nil in Hid. contradiction.
  - apply IH.
  - destruct (normalize_line segment st) as [st' | e] eqn:Hline; [ | discriminate ].
    intros Hrest. apply IH in Hrest as (added & Htarget & Hwritten & Hseen & Hnodup & Hfresh).
    apply normalize_line_return in Hline as (record & Ht & Hid & Hw & Hs & Hnew).
    exists (record :: added).
    rewrite Htarget, Ht, <- app_assoc. split; [ reflexivity | ].
    split; [ rewrite Hwritten, Hw; unfold Py.len; cbn [length]; lia | ].
    split; [ rewrite Hseen, Hs; cbn [map list_to_set]; rewrite Hid; set_solver | ].
    cbn [map]. rewrite Hid. split.
    + apply NoDup_cons. split; [ | exact Hnodup ].
      intros Hin. apply (Hfresh _ Hin). rewrite Hs. set_solver.
    + intros id Hin. apply elem_of_cons in Hin as [-> | Hin]; [ exact Hnew | ].
      specialize (Hfresh id Hin). rewrite Hs in Hfresh. set_solver.
Qed.

(** A line with every required field and a known prefix whose identifier
    has been seen raises [duplicate_reference_symbol_id]. *)
Lemma duplicate_line_raises (segment : SegmentLine) (st : LoopState) (derived : string) :
  derive_symbol_type (seg_anchor_id segment) = Py.Return derived ->
  is_missing (seg_anchor_id segment) = false ->
  is_missing (seg_symbol_name segment) = false ->
  is_missing (seg_canonical_url segment) = false ->
  is_missing_int (seg_segment_order segment) = false ->
  is_missing (seg_raw_html segment) = false ->
  is_missing (seg_run_id segment) = false ->
  is_missing (seg_source_artifact_id segment) = false ->
  is_missing (seg_segment_id segment) = false ->
  derived_id segment ∈ seen_ids st ->
  normalize_line segment st
  = Py.Raise (Py.ValueError ("duplicate_reference_symbol_id:" +:+ derived_id segment)).
Proof.
  intros Hderive Ha Hn Hu Ho Hh Hr Hs Hi Hseen.
  unfold normalize_line. rewrite Hderive. cbv zeta.
  assert (Hprefix : existsb (String.eqb derived) SYMBOL_TYPES = true
                    /\ Py.truthy derived = true).
  { destruct (seg_anchor_id segment) as [anchor |]; [ | discriminate ].
    cbn in Hderive. unfold ANCHOR_PREFIXES in Hderive. cbn in Hderive.
    repeat match type of Hderive with
           | (if ?b then _ else _) = _ =>
               destruct b; [ injection Hderive as <-; split; reflexivity | ]
           end.
    discriminate. }
  destruct Hprefix as [Hknown Htruthy].
  unfold missing_keys. cbn [reference_symbol_id anchor_id symbol_name symbol_type
    canonical_url pine_version segment_order raw_html run_id source_artifact_id
    segment_id is_missing].
  rewrite Ha, Hn, Hu, Ho, Hh, Hr, Hs, Hi, Htruthy.
  assert (Hid : Py.truthy (fmt (seg_source_artifact_id segment) +:+ ":"
                           +:+ fmt (seg_anchor_id segment)) = true).
  { destruct (fmt (seg_source_artifact_id segment)); reflexivity. }
  rewrite Hid.
  match goal with
  | |- context [map fst (filter ?P ?l)] =>
      change (map fst (filter P l)) with (@nil string)
  end.
  cbv iota. change (negb ("v6" =? "v6")%string) with false. cbv iota.
  rewrite Hknown. cbn [negb]. cbv iota.
  fold (derived_id segment). rewrite bool_decide_eq_true_2 by exact Hseen.
  reflexivity.
Qed.


End Normalization.



(** * Further properties of the code *)

(** ** Rendering *)

Section RenderMore.

Import RenderedReference IngestScript.

Variable config : RenderConfig.
Variable page : Page.

(** The stability counter after poll [k] is between [0] and [k]: the first
    poll never counts as unchanged, because the loop starts with
    [previous_count = -1]. *)
Lemma stable_count_bounds (k : nat) :
  0 <= fst (counts_after page k) <= Z.of_nat k /\ 0 <= snd (counts_after page k).
Proof.
  induction k as [| k IH].
  - unfold counts_after, poll_step. cbn [counts_before fst snd].
    unfold Py.len.
    destruct (Z.eqb_spec (Z.of_nat (length (collect_anchor_ids ANCHOR_PREFIXES
                                               (page_ids page 0)))) (-1)); lia.
  - unfold counts_after. cbn [counts_before]. fold (counts_after page k).
    unfold poll_step. cbn [fst snd]. unfold Py.len.
    destruct (_ =? _); lia.
Qed.

(** The poll at which the loop stops is one of the first [fuel] polls. *)
Lemma poll_loop_stop_bound (fuel k : nat) (scrolls : Z) (st : PollState) :
  poll_loop fuel config page k (fst (counts_before page k)) (snd (counts_before page k))
    scrolls = Some st ->
  exists j,
    (k <= j < k + fuel)%nat
    /\ poll_stable_count st = fst (counts_after page j)
    /\ Py.len (poll_anchor_ids st) = snd (counts_after page j)
    /\ (poll_notes st = "" -> stable_at config page j = true).
Proof.
  revert k scrolls.
  induction fuel as [| fuel IH]; intros k scrolls; cbn [poll_loop].
  - discriminate.
  - cbv zeta.
    change (Py.len (collect_anchor_ids ANCHOR_PREFIXES (page_ids page k)))
      with (snd (counts_after page k)).
    change (if snd (counts_after page k) =? snd (counts_before page k)
            then fst (counts_before page k) + 1 else 0)
      with (fst (counts_after page k)).
    change ((snd (counts_after page k) >=? anchor_min_threshold config)
            && (fst (counts_after page k) >=? stabilize_checks config))
      with (stable_at config page k).
    destruct (stable_at config page k) eqn:Hstable.
    + intros [= <-]. exists k. split; [ lia | ]. cbn. auto.
    + destruct (negb _).
      * intros [= <-]. exists k. split; [ lia | ]. cbn.
        split; [ reflexivity | ]. split; [ reflexivity | discriminate ].
      * change (fst (counts_after page k)) with (fst (counts_before page (S k))).
        change (snd (counts_after page k)) with (snd (counts_before page (S k))).
        intros Hloop. apply IH in Hloop as (j & Hj & Hrest).
        exists j. split; [ lia | exact Hrest ].
Qed.

(** X1. When the threshold-and-stability condition holds at some poll
    before the timeout has elapsed, [render_reference] returns with status
    [complete] and empty notes. *)
Theorem stable_render_is_complete (url : string) (k fuel : nat) :
  stable_first config page k ->
  (k < fuel)%nat ->
  exists result,
    render_reference fuel url config page = Some result
    /\ status result = "complete"
    /\ notes result = ""
    /\ anchor_ids result = collect_anchor_ids ANCHOR_PREFIXES (page_ids page k).
Proof.
  intros (Hbefore & Hstable) Hfuel.
  destruct (poll_loop_stable config page k fuel 0 0 Hfuel) as (st & Hloop & Hnotes & Hids & Hs).
  - intros j Hj. apply Hbefore. lia.
  - exact Hstable.
  - unfold render_reference. cbn in Hloop. rewrite Hloop.
    eexists. split; [ reflexivity | ]. cbn. rewrite Hnotes, Hids, Hs.
    cbn [Nat.add] in *.
    change ((Py.len (collect_anchor_ids ANCHOR_PREFIXES (page_ids page k))
             >=? anchor_min_threshold config)
            && (fst (counts_after page k) >=? stabilize_checks config))
      with (stable_at config page k).
    rewrite Hstable. cbn. auto.
Qed.

(** X2. A [complete] result carries at least [anchor_min_threshold] anchors,
    and it takes more polls than [stabilize_checks] to get one: with
    [fuel <= stabilize_checks] polls the status is never [complete]. *)
Theorem complete_needs_threshold_and_polls (fuel : nat) (url : string)
    (result : RenderResult) :
  render_reference fuel url config page = Some result ->
  status result = "complete" ->
  anchor_min_threshold config <= Py.len (anchor_ids result)
  /\ stabilize_checks config < Z.of_nat fuel.
Proof.
  unfold render_reference.
  destruct (poll_loop fuel config page 0 0 (-1) 0) as [st |] eqn:Hloop; [ | discriminate ].
  intros [= <-]. cbn [status anchor_ids].
  apply (poll_loop_stop_bound fuel 0 0 st) in Hloop as (j & Hj & Hs & Hlen & _).
  pose proof (stable_count_bounds j) as (Hbound & _).
  rewrite Hs, Hlen.
  destruct (counts_after page j) as [stable current]. cbn [fst snd] in *.
  destruct (Z.geb_spec current (anchor_min_threshold config));
    destruct (Z.geb_spec stable (stabilize_checks config));
    cbn [andb]; destruct (Py.truthy (poll_notes st)); try discriminate.
  intros _. lia.
Qed.

End RenderMore.

Lemma steady_page_is_stable_first :
  stable_first Examples.quick_config Examples.steady_page 1.
Proof.
  split; [ | reflexivity ].
  intros j Hj. assert (j = 0%nat) as -> by lia. split; reflexivity.
Qed.

Lemma stable_render_is_complete_witness :
  stable_first Examples.quick_config Examples.steady_page 1
  /\ (1 < 2)%nat
  /\ exists result,
       RenderedReference.render_reference 2 RenderedReference.REFERENCE_URL
         Examples.quick_config Examples.steady_page = Some result
       /\ RenderedReference.status result = "complete"
       /\ RenderedReference.notes result = ""
       /\ RenderedReference.anchor_ids result = ["fun_plot"; "var_close"].
Proof.
  split; [ exact steady_page_is_stable_first | ]. split; [ lia | ].
  apply (stable_render_is_complete Examples.quick_config Examples.steady_page
           RenderedReference.REFERENCE_URL 1 2 steady_page_is_stable_first).
  lia.
Defined.

Lemma complete_needs_threshold_and_polls_witness :
  exists result,
    RenderedReference.render_reference 2 RenderedReference.REFERENCE_URL
      Examples.quick_config Examples.steady_page = Some result
    /\ RenderedReference.status result = "complete"
    /\ RenderedReference.anchor_min_threshold Examples.quick_config
       <= Py.len (RenderedReference.anchor_ids result)
    /\ RenderedReference.stabilize_checks Examples.quick_config < Z.of_nat 2.
Proof.
  eexists. split; [ reflexivity | ]. split; [ reflexivity | ].
  apply (complete_needs_threshold_and_polls Examples.quick_config Examples.steady_page
           2 RenderedReference.REFERENCE_URL); reflexivity.
Defined.

(** ** Anchor counts and anchor elements *)

Section AnchorsMore.

Import RenderedReference.

Lemma count_first_prefix_none (anchor_id : string) (prefixes : list string)
    (counts : gmap string Z) :
  Py.any (Py.startswith anchor_id) prefixes = false ->
  count_first_prefix anchor_id prefixes counts = counts.
Proof.
  induction prefixes as [| p prefixes IH]; cbn; [ reflexivity | ].
  destruct (Py.startswith anchor_id p); cbn; [ discriminate | exact IH ].
Qed.

Lemma count_first_prefix_dom (anchor_id : string) (prefixes : list string)
    (counts : gmap string Z) :
  (forall p, p ∈ prefixes -> p ∈ dom counts) ->
  dom (count_first_prefix anchor_id prefixes counts) = dom counts.
Proof.
  induction prefixes as [| p prefixes IH]; intros Hsub; cbn; [ reflexivity | ].
  destruct (Py.startswith anchor_id p).
  - rewrite dom_insert_L. assert (p ∈ dom counts) by (apply Hsub; left). set_solver.
  - apply IH. intros q Hq. apply Hsub. right. exact Hq.
Qed.

Lemma fold_counts_general (ids : list string) (counts : gmap string Z) :
  (forall p, p ∈ ANCHOR_PREFIXES -> p ∈ dom counts) ->
  let after :=
    fold_left (fun counts anchor_id => count_first_prefix anchor_id ANCHOR_PREFIXES counts)
      ids counts in
  sum_over ANCHOR_PREFIXES after
  = sum_over ANCHOR_PREFIXES counts
    + Py.len (filter (fun id => Py.any (Py.startswith id) ANCHOR_PREFIXES = true) ids)
  /\ dom after = dom counts.
Proof.
  revert counts. induction ids as [| id ids IH]; intros counts Hdom; cbn [fold_left].
  - cbv zeta. unfold Py.len. cbn. split; [ lia | reflexivity ].
  - cbv zeta.
    assert (Hdom' : dom (count_first_prefix id ANCHOR_PREFIXES counts) = dom counts)
      by (apply count_first_prefix_dom; exact Hdom).
    destruct (IH (count_first_prefix id ANCHOR_PREFIXES counts)) as [Hsum Hd].
    { intros p Hp. rewrite Hdom'. apply Hdom. exact Hp. }
    cbv zeta in Hsum, Hd. rewrite Hsum, Hd, Hdom'. split; [ | reflexivity ].
    rewrite filter_cons.
    destruct (Py.any (Py.startswith id) ANCHOR_PREFIXES) eqn:Hany.
    + rewrite decide_True by reflexivity.
      rewrite (count_first_prefix_sum ANCHOR_PREFIXES id ANCHOR_PREFIXES counts
                 anchor_prefixes_nodup) by (try exact Hany; intros q Hq; exact Hq).
      unfold Py.len. cbn [length]. lia.
    + rewrite decide_False by discriminate.
      rewrite count_first_prefix_none by exact Hany. reflexivity.
Qed.

(** X3. For any list of ids, [anchor_prefix_counts] has exactly the seven
    prefixes as keys, and its values add up to the number of ids that start
    with one of them: an id with no known prefix is not counted. *)
Theorem anchor_prefix_counts_known_ids (ids : list string) :
  dom (anchor_prefix_counts ids) = list_to_set ANCHOR_PREFIXES
  /\ sum_over ANCHOR_PREFIXES (anchor_prefix_counts ids)
     = Py.len (filter (fun id => Py.any (Py.startswith id) ANCHOR_PREFIXES = true) ids).
Proof.
  unfold anchor_prefix_counts.
  set (start := list_to_map (map (fun prefix => (prefix, 0)) ANCHOR_PREFIXES)
                : gmap string Z).
  assert (Hdom : dom start = list_to_set ANCHOR_PREFIXES) by (vm_compute; reflexivity).
  destruct (fold_counts_general ids start) as [Hsum Hd].
  - intros p Hp. rewrite Hdom. apply elem_of_list_to_set. exact Hp.
  - cbv zeta in Hsum, Hd. rewrite Hd, Hsum, Hdom. split; [ reflexivity | ].
    assert (sum_over ANCHOR_PREFIXES start = 0) as -> by reflexivity. lia.
Qed.

Lemma find_anchor_elements_elem (container : Soup.node) (anchor : Soup.element) :
  anchor ∈ find_anchor_elements container ->
  exists id,
    Soup.get (Soup.el_tag anchor) "id" = Some id
    /\ id <> "tv-content"
    /\ Py.any (Py.startswith id) ANCHOR_PREFIXES = true.
Proof.
  unfold find_anchor_elements, Soup.find_all. intros Hin.
  apply list_elem_of_filter in Hin as [Hmatch Hin].
  apply list_elem_of_filter in Hin as [Hattr _].
  unfold Soup.has_attr in Hattr.
  destruct (Soup.get (Soup.el_tag anchor) "id") as [id |]; [ | discriminate ].
  exists id. cbn [default] in Hmatch.
  apply andb_true_iff in Hmatch as [Hne Hany].
  split; [ reflexivity | ]. split; [ | exact Hany ].
  apply negb_true_iff, String.eqb_neq in Hne. exact Hne.
Qed.

Lemma filter_collects (tags : list Soup.element) :
  anchor_ids_of
    (filter
       (fun tag =>
          let anchor_id := default "" (Soup.get (Soup.el_tag tag) "id") in
          (negb (String.eqb anchor_id "tv-content")
           && Py.any (Py.startswith anchor_id) ANCHOR_PREFIXES) = true)
       tags)
  = collect_anchor_ids ANCHOR_PREFIXES (anchor_ids_of tags).
Proof.
  unfold anchor_ids_of. induction tags as [| tag tags IH]; [ reflexivity | ].
  rewrite filter_cons. cbn [map collect_anchor_ids]. cbv zeta.
  set (id := default "" (Soup.get (Soup.el_tag tag) "id")) in *.
  destruct (decide _) as [Hkeep | Hdrop].
  - apply andb_true_iff in Hkeep as [Hne Hany].
    apply negb_true_iff in Hne. rewrite Hne, Hany.
    assert (Htruthy : Py.truthy id = true).
    { destruct id; [ vm_compute in Hany; discriminate | reflexivity ]. }
    rewrite Htruthy. cbn [negb map]. fold id. rewrite IH. reflexivity.
  - apply not_true_is_false in Hdrop.
    destruct (Py.truthy id); cbn [negb]; [ | exact IH ].
    destruct (String.eqb id "tv-content"); [ exact IH | ].
    cbn [negb andb] in Hdrop. rewrite Hdrop. exact IH.
Qed.

(** X4. The segmenter and the render poll agree on what an anchor is: the
    ids of the elements [find_anchor_elements] returns are, in document
    order, the ids the script of [render_reference] collects from the
    elements below the same node that carry an id; each of them is an id
    other than [tv-content] that starts with one of the prefixes. *)
Theorem find_anchor_elements_ids (container : Soup.node) :
  anchor_ids_of (find_anchor_elements container)
  = collect_anchor_ids ANCHOR_PREFIXES
      (anchor_ids_of (Soup.find_all (fun n => Soup.has_attr n "id") container))
  /\ forall anchor,
       anchor ∈ find_anchor_elements container ->
       exists id,
         Soup.get (Soup.el_tag anchor) "id" = Some id
         /\ id <> "tv-content"
         /\ Py.any (Py.startswith id) ANCHOR_PREFIXES = true.
Proof.
  split; [ apply filter_collects | apply find_anchor_elements_elem ].
Qed.

End AnchorsMore.

Lemma find_anchor_elements_ids_witness :
  exists container anchor,
    RenderedReference.select_container Examples.two_entries_doc = Some container
    /\ head (RenderedReference.find_anchor_elements container) = Some anchor
    /\ anchor ∈ RenderedReference.find_anchor_elements container
    /\ exists id,
         Soup.get (Soup.el_tag anchor) "id" = Some id
         /\ id <> "tv-content"
         /\ Py.any (Py.startswith id) RenderedReference.ANCHOR_PREFIXES = true.
Proof.
  eexists. eexists. split; [ vm_compute; reflexivity | ].
  split; [ vm_compute; reflexivity | ].
  match goal with
  | |- ?a ∈ ?l /\ _ =>
      assert (Hin : a ∈ l) by (apply head_Some_elem_of; vm_compute; reflexivity)
  end.
  split; [ exact Hin | ].
  exact (proj2 (find_anchor_elements_ids _) _ Hin).
Defined.

(** ** Segments of a reference page *)

Section SegmentsMore.

Import RenderedReference.

Variable canonical_url run_id source_artifact_id : string.

Local Abbreviation seg_loop := (segment_loop canonical_url run_id source_artifact_id).

Lemma append_inj_r (s a b : string) : s +:+ a = s +:+ b -> a = b.
Proof.
  induction s as [| c s IH]; intros Heq; [ exact Heq | ].
  change (String c (s +:+ a) = String c (s +:+ b)) in Heq.
  injection Heq as Heq. apply IH. exact Heq.
Qed.

(** The fields of the segments the loop returns, read off the anchors. *)
Lemma segment_loop_fields (anchors : list Soup.element) (idx : Z)
    (segments : list Segment) (seen : gset string) (empty_names empty_raw : Z)
    (out : list Segment) (qc : QC) :
  seg_loop anchors idx segments seen empty_names empty_raw = Py.Return (out, qc) ->
  map anchor_id out = (map anchor_id segments ++ anchor_ids_of anchors)%list
  /\ map segment_order out
     = (map segment_order segments ++ seqZ idx (Z.of_nat (length anchors)))%list
  /\ map segment_id out
     = (map segment_id segments
        ++ map (fun id => source_artifact_id +:+ ":" +:+ id) (anchor_ids_of anchors))%list
  /\ NoDup (anchor_ids_of anchors)
  /\ (forall id, id ∈ anchor_ids_of anchors -> id ∉ seen).
Proof.
  revert idx segments seen empty_names empty_raw out qc.
  induction anchors as [| anchor anchors IH];
    intros idx segments seen empty_names empty_raw out qc; cbn [segment_loop].
  - intros [= <- <-]. cbn. rewrite !app_nil_r.
    repeat split; [ constructor | ].
    intros id Hid. apply elem_of_nil in Hid. contradiction.
  - cbv zeta.
    destruct (bool_decide_reflect
                (default "" (Soup.get (Soup.el_tag anchor) "id") ∈ seen))
      as [Hin | Hnotin]; [ discriminate | ].
    intros Hloop. apply IH in Hloop as (Hids & Horders & Hsids & Hnodup & Hfresh).
    rewrite !map_app in Hids, Horders, Hsids. cbn [map anchor_id segment_order segment_id]
      in Hids, Horders, Hsids.
    rewrite <- !app_assoc in Hids, Horders, Hsids.
    cbn [anchor_ids_of map length]. fold (anchor_ids_of anchors).
    split; [ exact Hids | ]. split.
    { rewrite Horders. f_equal. rewrite Nat2Z.inj_succ.
      rewrite (seqZ_cons idx) by lia.
      replace (Z.pred (Z.succ (Z.of_nat (length anchors))))
        with (Z.of_nat (length anchors)) by lia.
      reflexivity. }
    split; [ exact Hsids | ]. split.
    + apply NoDup_cons. split; [ | exact Hnodup ].
      intros Hhere. apply (Hfresh _ Hhere).
      apply elem_of_union. left. apply elem_of_singleton. reflexivity.
    + intros id Hid. apply elem_of_cons in Hid as [-> | Hid]; [ exact Hnotin | ].
      intros Hseen. apply (Hfresh id Hid). apply elem_of_union. right. exact Hseen.
Qed.

(** X5. When [segment_reference_html] returns, its segments carry pairwise
    distinct anchor ids and pairwise distinct segment ids, each segment id is
    the artifact id, a colon and the anchor id, and [segment_order] runs
    [1, 2, ..., n] in document order. *)
Theorem segments_are_distinct_and_ordered (soup : list Soup.node)
    (segments : list Segment) (qc : QC) :
  segment_reference_html soup canonical_url run_id source_artifact_id
  = Py.Return (segments, qc) ->
  NoDup (map anchor_id segments)
  /\ NoDup (map segment_id segments)
  /\ map segment_id segments
     = map (fun id => source_artifact_id +:+ ":" +:+ id) (map anchor_id segments)
  /\ map segment_order segments = seqZ 1 (Py.len segments)
  /\ segments <> [].
Proof.
  unfold segment_reference_html.
  destruct (select_container soup) as [container |]; [ | discriminate ].
  destruct (find_anchor_elements container) as [| anchor anchors] eqn:Hanchors;
    [ discriminate | ].
  intros Hloop.
  pose proof (segment_loop_return _ _ _ _ _ _ _ _ _ _ _ Hloop)
    as (added & Hout & Hlen & _).
  apply segment_loop_fields in Hloop as (Hids & Horders & Hsids & Hnodup & _).
  cbn [map app] in Hids, Horders, Hsids.
  rewrite Hids, Hsids, Horders.
  split; [ exact Hnodup | ]. split.
  - apply NoDup_fmap_2; [ | exact Hnodup ].
    intros a b Heq. apply append_inj_r in Heq. apply append_inj_r in Heq. exact Heq.
  - split; [ reflexivity | ]. split.
    + unfold Py.len. rewrite Hout, <- Hlen. reflexivity.
    + rewrite Hout. cbn [app]. intros ->. discriminate Hlen.
Qed.

End SegmentsMore.

Lemma segments_are_distinct_and_ordered_witness :
  exists segments qc,
    RenderedReference.segment_reference_html Examples.two_entries_doc
      "https://www.tradingview.com/pine-script-reference/v6/" "20260109T135601Z" "5a68"
    = Py.Return (segments, qc)
    /\ map RenderedReference.segment_id segments = ["5a68:fun_plot"; "5a68:var_close"]
    /\ NoDup (map RenderedReference.segment_id segments)
    /\ map RenderedReference.segment_order segments = seqZ 1 (Py.len segments).
Proof.
  eexists. eexists. split; [ vm_compute; reflexivity | ].
  split; [ reflexivity | ].
  match goal with
  | |- NoDup (map _ ?segs) /\ _ =>
      destruct (segments_are_distinct_and_ordered
                  "https://www.tradingview.com/pine-script-reference/v6/"
                  "20260109T135601Z" "5a68" Examples.two_entries_doc segs
                  {| RenderedReference.segment_count := 2;
                     RenderedReference.empty_symbol_names := 0;
                     RenderedReference.empty_raw_html := 0 |})
        as (_ & Hnodup & _ & Horder & _); [ vm_compute; reflexivity | ]
  end.
  split; [ exact Hnodup | exact Horder ].
Defined.

Section SegmentsAndTypes.

Import RenderedReference.

Lemma derive_symbol_type_known (prefixes : list string) (id : string) :
  Py.any (Py.startswith id) prefixes = true ->
  exists t,
    ReferenceNormalization.derive_symbol_type_from prefixes id = Py.Return t
    /\ t ∈ map (fun prefix => Py.rstrip_char prefix "_") prefixes
    /\ prefix_symbol_type id prefixes = Some t.
Proof.
  induction prefixes as [| p prefixes IH]; cbn; [ discriminate | ].
  destruct (Py.startswith id p) eqn:Hp; cbn.
  - intros _. eexists. split; [ reflexivity | ]. split; [ left | reflexivity ].
  - intros Hany. destruct (IH Hany) as (t & Hd & Hin & Hs).
    exists t. split; [ exact Hd | ]. split; [ right; exact Hin | exact Hs ].
Qed.

Lemma anchor_ids_of_found (container : Soup.node) (id : string) :
  id ∈ anchor_ids_of (find_anchor_elements container) ->
  Py.any (Py.startswith id) ANCHOR_PREFIXES = true.
Proof.
  unfold anchor_ids_of. intros Hin.
  apply list_elem_of_fmap in Hin as (anchor & -> & Hanchor).
  apply find_anchor_elements_elem in Hanchor as (id & -> & _ & Hany). exact Hany.
Qed.

(** X6. Every anchor id of a segment [segment_reference_html] returns is
    accepted by [derive_symbol_type] of the normalization stage, with a type
    from [SYMBOL_TYPES]: segments of the rendered pipeline never make
    normalization raise [unknown_anchor_prefix]. *)
Theorem segmented_ids_have_symbol_type (soup : list Soup.node)
    (canonical_url run_id source_artifact_id : string)
    (segments : list Segment) (qc : QC) :
  segment_reference_html soup canonical_url run_id source_artifact_id
  = Py.Return (segments, qc) ->
  Forall
    (fun segment =>
       exists t,
         ReferenceNormalization.derive_symbol_type (Some (anchor_id segment))
         = Py.Return t
         /\ t ∈ ReferenceNormalization.SYMBOL_TYPES)
    segments.
Proof.
  unfold segment_reference_html.
  destruct (select_container soup) as [container |]; [ | discriminate ].
  destruct (find_anchor_elements container) as [| anchor anchors] eqn:Hanchors;
    [ discriminate | ].
  intros Hloop.
  apply segment_loop_fields in Hloop as (Hids & _).
  cbn [map app] in Hids. rewrite <- Hanchors in Hids.
  apply Forall_forall. intros segment Hin.
  assert (Hid : anchor_id segment ∈ anchor_ids_of (find_anchor_elements container)).
  { rewrite <- Hids. apply list_elem_of_fmap. exists segment. split; [ reflexivity | exact Hin ]. }
  apply anchor_ids_of_found in Hid.
  destruct (derive_symbol_type_known ANCHOR_PREFIXES (anchor_id segment) Hid)
    as (t & Hd & Ht & _).
  exists t. split; [ exact Hd | exact Ht ].
Qed.

Lemma strip_keeps_markup (c : ascii) (rest : string) :
  Py.is_space c = false -> Py.truthy (Py.strip (String c rest)) = true.
Proof.
  intros Hc. unfold Py.strip. cbn [Py.lstrip]. rewrite Hc. cbn [Py.rstrip].
  destruct (Py.rstrip rest); [ rewrite Hc | ]; reflexivity.
Qed.

Lemma serialize_tag_first (name : string) (attrs : list (string * string))
    (cs siblings : list Soup.node) :
  Py.truthy (serialize_nodes (Soup.Tag name attrs cs :: siblings)) = true.
Proof.
  unfold serialize_nodes. cbn [map].
  assert (Hstr : exists tail, Soup.str (Soup.Tag name attrs cs) = String "<" tail)
    by (eexists; reflexivity).
  destruct Hstr as [tail ->].
  destruct (map Soup.str siblings) as [| s l]; cbn [Py.join].
  - apply strip_keeps_markup. reflexivity.
  - change (String "<" tail +:+ "" +:+ Py.join "" (s :: l))
      with (String "<" (tail +:+ "" +:+ Py.join "" (s :: l))).
    apply strip_keeps_markup. reflexivity.
Qed.

Lemma segment_loop_raw (canonical_url run_id source_artifact_id : string)
    (anchors : list Soup.element) (idx : Z) (segments : list Segment)
    (seen : gset string) (empty_names empty_raw : Z)
    (out : list Segment) (qc : QC) :
  Forall (fun anchor => Soup.has_attr (Soup.el_tag anchor) "id" = true) anchors ->
  segment_loop canonical_url run_id source_artifact_id anchors idx segments seen
    empty_names empty_raw = Py.Return (out, qc) ->
  empty_raw_html qc = empty_raw.
Proof.
  intros Htags. revert idx segments seen empty_names empty_raw.
  induction Htags as [| anchor anchors Htag _ IH];
    intros idx segments seen empty_names empty_raw; cbn [segment_loop].
  - intros [= <- <-]. reflexivity.
  - cbv zeta. destruct (bool_decide _); [ discriminate | ].
    destruct (Soup.el_tag anchor) as [text | name attrs cs] eqn:Htagged;
      [ discriminate Htag | ].
    rewrite serialize_tag_first. cbn [negb]. apply IH.
Qed.

(** X7. When [segment_reference_html] returns, no segment has empty
    serialized content and the [empty_raw_html] counter is zero: every
    segment starts with the markup of its anchor tag.  So
    [segment_reference] never gives up with [empty_raw_html]. *)
Theorem raw_html_is_never_empty (PROJECT_ROOT run_id : string)
    (manifest : IngestScript.Manifest) (soup : list Soup.node) (st : IngestScript.Store) :
  (forall canonical_url source_artifact_id segments qc,
     segment_reference_html soup canonical_url run_id source_artifact_id
     = Py.Return (segments, qc) ->
     empty_raw_html qc = 0
     /\ Forall (fun segment => raw_html segment <> "") segments)
  /\ snd (IngestScript.segment_reference PROJECT_ROOT run_id manifest soup st)
     <> Py.Raise (Py.SystemExit "empty_raw_html").
Proof.
  assert (Hzero : forall canonical_url source_artifact_id segments qc,
             segment_reference_html soup canonical_url run_id source_artifact_id
             = Py.Return (segments, qc) -> empty_raw_html qc = 0).
  { intros canonical_url source_artifact_id segments qc.
    unfold segment_reference_html.
    destruct (select_container soup) as [container |]; [ | discriminate ].
    destruct (find_anchor_elements container) as [| anchor anchors] eqn:Hanchors;
      [ discriminate | ].
    apply segment_loop_raw. rewrite <- Hanchors.
    apply Forall_forall. intros a Ha.
    apply find_anchor_elements_elem in Ha as (id & Hid & _).
    unfold Soup.has_attr. rewrite Hid. reflexivity. }
  split.
  - intros canonical_url source_artifact_id segments qc Hret.
    pose proof (Hzero _ _ _ _ Hret) as Hz. split; [ exact Hz | ].
    apply segment_reference_html_return in Hret as (_ & _ & Hraw).
    apply count_empty_zero. lia.
  - unfold IngestScript.segment_reference.
    destruct (negb (String.eqb _ _)); [ cbn; discriminate | ].
    destruct (segment_reference_html soup _ run_id _) as [[segments qc] | e] eqn:Hhtml.
    + apply Hzero in Hhtml.
      destruct (negb (_ =? _)); [ cbn; discriminate | ].
      destruct (_ >? _); [ cbn; discriminate | ].
      rewrite Hhtml. cbn. discriminate.
    + apply segment_reference_html_raise in Hhtml as (reason & -> & _).
      cbn. discriminate.
Qed.

End SegmentsAndTypes.

Lemma segmented_ids_have_symbol_type_witness :
  exists segments qc,
    RenderedReference.segment_reference_html Examples.two_entries_doc
      "https://www.tradingview.com/pine-script-reference/v6/" "20260109T135601Z" "5a68"
    = Py.Return (segments, qc)
    /\ Forall
         (fun segment =>
            exists t,
              ReferenceNormalization.derive_symbol_type
                (Some (RenderedReference.anchor_id segment)) = Py.Return t
              /\ t ∈ ReferenceNormalization.SYMBOL_TYPES)
         segments.
Proof.
  eexists. eexists. split; [ vm_compute; reflexivity | ].
  eapply (segmented_ids_have_symbol_type Examples.two_entries_doc
            "https://www.tradingview.com/pine-script-reference/v6/"
            "20260109T135601Z" "5a68").
  vm_compute. reflexivity.
Defined.

(** ** Retries and robots rules *)

Section RetriesAndRobots.

Import Acquisition.

Variable url_path : string -> string.
Variable w : World.

Lemma fetch_attempts_spec (i k left : nat) :
  let '(answer, calls) := fetch_attempts w i k left in
  (k < calls <= k + left + 1)%nat
  /\ (forall j, (k <= j < calls - 1)%nat -> fetch w i j = None)
  /\ fetch w i (calls - 1) = answer
  /\ (answer = None -> calls = (k + left + 1)%nat).
Proof.
  revert k. induction left as [| left IH]; intros k; cbn [fetch_attempts].
  - destruct (fetch w i k) as [result |] eqn:Hk.
    + split; [ lia | ]. split; [ intros j Hj; lia | ].
      replace (S k - 1)%nat with k by lia. split; [ exact Hk | discriminate ].
    + split; [ lia | ]. split; [ intros j Hj; lia | ].
      replace (S k - 1)%nat with k by lia. split; [ exact Hk | intros _; lia ].
  - destruct (fetch w i k) as [result |] eqn:Hk.
    + split; [ lia | ]. split; [ intros j Hj; lia | ].
      replace (S k - 1)%nat with k by lia. split; [ exact Hk | discriminate ].
    + specialize (IH (S k)).
      destruct (fetch_attempts w i (S k) left) as [answer calls].
      destruct IH as (Hrange & Hbefore & Hlast & Hnone).
      split; [ lia | ]. split; [ | split; [ exact Hlast | intros H; rewrite Hnone by exact H; lia ] ].
      intros j Hj. destruct (decide (j = k)) as [-> | Hne]; [ exact Hk | ].
      apply Hbefore. lia.
Qed.

(** X8. [fetch_with_retries] calls [fetch_bytes] at least once and at most
    [max(retries, 0) + 1] times; every call but the last raised; it raises
    itself exactly when all [max(retries, 0) + 1] calls raised, and otherwise
    returns the answer of its last call. *)
Theorem fetch_with_retries_calls (i : nat) (retries : Z) :
  let answer := fst (fetch_with_retries w i retries) in
  let calls := snd (fetch_with_retries w i retries) in
  (1 <= calls <= Z.to_nat retries + 1)%nat
  /\ (forall j, (j < calls - 1)%nat -> fetch w i j = None)
  /\ fetch w i (calls - 1) = answer
  /\ (answer = None <-> forall j, (j <= Z.to_nat retries)%nat -> fetch w i j = None).
Proof.
  unfold fetch_with_retries.
  pose proof (fetch_attempts_spec i 0 (Z.to_nat retries)) as Hspec.
  destruct (fetch_attempts w i 0 (Z.to_nat retries)) as [answer calls].
  cbn [fst snd]. destruct Hspec as (Hrange & Hbefore & Hlast & Hnone).
  split; [ lia | ]. split; [ intros j Hj; apply Hbefore; lia | ].
  split; [ exact Hlast | ]. split.
  - intros Hanswer. specialize (Hnone Hanswer). intros j Hj.
    destruct (decide (j = calls - 1)%nat) as [-> | Hne].
    + rewrite Hlast. exact Hanswer.
    + apply Hbefore. lia.
  - intros Hall. rewrite <- Hlast. apply Hall. lia.
Qed.

(** X9. Rule lists compose: a URL is allowed under the rules [l1 ++ l2]
    exactly when it is allowed under [l1] and under [l2]; with no rules
    every URL is allowed. *)
Theorem robots_rules_compose (url : string) (l1 l2 : list string) :
  is_allowed_by_robots url_path url [] = true
  /\ is_allowed_by_robots url_path url (l1 ++ l2)
     = is_allowed_by_robots url_path url l1 && is_allowed_by_robots url_path url l2.
Proof.
  split; [ reflexivity | ].
  unfold is_allowed_by_robots, Py.any. rewrite existsb_app, negb_orb. reflexivity.
Qed.

(** X10. When [robots.txt] is answered with a status other than 200, no
    rule is in force and every URL is allowed. *)
Theorem robots_non_200_allows_all (answer : FetchResult) (url : string) :
  status answer <> 200 ->
  parse_robots_disallow (fetch_robots_txt answer) = []
  /\ is_allowed_by_robots url_path url (parse_robots_disallow (fetch_robots_txt answer))
     = true.
Proof.
  intros Hstatus. unfold fetch_robots_txt.
  apply Z.eqb_neq in Hstatus. rewrite Hstatus. cbn [negb]. split; reflexivity.
Qed.

End RetriesAndRobots.

Lemma robots_non_200_allows_all_witness :
  let answer :=
    {| Acquisition.status := 404; Acquisition.content_type := Some "text/html";
       Acquisition.content_encoding := None;
       Acquisition.raw_bytes := "User-agent: *" +:+ String (ascii_of_nat 10) "Disallow: /";
       Acquisition.decoded_length := Some 25 |} in
  Acquisition.status answer <> 200
  /\ Acquisition.parse_robots_disallow (Acquisition.fetch_robots_txt answer) = []
  /\ Acquisition.is_allowed_by_robots Examples.url_path_simple
       "https://www.tradingview.com/pine-script-docs/welcome"
       (Acquisition.parse_robots_disallow (Acquisition.fetch_robots_txt answer)) = true.
Proof.
  intros answer.
  assert (Hstatus : Acquisition.status answer <> 200) by (cbn; lia).
  split; [ exact Hstatus | ].
  exact (robots_non_200_allows_all Examples.url_path_simple answer
           "https://www.tradingview.com/pine-script-docs/welcome" Hstatus).
Defined.

(** ** Counters and paths of a run *)

Section CountersMore.

Import Acquisition AcquisitionVocabulary.

Variable sha256_hex : string -> string.
Variable url_path : string -> string.
Variable w : World.
Variable disallow_paths : list string.
Variable output_root run_id : string.
Variable retries : Z.

Local Abbreviation process :=
  (process_item sha256_hex url_path w disallow_paths output_root run_id retries).
Local Abbreviation loop :=
  (acquire_loop sha256_hex url_path w disallow_paths output_root run_id retries).

Lemma record_failure_balanced (item : InventoryItem) (why : string) (st st' : RunState)
    (f : flow) :
  attempted (counts st)
  = written (counts st) + skipped (counts st) + failed_guide (counts st)
    + failed_reference (counts st) + 1 ->
  Py.len (run_log st) = failed_guide (counts st) + failed_reference (counts st) ->
  0 <= written (counts st) /\ 0 <= skipped (counts st) /\ 0 <= failed_guide (counts st) ->
  record_failure item why st = (st', f) ->
  balanced st'
  /\ attempted (counts st') = attempted (counts st)
  /\ (f = Break ->
      failed_reference (counts st') = failed_reference (counts st) + 1)
  /\ (f = Continue -> failed_reference (counts st') = failed_reference (counts st)).
Proof.
  intros Hsum Hlog Hpos. unfold record_failure, balanced.
  destruct (String.eqb (doc_type item) "reference"); intros [= <- <-];
    cbn [counts run_log bump_failed_reference bump_failed_guide attempted written
         skipped failed_guide failed_reference];
    unfold Py.len in *; rewrite length_app; cbn [length];
    repeat split; try discriminate; lia.
Qed.

Lemma process_item_balanced (i : nat) (item : InventoryItem) (st st' : RunState)
    (f : flow) :
  balanced st ->
  process i item st = (st', f) ->
  balanced st'
  /\ attempted (counts st') = attempted (counts st) + 1
  /\ (f = Break ->
      failed_reference (counts st') = failed_reference (counts st) + 1)
  /\ (f = Continue -> failed_reference (counts st') = failed_reference (counts st)).
Proof.
  intros (Hsum & Hlog & Hw & Hs & Hg). unfold process_item.
  cbn [counts run_log store requests].
  destruct (negb (is_allowed_by_robots _ _ _)).
  { intros Hrec. apply record_failure_balanced in Hrec; cbn in *; try lia.
    destruct Hrec as (Hb & Ha & Hrest). split; [ exact Hb | ].
    split; [ rewrite Ha; reflexivity | exact Hrest ]. }
  destruct (artifact_paths sha256_hex output_root item None) as [raw_path meta_path].
  destruct (existing_checksum _ _ _ _).
  { intros [= <- <-]. unfold balanced. cbn. repeat split; try discriminate; lia. }
  destruct (fetch_with_retries w i retries) as [[result |] calls].
  - destruct ((status result <? 200) || (status result >=? 300)).
    + intros Hrec. apply record_failure_balanced in Hrec; cbn in *; try lia.
      destruct Hrec as (Hb & Ha & Hrest). split; [ exact Hb | ].
      split; [ rewrite Ha; reflexivity | exact Hrest ].
    + destruct (if bool_decide _ || bool_decide _ then _ else _) as [raw' meta'].
      intros [= <- <-]. unfold balanced. cbn. repeat split; try discriminate; lia.
  - intros Hrec. apply record_failure_balanced in Hrec; cbn in *; try lia.
    destruct Hrec as (Hb & Ha & Hrest). split; [ exact Hb | ].
    split; [ rewrite Ha; reflexivity | exact Hrest ].
Qed.

Lemma loop_balanced (inventory : list InventoryItem) (i : nat) (st : RunState) :
  balanced st ->
  let final := loop inventory i st in
  balanced final
  /\ attempted (counts st) <= attempted (counts final)
     <= attempted (counts st) + Py.len inventory
  /\ (failed_reference (counts final) = failed_reference (counts st)
      /\ attempted (counts final) = attempted (counts st) + Py.len inventory
      \/ failed_reference (counts final) = failed_reference (counts st) + 1).
Proof.
  revert i st. induction inventory as [| item inventory IH]; intros i st Hbal;
    cbn [acquire_loop]; cbv zeta.
  - unfold Py.len. cbn. split; [ exact Hbal | ]. split; [ lia | left; split; lia ].
  - destruct (process i item st) as [st' f] eqn:Hstep.
    apply (process_item_balanced i item st st' f Hbal) in Hstep
      as (Hbal' & Hatt & Hbreak & Hcont).
    unfold Py.len. cbn [length]. rewrite Nat2Z.inj_succ.
    destruct f.
    + specialize (IH (S i) st' Hbal'). cbv zeta in IH.
      destruct IH as (Hb & Hrange & Hcase). unfold Py.len in *.
      rewrite (Hcont eq_refl) in Hcase.
      split; [ exact Hb | ]. split; [ lia | ].
      destruct Hcase as [[Hf Ha] | Hf]; [ left; split; lia | right; exact Hf ].
    + split; [ exact Hbal' | ]. split; [ lia | ].
      right. apply Hbreak. reflexivity.
Qed.

End CountersMore.

(** X11. The counters of a run always balance: [attempted] is the sum of
    [written], [skipped], [failed_guide] and [failed_reference]; the run log
    has one line per failure; at most one reference failure is counted; and
    [attempted] is the number of items unless a reference failure ended the
    run early, when it is at least one and at most that number. *)
Theorem run_counters_balance (sha256_hex url_path : string -> string)
    (w : Acquisition.World) (inventory : list Acquisition.InventoryItem)
    (output_root run_id : string) (retries : Z) (files : Acquisition.Store)
    (final : Acquisition.RunState) :
  Acquisition.acquire_inventory sha256_hex url_path w inventory output_root run_id
    retries files = Some final ->
  let c := Acquisition.counts final in
  Acquisition.attempted c
  = Acquisition.written c + Acquisition.skipped c + Acquisition.failed_guide c
    + Acquisition.failed_reference c
  /\ Py.len (Acquisition.run_log final)
     = Acquisition.failed_guide c + Acquisition.failed_reference c
  /\ (Acquisition.failed_reference c = 0
      /\ Acquisition.attempted c = Py.len inventory
      \/ Acquisition.failed_reference c = 1
         /\ 1 <= Acquisition.attempted c <= Py.len inventory).
Proof.
  unfold Acquisition.acquire_inventory.
  destruct (Acquisition.robots w) as [answer |]; [ | discriminate ].
  intros [= <-]. cbv zeta.
  match goal with
  | |- context [Acquisition.acquire_loop _ _ _ ?d _ _ _ _ _ ?st0] =>
      pose proof (loop_balanced sha256_hex url_path w d output_root run_id retries
                    inventory 0%nat st0) as Hloop;
      set (start := st0) in *; set (rules := d) in *
  end.
  assert (Hstart : AcquisitionVocabulary.balanced start).
  { unfold AcquisitionVocabulary.balanced, start, Py.len. cbn. repeat split; lia. }
  specialize (Hloop Hstart). cbv zeta in Hloop.
  destruct Hloop as ((Hsum & Hlog & Hw & Hs & Hg) & Hrange & Hcase).
  split; [ exact Hsum | ]. split; [ exact Hlog | ].
  assert (Hzero : Acquisition.attempted (Acquisition.counts start) = 0
                  /\ Acquisition.failed_reference (Acquisition.counts start) = 0)
    by (split; reflexivity).
  destruct Hzero as [Hatt0 Hfr0]. rewrite Hatt0 in *. rewrite Hfr0 in *.
  destruct Hcase as [[Hf Ha] | Hf]; [ left; split; lia | right; split; lia ].
Qed.

Lemma run_counters_balance_witness :
  exists final,
    Acquisition.acquire_inventory Examples.toy_sha256_hex Examples.url_path_simple
      Examples.second_item_down
      [Examples.welcome_item; Examples.reference_item; Examples.faq_item]
      "raw" "run1" 2 Examples.no_files = Some final
    /\ Py.len (Acquisition.run_log final)
       = Acquisition.failed_guide (Acquisition.counts final)
         + Acquisition.failed_reference (Acquisition.counts final).
Proof.
  eexists. split; [ vm_compute; reflexivity | ].
  refine (proj1 (proj2 (run_counters_balance Examples.toy_sha256_hex
                          Examples.url_path_simple Examples.second_item_down
                          [Examples.welcome_item; Examples.reference_item;
                           Examples.faq_item]
                          "raw" "run1" 2 Examples.no_files _ _))).
  vm_compute. reflexivity.
Defined.

(** ** Paths, and what a write leaves for the next run *)

Section PathsMore.

Import Acquisition AcquisitionVocabulary.

Variable sha256_hex : string -> string.

Lemma append_length (a b : string) :
  String.length (a +:+ b) = (String.length a + String.length b)%nat.
Proof.
  induction a as [| c a IH]; [ reflexivity | ].
  change (S (String.length (a +:+ b)) = S (String.length a + String.length b)).
  f_equal. exact IH.
Qed.

Lemma append_inj_l (a b s : string) : a +:+ s = b +:+ s -> a = b.
Proof.
  revert b. induction a as [| c a IH]; intros [| d b] Heq.
  - reflexivity.
  - exfalso. apply (f_equal String.length) in Heq.
    change ("" +:+ s) with s in Heq. rewrite append_length in Heq. cbn in Heq. lia.
  - exfalso. apply (f_equal String.length) in Heq.
    change ("" +:+ s) with s in Heq. rewrite append_length in Heq. cbn in Heq. lia.
  - change (String c (a +:+ s) = String d (b +:+ s)) in Heq.
    injection Heq as -> Heq. f_equal. apply IH. exact Heq.
Qed.

Lemma path_join_same_head (base h x y : string) :
  Py.startswith x "/" = false -> Py.startswith y "/" = false ->
  x <> "" -> y <> "" ->
  Py.path_join base (h +:+ x) = Py.path_join base (h +:+ y) -> x = y.
Proof.
  intros Hx Hy Hxne Hyne. unfold Py.path_join.
  assert (Hsame : Py.startswith (h +:+ x) "/" = Py.startswith (h +:+ y) "/").
  { destruct h as [| c h];
      [ change ("" +:+ x) with x; change ("" +:+ y) with y; rewrite Hx, Hy; reflexivity | ].
    unfold Py.startswith.
    change (String c h +:+ x) with (String c (h +:+ x)).
    change (String c h +:+ y) with (String c (h +:+ y)).
    cbn [String.prefix].
    destruct (ascii_dec "/" c); [ destruct (h +:+ x), (h +:+ y) | ]; reflexivity. }
  rewrite <- Hsame.
  destruct (Py.startswith (h +:+ x) "/").
  - intros Heq. apply append_inj_r in Heq. exact Heq.
  - destruct (negb (Py.truthy base) || Py.endswith_char base "/"); intros Heq.
    + apply append_inj_r, append_inj_r in Heq. exact Heq.
    + apply append_inj_r in Heq.
      change ("/" +:+ h +:+ x) with (String "/" (h +:+ x)) in Heq.
      change ("/" +:+ h +:+ y) with (String "/" (h +:+ y)) in Heq.
      injection Heq as Heq. apply append_inj_r in Heq. exact Heq.
Qed.

Lemma artifact_paths_differ (output_root : string) (item : InventoryItem) (sfx : string) :
  sfx <> "" ->
  fst (artifact_paths sha256_hex output_root item (Some sfx))
  <> fst (artifact_paths sha256_hex output_root item None)
  /\ snd (artifact_paths sha256_hex output_root item (Some sfx))
     <> snd (artifact_paths sha256_hex output_root item None).
Proof.
  intros Hsfx.
  assert (Hraw : fst (artifact_paths sha256_hex output_root item (Some sfx))
                 <> fst (artifact_paths sha256_hex output_root item None)).
  { unfold artifact_paths. cbn [fst].
    rewrite (truthy_nonempty sfx Hsfx). intros Heq.
    apply path_join_same_head in Heq; try reflexivity; try discriminate.
    apply (f_equal String.length) in Heq.
    change ("." +:+ sfx +:+ ".html") with (String "." (sfx +:+ ".html")) in Heq.
    cbn [String.length] in Heq. rewrite append_length in Heq. cbn in Heq. lia. }
  split; [ exact Hraw | ].
  intros Heq. apply Hraw. unfold artifact_paths in *. cbn [fst snd] in *.
  apply append_inj_l in Heq. exact Heq.
Qed.

(** X12. [artifact_paths]: the sidecar path is the artifact path followed
    by [.meta.json]; an absent or empty suffix gives the same pair; and a
    non-empty suffix gives an artifact path and a sidecar path that both
    differ from the un-suffixed ones. *)
Theorem artifact_paths_suffix (output_root : string) (item : InventoryItem)
    (suffix : option string) :
  let plain := artifact_paths sha256_hex output_root item None in
  let paths := artifact_paths sha256_hex output_root item suffix in
  snd paths = fst paths +:+ ".meta.json"
  /\ (suffix = None \/ suffix = Some "" -> paths = plain)
  /\ (forall sfx, suffix = Some sfx -> sfx <> "" ->
      fst paths <> fst plain /\ snd paths <> snd plain).
Proof.
  cbv zeta. split; [ reflexivity | ]. split.
  - intros [-> | ->]; reflexivity.
  - intros sfx -> Hsfx. apply artifact_paths_differ. exact Hsfx.
Qed.

End PathsMore.

Lemma artifact_paths_suffix_witness :
  fst (Acquisition.artifact_paths Examples.toy_sha256_hex "raw" Examples.welcome_item
         (Some "20260109T135601Z"))
  <> fst (Acquisition.artifact_paths Examples.toy_sha256_hex "raw" Examples.welcome_item
            None).
Proof.
  apply (proj2 (proj2 (artifact_paths_suffix Examples.toy_sha256_hex "raw"
                         Examples.welcome_item (Some "20260109T135601Z")))
           "20260109T135601Z" eq_refl).
  discriminate.
Defined.

Section WriteThenRead.

Import Acquisition AcquisitionVocabulary.

Variable sha256_hex : string -> string.
Variable url_path : string -> string.
Variable disallow_paths : list string.
Variable output_root : string.

Local Abbreviation plain := (plain_paths sha256_hex output_root).

(** X13. What [write_raw_and_meta] stores, [existing_checksum] accepts: an
    item written under its un-suffixed paths, whose checksum is not the
    empty string, is skipped the next time it is processed, in any run, at
    any position and whatever the network answers, with no request and no
    write. *)
Theorem written_item_is_skipped_afterwards (w : World) (run_id : string) (retries : Z)
    (i : nat) (item : InventoryItem) (st : RunState) (result : FetchResult) :
  ~ robots_disallows url_path disallow_paths item ->
  raw_files (store st) !! fst (plain item) = None ->
  meta_files (store st) !! snd (plain item) = None ->
  answered_2xx w retries i result ->
  sha256_hex (raw_bytes result) <> "" ->
  let st1 :=
    fst (process_item sha256_hex url_path w disallow_paths output_root run_id retries
           i item st) in
  existing_checksum sha256_hex (store st1) (snd (plain item)) (fst (plain item))
  = Some (sha256_hex (raw_bytes result))
  /\ forall (w' : World) (run_id' : string) (retries' : Z) (j : nat),
       process_item sha256_hex url_path w' disallow_paths output_root run_id' retries'
         j item st1
       = ({| counts := bump_skipped (bump_attempted (counts st1));
             run_log := run_log st1; store := store st1; requests := requests st1 |},
          Continue).
Proof.
  intros Hallowed Hraw Hmeta Hanswer Hsum. cbv zeta.
  assert (Hnone : existing_checksum sha256_hex (store st) (snd (plain item))
                    (fst (plain item)) = None).
  { unfold existing_checksum. rewrite Hmeta. reflexivity. }
  destruct (write_step sha256_hex url_path w disallow_paths output_root run_id retries
              i item st result Hallowed Hnone Hanswer) as [calls Hstep].
  rewrite Hstep. cbn [fst store].
  assert (Htarget : write_target sha256_hex w output_root i item (store st) = plain item).
  { unfold write_target. fold (plain item). rewrite Hraw, Hmeta.
    rewrite !bool_decide_eq_false_2 by (intros [? [=]]). reflexivity. }
  rewrite Htarget.
  assert (Hunchanged :
            unchanged_on_disk sha256_hex output_root
              (write_raw_and_meta sha256_hex (fst (plain item)) (snd (plain item)) item
                 result run_id (now_iso w i) (store st)) item).
  { unfold unchanged_on_disk. fold (plain item). eexists _, _.
    unfold write_raw_and_meta. cbn [raw_files meta_files].
    rewrite !lookup_insert_eq.
    split; [ reflexivity | ]. split; [ reflexivity | ].
    split; [ exact Hsum | reflexivity ]. }
  split.
  - unfold existing_checksum, write_raw_and_meta. cbn [raw_files meta_files].
    rewrite !lookup_insert_eq. cbn [checksum].
    rewrite (truthy_nonempty _ Hsum). cbn [negb]. rewrite String.eqb_refl. reflexivity.
  - intros w' run_id' retries' j.
    apply skip_step; [ exact Hallowed | cbn [store]; exact Hunchanged ].
Qed.

End WriteThenRead.

Lemma written_item_is_skipped_afterwards_witness :
  Acquisition.skipped
    (Acquisition.counts
       (fst (Acquisition.process_item Examples.toy_sha256_hex Examples.url_path_simple
               Examples.second_item_down [] "raw" "run2" 0 0 Examples.welcome_item
               (fst (Acquisition.process_item Examples.toy_sha256_hex
                       Examples.url_path_simple (Examples.all_up "<p>hi</p>") [] "raw"
                       "run1" 2 0 Examples.welcome_item
                       (Examples.fresh_run Examples.no_files)))))) = 1.
Proof.
  assert (Hanswer : AcquisitionVocabulary.answered_2xx (Examples.all_up "<p>hi</p>") 2 0
                      (Examples.answer_200 "<p>hi</p>")).
  { exists 0%nat. split; [ lia | ]. split; [ intros j Hj; lia | ].
    split; [ reflexivity | ]. vm_compute. split; [ discriminate | reflexivity ]. }
  pose proof (proj2 (written_item_is_skipped_afterwards Examples.toy_sha256_hex
                       Examples.url_path_simple [] "raw" (Examples.all_up "<p>hi</p>")
                       "run1" 2 0 Examples.welcome_item
                       (Examples.fresh_run Examples.no_files)
                       (Examples.answer_200 "<p>hi</p>")
                       ltac:(vm_compute; intros H; discriminate H) eq_refl eq_refl Hanswer
                       ltac:(vm_compute; intros H; discriminate H))
               Examples.second_item_down "run2" 0 0%nat) as Hskip.
  rewrite Hskip. reflexivity.
Defined.

Section StaleArtifact.

Import Acquisition AcquisitionVocabulary.

Variable sha256_hex : string -> string.
Variable url_path : string -> string.
Variable w : World.
Variable disallow_paths : list string.
Variable output_root run_id : string.
Variable retries : Z.

Local Abbreviation plain := (plain_paths sha256_hex output_root).
Local Abbreviation process :=
  (process_item sha256_hex url_path w disallow_paths output_root run_id retries).

(** X14. An un-suffixed artifact or sidecar that is present but does not
    pass [existing_checksum] is never repaired: whatever branch the loop body
    takes for the item, both un-suffixed files are left as they were (a new
    download goes to the time-stamped paths), so the item is not skipped by
    the next run either. *)
Theorem stale_artifact_stays_stale (i : nat) (item : InventoryItem) (st : RunState) :
  is_Some (raw_files (store st) !! fst (plain item))
  \/ is_Some (meta_files (store st) !! snd (plain item)) ->
  existing_checksum sha256_hex (store st) (snd (plain item)) (fst (plain item)) = None ->
  now_suffix w i <> "" ->
  let st1 := fst (process i item st) in
  raw_files (store st1) !! fst (plain item) = raw_files (store st) !! fst (plain item)
  /\ meta_files (store st1) !! snd (plain item)
     = meta_files (store st) !! snd (plain item)
  /\ existing_checksum sha256_hex (store st1) (snd (plain item)) (fst (plain item))
     = None.
Proof.
  intros Hpresent Hnone Hsuffix. cbv zeta.
  assert (Hkeep :
            raw_files (store (fst (process i item st))) !! fst (plain item)
            = raw_files (store st) !! fst (plain item)
            /\ meta_files (store (fst (process i item st))) !! snd (plain item)
               = meta_files (store st) !! snd (plain item)).
  { destruct (process_item_store sha256_hex url_path w disallow_paths output_root run_id
                retries i item st) as [-> | (result & now & ->)];
      [ split; reflexivity | ].
    assert (Htarget : write_target sha256_hex w output_root i item (store st)
                      = stamped_paths sha256_hex w output_root i item).
    { unfold write_target. fold (plain item).
      destruct Hpresent as [Hraw | Hmeta].
      - rewrite (bool_decide_eq_true_2 _ Hraw). reflexivity.
      - rewrite (bool_decide_eq_true_2 _ Hmeta), orb_true_r. reflexivity. }
    rewrite Htarget.
    destruct (artifact_paths_differ sha256_hex output_root item (now_suffix w i) Hsuffix)
      as [Hraw Hmeta].
    unfold write_raw_and_meta, stamped_paths, plain_paths. cbn [raw_files meta_files].
    split; apply lookup_insert_ne; assumption. }
  destruct Hkeep as [Hraw Hmeta]. split; [ exact Hraw | ]. split; [ exact Hmeta | ].
  unfold existing_checksum in *. rewrite Hraw, Hmeta. exact Hnone.
Qed.

End StaleArtifact.

Lemma stale_artifact_stays_stale_witness :
  Acquisition.existing_checksum Examples.toy_sha256_hex
    (Acquisition.store
       (fst (Acquisition.process_item Examples.toy_sha256_hex Examples.url_path_simple
               (Examples.all_up "<p>hi</p>") [] "raw" "run1" 2 0 Examples.welcome_item
               (Examples.fresh_run Examples.orphan_artifact))))
    (snd (Acquisition.artifact_paths Examples.toy_sha256_hex "raw" Examples.welcome_item
            None))
    (fst (Acquisition.artifact_paths Examples.toy_sha256_hex "raw" Examples.welcome_item
            None)) = None.
Proof.
  apply (stale_artifact_stays_stale Examples.toy_sha256_hex Examples.url_path_simple
           (Examples.all_up "<p>hi</p>") [] "raw" "run1" 2 0 Examples.welcome_item
           (Examples.fresh_run Examples.orphan_artifact)).
  - left. vm_compute. eexists. reflexivity.
  - vm_compute. reflexivity.
  - discriminate.
Defined.

(** ** What normalization returns and what it raises *)

Section NormalizationMore.

Import ReferenceNormalization NormalizationVocabulary.

Lemma derive_symbol_type_from_return (prefixes : list string) (id t : string) :
  derive_symbol_type_from prefixes id = Py.Return t ->
  t ∈ map (fun prefix => Py.rstrip_char prefix "_") prefixes
  /\ exists prefix, prefix ∈ prefixes /\ Py.startswith id prefix = true.
Proof.
  induction prefixes as [| p prefixes IH]; cbn; [ discriminate | ].
  destruct (Py.startswith id p) eqn:Hp.
  - intros [= <-]. split; [ left | ]. exists p. split; [ left | exact Hp ].
  - intros Hrest. destruct (IH Hrest) as (Hin & q & Hq & Hstart).
    split; [ right; exact Hin | ]. exists q. split; [ right; exact Hq | exact Hstart ].
Qed.

Lemma derive_symbol_type_from_raise (prefixes : list string) (id : string)
    (e : Py.exception) :
  derive_symbol_type_from prefixes id = Py.Raise e ->
  e = Py.ValueError ("unknown_anchor_prefix:" +:+ id)
  /\ Py.any (Py.startswith id) prefixes = false.
Proof.
  induction prefixes as [| p prefixes IH]; cbn.
  - intros [= <-]. split; reflexivity.
  - destruct (Py.startswith id p); [ discriminate | exact IH ].
Qed.

Lemma symbol_types_in (t : string) :
  t ∈ SYMBOL_TYPES -> existsb (String.eqb t) SYMBOL_TYPES = true /\ t <> "".
Proof.
  intros Hin. vm_compute in Hin.
  repeat (apply elem_of_cons in Hin as [-> | Hin];
          [ split; [ reflexivity | discriminate ] | ]).
  apply elem_of_nil in Hin. contradiction.
Qed.

Lemma missing_keys_elem (record : SymbolRecord) (key : string) :
  key ∈ missing_keys record ->
  is_missing (Some (reference_symbol_id record)) = false ->
  is_missing (anchor_id record) = false ->
  is_missing (Some (symbol_type record)) = false ->
  is_missing (Some (pine_version record)) = false ->
  key ∈ segment_keys.
Proof.
  unfold missing_keys. intros Hin Hid Hanchor Htype Hversion.
  apply list_elem_of_fmap in Hin as ([k b] & -> & Hin).
  apply list_elem_of_filter in Hin as [Hb Hin]. cbn [fst snd] in *.
  unfold segment_keys.
  repeat (apply elem_of_cons in Hin as [[= -> ->] | Hin];
          [ first [ cbn in *; congruence | solve [ repeat constructor ] ] | ]).
  apply elem_of_nil in Hin. contradiction.
Qed.

(** X15. The errors of one line.  A line raises an [AttributeError] when it
    has no [anchor_id]; [unknown_anchor_prefix] when no prefix matches it;
    [missing_required], naming only keys whose value is read from the
    segment (never [anchor_id], [reference_symbol_id], [symbol_type] or
    [pine_version]); or [duplicate_reference_symbol_id] for an identifier
    seen before.  The two checks [invalid_pine_version] and
    [invalid_symbol_type] never fire. *)
Theorem normalize_line_errors (segment : SegmentLine) (st : LoopState)
    (e : Py.exception) :
  normalize_line segment st = Py.Raise e ->
  (seg_anchor_id segment = None
   /\ e = Py.AttributeError "'NoneType' object has no attribute 'startswith'")
  \/ (exists id,
        seg_anchor_id segment = Some id
        /\ Py.any (Py.startswith id) ANCHOR_PREFIXES = false
        /\ e = Py.ValueError ("unknown_anchor_prefix:" +:+ id))
  \/ (exists missing,
        missing <> []
        /\ (forall key, key ∈ missing -> key ∈ segment_keys)
        /\ e = Py.ValueError ("missing_required:" +:+ Py.join "," missing))
  \/ (derived_id segment ∈ seen_ids st
      /\ e = Py.ValueError ("duplicate_reference_symbol_id:" +:+ derived_id segment)).
Proof.
  unfold normalize_line, derived_id.
  destruct (seg_anchor_id segment) as [id |] eqn:Hanchor; cbn [derive_symbol_type];
    [ | intros [= <-]; left; split; reflexivity ].
  destruct (derive_symbol_type_from ANCHOR_PREFIXES id) as [derived_type | e'] eqn:Hd.
  2: { intros [= <-]. apply derive_symbol_type_from_raise in Hd as [-> Hany].
       right; left. exists id. repeat split; assumption. }
  apply derive_symbol_type_from_return in Hd as (Htype & prefix & Hprefix & Hstart).
  fold SYMBOL_TYPES in Htype. apply symbol_types_in in Htype as [Hknown Hnonempty].
  cbv zeta.
  match goal with
  | |- context [missing_keys ?r] => set (record := r)
  end.
  destruct (missing_keys record) as [| key missing] eqn:Hmissing.
  - cbn [pine_version symbol_type record]. rewrite Hknown. cbn [negb String.eqb].
    change (negb ("v6" =? "v6")%string) with false. cbv iota.
    destruct (bool_decide_reflect
                (fmt (seg_source_artifact_id segment) +:+ ":" +:+ fmt (Some id)
                 ∈ seen_ids st)) as [Hin | Hnotin]; [ | discriminate ].
    intros [= <-]. right; right; right. split; [ exact Hin | reflexivity ].
  - intros [= <-]. right; right; left. exists (key :: missing).
    split; [ discriminate | ]. split; [ | reflexivity ].
    intros k Hk. rewrite <- Hmissing in Hk.
    apply (missing_keys_elem record k Hk).
    + cbn. destruct (fmt (seg_source_artifact_id segment)); reflexivity.
    + cbn. assert (Hid : id <> "").
      { intros ->. vm_compute in Hprefix.
        repeat (apply elem_of_cons in Hprefix as [-> | Hprefix];
                [ discriminate Hstart | ]).
        apply elem_of_nil in Hprefix. contradiction. }
      destruct id; [ congruence | reflexivity ].
    + cbn. destruct derived_type; [ congruence | reflexivity ].
    + reflexivity.
Qed.

Lemma normalize_line_errors_witness :
  exists missing,
    normalize_line Examples.nameless_line initial_state
    = Py.Raise (Py.ValueError ("missing_required:" +:+ Py.join "," missing))
    /\ forall key, key ∈ missing -> key ∈ segment_keys.
Proof.
  destruct (normalize_line_errors Examples.nameless_line initial_state
              (Py.ValueError "missing_required:symbol_name") eq_refl)
    as [[_ [=]] | [(id & _ & _ & [=]) | [(missing & _ & Hkeys & Heq) | [_ [=]]]]].
  exists missing. split; [ rewrite <- Heq; reflexivity | exact Hkeys ].
Defined.

End NormalizationMore.

Section NormalizationSuccess.

Import ReferenceNormalization NormalizationVocabulary.

Lemma normalize_loop_return (lines : list line) (st : LoopState)
    (out : list SymbolRecord) (n : Z) (samples : list string) :
  normalize_loop lines st = (out, Py.Return (n, samples)) ->
  exists reached,
    normalize_prefix lines st = Some reached
    /\ out = target reached /\ n = written reached /\ samples = sample_ids reached.
Proof.
  revert st. induction lines as [| [| segment] lines IH]; intros st; cbn.
  - intros [= <- <- <-]. exists st. repeat split; reflexivity.
  - apply IH.
  - destruct (normalize_line segment st) as [st' | e]; [ apply IH | discriminate ].
Qed.

Lemma normalize_line_valid (segment : SegmentLine) (st st' : LoopState) :
  normalize_line segment st = Py.Return st' ->
  exists record,
    target st' = (target st ++ [record])%list
    /\ valid_record record
    /\ sample_ids st'
       = if Py.len (sample_ids st) <? 5
         then (sample_ids st ++ [derived_id segment])%list else sample_ids st.
Proof.
  unfold normalize_line, derived_id, valid_record.
  destruct (derive_symbol_type (seg_anchor_id segment)) as [derived_type | e];
    [ | discriminate ].
  cbv zeta.
  match goal with
  | |- context [missing_keys ?r] => set (record := r)
  end.
  destruct (missing_keys record) eqn:Hmissing; [ | discriminate ].
  destruct (negb (String.eqb _ _)) eqn:Hversion; [ discriminate | ].
  destruct (negb (existsb _ _)) eqn:Htype; [ discriminate | ].
  destruct (bool_decide _); [ discriminate | ].
  intros [= <-]. cbn [target sample_ids]. exists record.
  split; [ reflexivity | ]. split; [ | reflexivity ].
  split; [ exact Hmissing | ]. split; [ reflexivity | ].
  apply negb_false_iff, existsb_exists in Htype as (t & Hin & Heq).
  apply String.eqb_eq in Heq. rewrite Heq. apply list_elem_of_In. exact Hin.
Qed.

Lemma normalize_prefix_records (lines : list line) (st reached : LoopState) :
  normalize_prefix lines st = Some reached ->
  (length (sample_ids st) <= 5)%nat ->
  exists added,
    target reached = (target st ++ added)%list
    /\ map reference_symbol_id added = map derived_id (json_lines lines)
    /\ Forall valid_record added
    /\ sample_ids reached
       = (sample_ids st
          ++ take (5 - length (sample_ids st)) (map derived_id (json_lines lines)))%list.
Proof.
  revert st. induction lines as [| [| segment] lines IH]; intros st; cbn.
  - intros [= <-] _. exists []. rewrite take_nil, !app_nil_r.
    repeat split. constructor.
  - apply IH.
  - destruct (normalize_line segment st) as [st' | e] eqn:Hline; [ | discriminate ].
    intros Hrest Hlen.
    destruct (normalize_line_valid segment st st' Hline) as (record & Ht & Hvalid & Hs).
    apply normalize_line_return in Hline as (record' & Ht' & Hid & _).
    rewrite Ht in Ht'. apply app_inj_tail in Ht' as [_ <-].
    assert (Hlen' : (length (sample_ids st') <= 5)%nat).
    { rewrite Hs. unfold Py.len. destruct (Z.ltb_spec (Z.of_nat (length (sample_ids st))) 5);
        [ rewrite length_app; cbn; lia | exact Hlen ]. }
    destruct (IH st' Hrest Hlen') as (added & Htarget & Hids & Hall & Hsamples).
    exists (record :: added). rewrite Htarget, Ht, <- app_assoc.
    split; [ reflexivity | ]. cbn [map]. rewrite Hid, Hids.
    split; [ reflexivity | ]. split; [ constructor; assumption | ].
    rewrite Hsamples, Hs. unfold Py.len.
    destruct (Z.ltb_spec (Z.of_nat (length (sample_ids st))) 5) as [Hlt | Hge].
    + rewrite length_app, <- app_assoc. cbn [length app].
      replace (5 - length (sample_ids st))%nat
        with (S (5 - (length (sample_ids st) + 1)))%nat by lia.
      reflexivity.
    + replace (5 - length (sample_ids st))%nat with 0%nat by lia.
      rewrite !take_0. reflexivity.
Qed.

(** X16. When [normalize_reference_symbols] returns, the output file holds
    one record per non-blank line of the segments file, in the order of the
    lines; the count returned is their number; their identifiers are those
    the lines derive and are pairwise distinct; every record passes the
    checks ([pine_version] is [v6], the symbol type is one of the seven, no
    required key is missing); and the sample returned is the first five
    identifiers. *)
Theorem normalization_return (output_path : string) (lines : list line)
    (output out : output_file) (n : Z) (samples : list string) :
  normalize_reference_symbols output_path lines output = (out, Py.Return (n, samples)) ->
  exists records,
    out = Some records
    /\ n = Py.len records
    /\ Py.len records = Py.len (json_lines lines)
    /\ map reference_symbol_id records = map derived_id (json_lines lines)
    /\ NoDup (map reference_symbol_id records)
    /\ Forall valid_record records
    /\ samples = take 5 (map reference_symbol_id records).
Proof.
  unfold normalize_reference_symbols.
  assert (Hloop : forall start,
             start = initial_state ->
             (let '(target, outcome) := normalize_loop lines start in
              (Some target, outcome)) = (out, Py.Return (n, samples)) ->
             exists records,
               out = Some records
               /\ n = Py.len records
               /\ Py.len records = Py.len (json_lines lines)
               /\ map reference_symbol_id records = map derived_id (json_lines lines)
               /\ NoDup (map reference_symbol_id records)
               /\ Forall valid_record records
               /\ samples = take 5 (map reference_symbol_id records)).
  { intros start ->.
    destruct (normalize_loop lines initial_state) as [final outcome] eqn:Hrun.
    intros [= <- ->].
    apply normalize_loop_return in Hrun as (reached & Hprefix & -> & -> & ->).
    destruct (normalize_prefix_invariant lines initial_state reached Hprefix)
      as (added & Htarget & Hwritten & _ & Hnodup & _).
    destruct (normalize_prefix_records lines initial_state reached Hprefix)
      as (added' & Htarget' & Hids & Hall & Hsamples); [ cbn; lia | ].
    cbn [target initial_state app] in Htarget, Htarget'.
    rewrite Htarget in Htarget'. subst added'.
    exists added. split; [ rewrite Htarget; reflexivity | ].
    split; [ rewrite Hwritten; cbn; lia | ].
    split; [ unfold Py.len; rewrite <- (length_map reference_symbol_id added), Hids,
               length_map; reflexivity | ].
    split; [ exact Hids | ]. split; [ exact Hnodup | ]. split; [ exact Hall | ].
    rewrite Hsamples, Hids. reflexivity. }
  destruct output as [[| record existing] |]; [ | discriminate | ];
    apply Hloop; reflexivity.
Qed.

End NormalizationSuccess.

Lemma normalization_return_witness :
  exists records,
    fst (ReferenceNormalization.normalize_reference_symbols "symbols.jsonl"
           [ReferenceNormalization.Blank;
            ReferenceNormalization.Json Examples.plot_line] None) = Some records
    /\ Py.len records = 1.
Proof.
  destruct (normalization_return "symbols.jsonl"
              [ReferenceNormalization.Blank;
               ReferenceNormalization.Json Examples.plot_line] None
              _ 1 ["5a68:fun_plot"] eq_refl)
    as (records & Hout & _ & Hlen & _).
  exists records. split; [ | exact Hlen ].
  injection Hout as <-. reflexivity.
Defined.

(** ** Drift reports over rendered manifests *)

Section DriftMore.

Import RenderedReference IngestScript.

(** What [render_and_manifest] puts in the manifest: the ids collected at
    some poll, their counts by prefix, the browser version of the session and
    the environment of [default_config]. *)
Lemma rendered_manifest_fields (fuel : nat) (run_id : string) (page : Page)
    (html_size : Z) (checksum now rel_path : string) (manifest : Manifest) :
  render_and_manifest fuel run_id page html_size checksum now rel_path = Some manifest ->
  (exists j,
     m_anchor_count_total manifest
     = Py.len (collect_anchor_ids ANCHOR_PREFIXES (page_ids page j))
     /\ m_anchor_counts_by_prefix manifest
        = anchor_prefix_counts (collect_anchor_ids ANCHOR_PREFIXES (page_ids page j)))
  /\ m_browser_version manifest = page_browser_version page
  /\ m_user_agent manifest = user_agent default_config
  /\ m_viewport manifest = viewport default_config
  /\ m_locale manifest = locale default_config
  /\ m_timezone manifest = timezone default_config.
Proof.
  unfold render_and_manifest, render_reference.
  destruct (poll_loop fuel _ page 0 0 (-1) 0) as [st |] eqn:Hloop; [ | discriminate ].
  intros [= <-]. cbn.
  apply poll_loop_collected in Hloop as [j ->].
  split; [ exists j; split; reflexivity | repeat split ].
Qed.

Lemma anchor_prefix_counts_keys (ids : list string) :
  dom (anchor_prefix_counts ids) = list_to_set ANCHOR_PREFIXES.
Proof.
  unfold anchor_prefix_counts.
  set (start := list_to_map (map (fun prefix => (prefix, 0)) ANCHOR_PREFIXES)
                : gmap string Z).
  assert (Hdom : dom start = list_to_set ANCHOR_PREFIXES) by (vm_compute; reflexivity).
  destruct (fold_counts_general ids start) as [_ Hd].
  - intros q Hq. rewrite Hdom. apply elem_of_list_to_set. exact Hq.
  - cbv zeta in Hd. rewrite Hd, Hdom. reflexivity.
Qed.

Lemma anchor_prefix_counts_dom (ids : list string) (p : string) :
  p ∈ ANCHOR_PREFIXES <-> is_Some (anchor_prefix_counts ids !! p).
Proof.
  rewrite <- elem_of_dom, anchor_prefix_counts_keys, elem_of_list_to_set. reflexivity.
Qed.

Lemma sum_over_deltas (keys : list string) (base cand : gmap string Z) :
  (forall p, p ∈ keys -> is_Some (base !! p) /\ is_Some (cand !! p)) ->
  sum_over keys
    (map_imap (fun prefix count => Some (default 0 (cand !! prefix) - count)) base)
  = sum_over keys cand - sum_over keys base.
Proof.
  unfold sum_over. induction keys as [| key keys IH]; intros Hkeys; cbn [map fold_right].
  - reflexivity.
  - rewrite IH by (intros p Hp; apply Hkeys; right; exact Hp).
    destruct (Hkeys key) as [[b Hb] [c Hc]]; [ left | ].
    rewrite !lookup_total_alt, map_lookup_imap, Hb, Hc. cbn. lia.
Qed.

(** X17. In the drift report of two manifests that [render_and_manifest]
    produced, the prefix deltas are reported for exactly the seven prefixes
    and add up to the anchor-count delta. *)
Theorem rendered_prefix_deltas_sum (fuel fuel' : nat) (run_id run_id' : string)
    (page page' : Page) (html_size html_size' : Z)
    (checksum checksum' now now' rel_path rel_path' : string)
    (baseline candidate : Manifest) :
  render_and_manifest fuel run_id page html_size checksum now rel_path = Some baseline ->
  render_and_manifest fuel' run_id' page' html_size' checksum' now' rel_path'
  = Some candidate ->
  let report := generate_drift_report baseline candidate in
  dom (anchor_prefix_deltas report) = list_to_set ANCHOR_PREFIXES
  /\ sum_over ANCHOR_PREFIXES (anchor_prefix_deltas report) = anchor_count_delta report.
Proof.
  intros Hbase Hcand.
  apply rendered_manifest_fields in Hbase as ((j & Htotal & Hcounts) & _).
  apply rendered_manifest_fields in Hcand as ((j' & Htotal' & Hcounts') & _).
  cbv zeta. unfold generate_drift_report. cbn [anchor_prefix_deltas anchor_count_delta].
  split.
  - apply set_eq. intros p. rewrite elem_of_dom, map_lookup_imap, Hcounts.
    rewrite elem_of_list_to_set,
      (anchor_prefix_counts_dom (collect_anchor_ids ANCHOR_PREFIXES (page_ids page j)) p).
    destruct (anchor_prefix_counts _ !! p) as [count |]; cbn.
    + split; intros _; eexists; reflexivity.
    + split; intros [x [=]].
  - rewrite sum_over_deltas.
    + rewrite Hcounts, Hcounts', !anchor_prefix_counts_total, Htotal, Htotal'.
      reflexivity.
    + intros p Hp. rewrite Hcounts, Hcounts'.
      split; apply anchor_prefix_counts_dom; exact Hp.
Qed.

End DriftMore.

Lemma rendered_prefix_deltas_sum_witness :
  exists baseline candidate,
    IngestScript.render_and_manifest 1 "20260109T135601Z" Examples.slow_page
      55 "c0ffee" "2026-01-09T13:56:01Z" "raw/rendered/v6/reference/a/reference.html"
    = Some baseline
    /\ IngestScript.render_and_manifest 2 "20260110T135601Z" Examples.slow_page
         55 "c0ffee" "2026-01-10T13:56:01Z" "raw/rendered/v6/reference/b/reference.html"
       = Some candidate
    /\ sum_over RenderedReference.ANCHOR_PREFIXES
         (IngestScript.anchor_prefix_deltas
            (IngestScript.generate_drift_report baseline candidate))
       = IngestScript.anchor_count_delta
           (IngestScript.generate_drift_report baseline candidate).
Proof.
  eexists _, _. split; [ vm_compute; reflexivity | ].
  split; [ vm_compute; reflexivity | ].
  refine (proj2 (rendered_prefix_deltas_sum 1 2 "20260109T135601Z" "20260110T135601Z"
                   Examples.slow_page Examples.slow_page 55 55 "c0ffee" "c0ffee"
                   "2026-01-09T13:56:01Z" "2026-01-10T13:56:01Z"
                   "raw/rendered/v6/reference/a/reference.html"
                   "raw/rendered/v6/reference/b/reference.html" _ _ _ _)).
  - vm_compute. reflexivity.
  - vm_compute. reflexivity.
Defined.

Section DriftEnvironment.

Import RenderedReference IngestScript.

(** X18. Between two manifests that [render_and_manifest] produced only the
    browser version can differ among the five environment fields, the other
    four being those of the fixed configuration; so their drift report has
    severity [low] exactly when the anchor totals agree and the browser
    versions of the two sessions differ. *)
Theorem rendered_low_drift_is_browser_change (fuel fuel' : nat) (run_id run_id' : string)
    (page page' : Page) (html_size html_size' : Z)
    (checksum checksum' now now' rel_path rel_path' : string)
    (baseline candidate : Manifest) :
  render_and_manifest fuel run_id page html_size checksum now rel_path = Some baseline ->
  render_and_manifest fuel' run_id' page' html_size' checksum' now' rel_path'
  = Some candidate ->
  let report := generate_drift_report baseline candidate in
  (env_unchanged baseline candidate
   <-> page_browser_version page = page_browser_version page')
  /\ (r_drift_severity report = "low"
      <-> m_anchor_count_total candidate = m_anchor_count_total baseline
          /\ page_browser_version page <> page_browser_version page').
Proof.
  intros Hbase Hcand.
  apply rendered_manifest_fields in Hbase as (_ & Hv & Hua & Hvp & Hl & Htz).
  apply rendered_manifest_fields in Hcand as (_ & Hv' & Hua' & Hvp' & Hl' & Htz').
  cbv zeta.
  assert (Henv : env_unchanged baseline candidate
                 <-> page_browser_version page = page_browser_version page').
  { unfold env_unchanged. rewrite Hv, Hv', Hua, Hua', Hvp, Hvp', Hl, Hl', Htz, Htz'.
    tauto. }
  split; [ exact Henv | ].
  rewrite severity_of_report, <- Henv, <- env_changed_false.
  unfold anchor_delta, drift_severity.
  set (changed := env_changed_of _).
  destruct (Z.eqb_spec (m_anchor_count_total candidate - m_anchor_count_total baseline) 0)
    as [Hzero | Hnonzero]; cbn [andb negb].
  - destruct changed; cbn [negb].
    + split; [ intros _; split; [ lia | discriminate ] | reflexivity ].
    + split; [ discriminate | intros [_ Hdiff]; congruence ].
  - assert (Hnot : (if Py.abs (m_anchor_count_total candidate
                               - m_anchor_count_total baseline) >=? 10
                    then "high" else "medium") <> "low")
      by (destruct (_ >=? 10); discriminate).
    destruct changed; cbn [negb andb];
      (split; [ intros Hlow; contradiction | intros [Hsame _]; lia ]).
Qed.

End DriftEnvironment.

Lemma rendered_low_drift_is_browser_change_witness :
  exists baseline candidate,
    IngestScript.render_and_manifest 1 "20260109T135601Z" Examples.slow_page
      55 "c0ffee" "2026-01-09T13:56:01Z" "raw/rendered/v6/reference/a/reference.html"
    = Some baseline
    /\ IngestScript.render_and_manifest 2 "20260110T135601Z" Examples.slow_page
         55 "c0ffee" "2026-01-10T13:56:01Z" "raw/rendered/v6/reference/b/reference.html"
       = Some candidate
    /\ env_unchanged baseline candidate.
Proof.
  eexists _, _. split; [ vm_compute; reflexivity | ].
  split; [ vm_compute; reflexivity | ].
  refine (proj2 (proj1 (rendered_low_drift_is_browser_change 1 2 "20260109T135601Z"
                          "20260110T135601Z" Examples.slow_page Examples.slow_page 55 55
                          "c0ffee" "c0ffee" "2026-01-09T13:56:01Z" "2026-01-10T13:56:01Z"
                          "raw/rendered/v6/reference/a/reference.html"
                          "raw/rendered/v6/reference/b/reference.html" _ _ _ _)) eq_refl).
  - vm_compute. reflexivity.
  - vm_compute. reflexivity.
Defined.

(** ** Canonical URLs, canonicalized again *)

Section CanonicalAgain.

Import Urllib Discovery DiscoveryVocabulary.

Variable urlparse : string -> ParseResult.
Variable urlunparse : ParseResult -> string.

Lemma canonicalize_url_parts (raw_url : string) :
  canonicalize_url urlparse urlunparse raw_url
  = urlunparse <$> canonical_parts urlparse raw_url.
Proof.
  unfold canonicalize_url, canonical_parts.
  destruct (negb _ && negb _); reflexivity.
Qed.

Lemma rstrip_char_of_slashes (n : nat) : Py.rstrip_char (slashes n) "/" = "".
Proof.
  induction n as [| n IH]; [ reflexivity | ].
  cbn [slashes Py.rstrip_char]. rewrite IH. reflexivity.
Qed.

Lemma endswith_char_slashes (n : nat) : Py.endswith_char (slashes (S n)) "/" = true.
Proof.
  induction n as [| n IH]; [ reflexivity | ].
  change (slashes (S (S n))) with (String "/" (slashes (S n))).
  cbn [Py.endswith_char]. cbn [slashes] in *. exact IH.
Qed.

(** The components of a canonical URL: scheme [https], a host that is
    neither empty nor [tradingview.com], and a path that is [/] or does not
    end in a slash; the path is empty exactly when the parsed path is two or
    more slashes. *)
Lemma canonical_parts_shape (raw_url : string) (parts : ParseResult) :
  canonical_parts urlparse raw_url = Some parts ->
  scheme parts = "https"
  /\ netloc parts <> "" /\ netloc parts <> "tradingview.com"
  /\ (path parts = "/" \/ Py.endswith_char (path parts) "/" = false)
  /\ params parts = "" /\ query parts = "" /\ fragment parts = ""
  /\ (path parts = "" <-> exists n, path (urlparse raw_url) = slashes (S (S n))).
Proof.
  unfold canonical_parts. destruct (negb _ && negb _); [ discriminate | ].
  intros [= <-]. cbn [scheme netloc path params query fragment].
  split; [ reflexivity | ].
  split.
  { destruct (Py.truthy (netloc (urlparse raw_url))) eqn:Hn.
    - destruct (String.eqb _ _); [ discriminate | ].
      intros Heq. rewrite Heq in Hn. discriminate.
    - cbn. discriminate. }
  split.
  { destruct (Py.truthy (netloc (urlparse raw_url))).
    - destruct (String.eqb_spec (netloc (urlparse raw_url)) "tradingview.com");
        [ discriminate | assumption ].
    - cbn. discriminate. }
  set (path0 := if Py.truthy (path (urlparse raw_url)) then path (urlparse raw_url)
                else "/").
  assert (Hpath0 : path0 <> "").
  { unfold path0. destruct (path (urlparse raw_url)); cbn; discriminate. }
  split.
  { destruct (String.eqb_spec path0 "/") as [-> | Hne]; cbn [negb andb];
      [ left; reflexivity | ].
    right. destruct (Py.endswith_char path0 "/") eqn:Hend;
      [ apply rstrip_char_no_trailing | exact Hend ]. }
  repeat (split; [ reflexivity | ]).
  split.
  - destruct (String.eqb_spec path0 "/") as [Heq | Hne]; cbn [negb andb];
      [ intros Hempty; rewrite Heq in Hempty; discriminate | ].
    destruct (Py.endswith_char path0 "/"); [ | intros Hempty; contradiction ].
    intros Hempty. destruct (rstrip_char_slashes path0) as [n Hn].
    rewrite Hempty in Hn. change ("" +:+ slashes n) with (slashes n) in Hn.
    assert (Hparsed : path (urlparse raw_url) = path0).
    { unfold path0 in *. destruct (path (urlparse raw_url)); [ | reflexivity ].
      cbn in Hne. contradiction. }
    rewrite Hparsed, Hn.
    destruct n as [| [| n]]; [ rewrite Hn in Hpath0; contradiction
                             | rewrite Hn in Hne; contradiction | ].
    exists n. reflexivity.
  - intros [n Hn]. unfold path0. rewrite Hn.
    change (Py.truthy (slashes (S (S n)))) with true. cbv iota.
    change (String.eqb (slashes (S (S n))) "/")
      with (String.eqb (slashes (S n)) "").
    change (String.eqb (slashes (S n)) "") with false. cbn [negb andb].
    rewrite endswith_char_slashes. apply rstrip_char_of_slashes.
Qed.

(** X19. Canonicalizing a canonical URL.  When the parser reads the
    canonical URL back as the components it was put together from,
    [canonicalize_url] returns the canonical URL unchanged, except when its
    path is empty, which is the case exactly for a parsed path of two or more
    slashes: then the second pass gives the URL with path [/]. *)
Theorem canonicalize_url_again (raw_url : string) (parts : ParseResult) :
  canonical_parts urlparse raw_url = Some parts ->
  urlparse (urlunparse parts) = parts ->
  canonicalize_url urlparse urlunparse raw_url = Some (urlunparse parts)
  /\ (path parts <> "" ->
      canonicalize_url urlparse urlunparse (urlunparse parts) = Some (urlunparse parts))
  /\ (path parts = "" ->
      canonicalize_url urlparse urlunparse (urlunparse parts)
      = Some (urlunparse {| scheme := "https"; netloc := netloc parts; path := "/";
                            params := ""; query := ""; fragment := "" |}))
  /\ (path parts = "" <-> exists n, path (urlparse raw_url) = slashes (S (S n))).
Proof.
  intros Hparts Hround.
  destruct (canonical_parts_shape raw_url parts Hparts)
    as (Hscheme & Hhost & Halias & Hpath & Hparams & Hquery & Hfragment & Hempty).
  split; [ rewrite canonicalize_url_parts, Hparts; reflexivity | ].
  assert (Hagain :
            canonicalize_url urlparse urlunparse (urlunparse parts)
            = Some (urlunparse
                      {| scheme := "https"; netloc := netloc parts;
                         path := if Py.truthy (path parts) then path parts else "/";
                         params := ""; query := ""; fragment := "" |})).
  { unfold canonicalize_url. rewrite Hround, Hscheme. cbn [Py.truthy negb andb].
    rewrite (truthy_nonempty _ Hhost).
    destruct (String.eqb_spec (netloc parts) "tradingview.com"); [ contradiction | ].
    destruct (path parts) as [| c rest] eqn:Hp; cbn [Py.truthy]; [ reflexivity | ].
    destruct Hpath as [-> | ->]; [ reflexivity | ].
    rewrite andb_false_r. reflexivity. }
  split; [ | split; [ | exact Hempty ] ].
  - intros Hne. rewrite Hagain, (truthy_nonempty _ Hne).
    destruct parts. cbn in *. subst. reflexivity.
  - intros Heq. rewrite Hagain, Heq. reflexivity.
Qed.

End CanonicalAgain.

Lemma canonicalize_url_again_witness :
  Discovery.canonicalize_url Urllib.urlparse_simple Urllib.urlunparse_simple
    "https://www.tradingview.com/pine-script-docs/welcome"
  = Some "https://www.tradingview.com/pine-script-docs/welcome".
Proof.
  apply (proj1 (proj2 (canonicalize_url_again Urllib.urlparse_simple
                         Urllib.urlunparse_simple
                         "http://tradingview.com/pine-script-docs/welcome/?utm=1#top"
                         {| Urllib.scheme := "https";
                            Urllib.netloc := "www.tradingview.com";
                            Urllib.path := "/pine-script-docs/welcome";
                            Urllib.params := ""; Urllib.query := "";
                            Urllib.fragment := "" |} eq_refl eq_refl))).
  discriminate.
Defined.

Lemma canonicalize_url_again_slashes :
  Discovery.canonicalize_url Urllib.urlparse_simple Urllib.urlunparse_simple
    "https://www.tradingview.com//" = Some "https://www.tradingview.com"
  /\ Discovery.canonicalize_url Urllib.urlparse_simple Urllib.urlunparse_simple
       "https://www.tradingview.com" = Some "https://www.tradingview.com/".
Proof. split; reflexivity. Qed.

(** ** The segmentation run over all artifacts *)

Section ArtifactsRun.

Import Segmentation SegmentationRun.

Variable parse_guide_segments : Artifact -> Py.result (list Segment).
Variable read : Artifact -> list Soup.node.

Local Abbreviation loop := (artifacts_loop parse_guide_segments read).

Lemma parse_artifact_reference (artifact : Artifact) :
  doc_type artifact = "reference" ->
  parse_artifact parse_guide_segments read artifact
  = Some (parse_reference_segments artifact (read artifact)).
Proof. unfold parse_artifact. intros ->. reflexivity. Qed.

(** X20. A reference artifact that cannot be parsed ends the segmentation
    run: the artifacts after it are not looked at, so the segments and the
    failures returned are those of the run that stops with it.  (A guide
    artifact that cannot be parsed is recorded and the run goes on.) *)
Theorem reference_parse_failure_stops_run (before after : list Artifact)
    (artifact : Artifact) (msg : string) :
  doc_type artifact = "reference" ->
  parse_reference_segments artifact (read artifact) = Py.Raise (Py.ValueError msg) ->
  segment_artifacts parse_guide_segments read (before ++ artifact :: after)
  = segment_artifacts parse_guide_segments read (before ++ [artifact])
  /\ forall segments failures,
       loop (artifact :: after) segments failures
       = Py.Return (segments, (failures ++ [failure_for artifact msg])%list).
Proof.
  intros Htype Hraise.
  assert (Hstop : forall rest segments failures,
             loop (artifact :: rest) segments failures
             = Py.Return (segments, (failures ++ [failure_for artifact msg])%list)).
  { intros rest segments failures. cbn [artifacts_loop].
    rewrite (parse_artifact_reference artifact Htype), Hraise, Htype. reflexivity. }
  split; [ | apply Hstop ].
  unfold segment_artifacts. generalize (@nil Segment) (@nil Failure).
  induction before as [| first before IH]; intros segments failures; cbn [app].
  - rewrite !Hstop. reflexivity.
  - cbn [artifacts_loop].
    destruct (parse_artifact parse_guide_segments read first) as [[parsed | e] |];
      [ apply IH | | apply IH ].
    destruct e; try reflexivity.
    destruct (String.eqb (doc_type first) "reference"); [ reflexivity | apply IH ].
Qed.

Lemma artifacts_loop_failures (artifacts : list Artifact) (segments0 : list Segment)
    (failures0 : list Failure) (segments : list Segment) (failures : list Failure) :
  loop artifacts segments0 failures0 = Py.Return (segments, failures) ->
  exists added last,
    failures = (failures0 ++ added ++ last)%list
    /\ Forall (fun failure => fail_doc_type failure <> "reference") added
    /\ (length added + length last <= length artifacts)%nat
    /\ (last = []
        \/ exists artifact msg,
             last = [failure_for artifact msg]
             /\ artifact ∈ artifacts
             /\ doc_type artifact = "reference"
             /\ parse_reference_segments artifact (read artifact)
                = Py.Raise (Py.ValueError msg)).
Proof.
  revert segments0 failures0.
  induction artifacts as [| first artifacts IH]; intros segments0 failures0;
    cbn [artifacts_loop].
  - intros [= <- <-]. exists [], []. rewrite !app_nil_r.
    split; [ reflexivity | ]. split; [ constructor | ]. split; [ cbn; lia | left; reflexivity ].
  - unfold parse_artifact.
    destruct (String.eqb_spec (doc_type first) "guide") as [Hguide | Hnot_guide].
    + assert (Hnonref : doc_type first <> "reference") by (rewrite Hguide; discriminate).
      destruct (parse_guide_segments first) as [parsed | e].
      * intros Hrest. apply IH in Hrest as (added & last & -> & Hadded & Hlen & Hlast).
        exists added, last. split; [ reflexivity | ]. split; [ exact Hadded | ].
        split; [ cbn; lia | ].
        destruct Hlast as [-> | (a & m & -> & Hin & Ha & Hm)]; [ left; reflexivity | ].
        right. exists a, m. repeat split; try assumption. right. exact Hin.
      * destruct e; try discriminate.
        apply String.eqb_neq in Hnonref. rewrite Hnonref.
        intros Hrest. apply IH in Hrest as (added & last & -> & Hadded & Hlen & Hlast).
        exists (failure_for first msg :: added), last.
        split; [ rewrite <- !app_assoc; reflexivity | ].
        split; [ constructor; [ cbn; apply String.eqb_neq; exact Hnonref | exact Hadded ]
               | ].
        split; [ cbn; lia | ].
        destruct Hlast as [-> | (a & m & -> & Hin & Ha & Hm)]; [ left; reflexivity | ].
        right. exists a, m. repeat split; try assumption. right. exact Hin.
    + destruct (String.eqb_spec (doc_type first) "reference") as [Href | Hnot_ref].
      * destruct (parse_reference_segments first (read first)) as [parsed | e] eqn:Hparse.
        { intros Hrest. apply IH in Hrest as (added & last & -> & Hadded & Hlen & Hlast).
          exists added, last. split; [ reflexivity | ]. split; [ exact Hadded | ].
          split; [ cbn; lia | ].
          destruct Hlast as [-> | (a & m & -> & Hin & Ha & Hm)]; [ left; reflexivity | ].
          right. exists a, m. repeat split; try assumption. right. exact Hin. }
        destruct e; try discriminate.
        intros [= <- <-]. exists [], [failure_for first msg].
        split; [ reflexivity | ]. split; [ constructor | ]. split; [ cbn; lia | ].
        right. exists first, msg. repeat split; try assumption. left.
      * intros Hrest. apply IH in Hrest as (added & last & -> & Hadded & Hlen & Hlast).
        exists (failure_for first "unknown_doc_type" :: added), last.
        split; [ rewrite <- !app_assoc; reflexivity | ].
        split; [ constructor; [ exact Hnot_ref | exact Hadded ] | ].
        split; [ cbn; lia | ].
        destruct Hlast as [-> | (a & m & -> & Hin & Ha & Hm)]; [ left; reflexivity | ].
        right. exists a, m. repeat split; try assumption. right. exact Hin.
Qed.

(** X21. The failures of a segmentation run: there is at most one per
    artifact, and a failure of a reference artifact can only be the last
    one, the [ValueError] that ended the run; all the others are guide
    artifacts that could not be parsed or artifacts of unknown type. *)
Theorem reference_failure_is_last (artifacts : list Artifact)
    (segments : list Segment) (failures : list Failure) :
  segment_artifacts parse_guide_segments read artifacts = Py.Return (segments, failures) ->
  (length failures <= length artifacts)%nat
  /\ exists others last,
       failures = (others ++ last)%list
       /\ Forall (fun failure => fail_doc_type failure <> "reference") others
       /\ (last = []
           \/ exists artifact msg,
                last = [failure_for artifact msg]
                /\ artifact ∈ artifacts
                /\ doc_type artifact = "reference"
                /\ parse_reference_segments artifact (read artifact)
                   = Py.Raise (Py.ValueError msg)).
Proof.
  unfold segment_artifacts. intros Hrun.
  apply artifacts_loop_failures in Hrun as (added & last & -> & Hadded & Hlen & Hlast).
  cbn [app]. split; [ rewrite length_app; exact Hlen | ].
  exists added, last. split; [ reflexivity | ]. split; assumption.
Qed.

End ArtifactsRun.

Lemma reference_parse_failure_stops_run_witness :
  SegmentationRun.segment_artifacts Examples.one_section Examples.no_container
    [Examples.guide_artifact; Examples.reference_artifact; Examples.guide_artifact]
  = SegmentationRun.segment_artifacts Examples.one_section Examples.no_container
      [Examples.guide_artifact; Examples.reference_artifact].
Proof.
  apply (proj1 (reference_parse_failure_stops_run Examples.one_section
                  Examples.no_container [Examples.guide_artifact]
                  [Examples.guide_artifact] Examples.reference_artifact
                  "reference_container_missing" eq_refl eq_refl)).
Defined.

Lemma reference_failure_is_last_witness :
  exists segments failures,
    SegmentationRun.segment_artifacts Examples.one_section Examples.no_container
      [Examples.guide_artifact; Examples.reference_artifact; Examples.guide_artifact]
    = Py.Return (segments, failures)
    /\ (length failures <= 3)%nat.
Proof.
  eexists _, _. split; [ vm_compute; reflexivity | ].
  refine (proj1 (reference_failure_is_last Examples.one_section Examples.no_container
                   [Examples.guide_artifact; Examples.reference_artifact;
                    Examples.guide_artifact] _ _ _)).
  vm_compute. reflexivity.
Defined.

(** ** The log of a segmentation *)

Section SegmentationLog.

Import RenderedReference IngestScript.

Variable PROJECT_ROOT : string.

(** X22. What [segment_reference] leaves in the log.  A run refused with
    [render_incomplete] and a run that ends in a [ValueError] of
    [segment_reference_html] write nothing at all, not even a log line.  A
    run given up by a quality gate appends one log line with status [failed]
    and the reason raised, and no segment.  A run that returns appends one
    log line with status [complete] whose [segment_count] is the manifest's
    anchor total. *)
Theorem segment_reference_log (run_id : string) (manifest : Manifest)
    (soup : list Soup.node) (st : Store) :
  let out := segment_reference PROJECT_ROOT run_id manifest soup st in
  let log_path := segment_log_path PROJECT_ROOT run_id in
  let logged record :=
    log_files (fst out)
    = <[log_path := (default [] (log_files st !! log_path) ++ [record])%list]>
        (log_files st)
    /\ log_run_id record = run_id in
  (snd out = Py.Raise (Py.SystemExit "render_incomplete")
   \/ (exists reason, snd out = Py.Raise (Py.ValueError reason)) ->
   fst out = st)
  /\ (forall reason,
        snd out = Py.Raise (Py.SystemExit reason) -> reason <> "render_incomplete" ->
        exists record,
          logged record
          /\ log_status record = "failed" /\ log_reason record = Some reason
          /\ segment_files (fst out) = segment_files st)
  /\ (snd out = Py.Return tt ->
      exists record,
        logged record
        /\ log_status record = "complete" /\ log_reason record = None
        /\ head (log_counts record)
           = Some ("segment_count", m_anchor_count_total manifest)).
Proof.
  cbv zeta. unfold segment_reference.
  destruct (negb (String.eqb (m_status manifest) "complete")).
  { cbn [fst snd]. split; [ reflexivity | ].
    split; [ intros reason [= <-] Hne; contradiction | discriminate ]. }
  destruct (segment_reference_html soup (m_canonical_url manifest) run_id
              (m_artifact_checksum_sha256 manifest)) as [[segments qc] | e] eqn:Hhtml.
  2: { cbn [fst snd]. split; [ reflexivity | ].
       apply segment_reference_html_raise in Hhtml as (why & -> & _).
       split; [ intros reason [=] | discriminate ]. }
  destruct (Z.eqb_spec (segment_count qc) (m_anchor_count_total manifest))
    as [Htotal | Htotal]; cbn [negb].
  2: { cbn [fst snd]. split; [ intros [[=] | [reason [=]]] | ].
       split; [ | discriminate ].
       intros reason [= <-] _. eexists. split; [ split; reflexivity | ].
       repeat split. }
  destruct (empty_symbol_names qc >? _).
  { cbn [fst snd]. split; [ intros [[=] | [reason [=]]] | ].
    split; [ | discriminate ].
    intros reason [= <-] _. eexists. split; [ split; reflexivity | ].
    repeat split. }
  destruct (empty_raw_html qc >? 0).
  { cbn [fst snd]. split; [ intros [[=] | [reason [=]]] | ].
    split; [ | discriminate ].
    intros reason [= <-] _. eexists. split; [ split; reflexivity | ].
    repeat split. }
  cbn [fst snd]. split; [ intros [[=] | [reason [=]]] | ].
  split; [ intros reason [=] | ].
  intros _. eexists. split; [ split; reflexivity | ].
  cbn [log_status log_reason log_counts head]. rewrite Htotal. repeat split.
Qed.

End SegmentationLog.

Lemma segment_reference_log_witness :
  IngestScript.log_files
    (fst (IngestScript.segment_reference "/srv/pine" "20260109T135601Z"
            (Examples.complete_manifest 2) Examples.duplicate_doc Examples.empty_store))
  = IngestScript.log_files Examples.empty_store.
Proof.
  rewrite (proj1 (segment_reference_log "/srv/pine" "20260109T135601Z"
                    (Examples.complete_manifest 2) Examples.duplicate_doc
                    Examples.empty_store)).
  - reflexivity.
  - right. exists "duplicate_anchor_id". vm_compute. reflexivity.
Defined.

(** ** Discovery: what is kept and how it is labelled *)

Section DiscoveryScope.

Import Urllib Discovery.

Variable urlparse : string -> ParseResult.
Variable urlunparse : ParseResult -> string.

Local Abbreviation canonical_of := (canonicalize_url urlparse urlunparse).
Local Abbreviation path_of := (fun url => path (urlparse url)).

Lemma prefix_split (p s : string) :
  String.prefix p s = true -> exists rest, s = p +:+ rest.
Proof.
  revert s. induction p as [| a p IH]; intros s Hp.
  - exists s. reflexivity.
  - destruct s as [| b s]; [ discriminate | ].
    cbn [String.prefix] in Hp. destruct (ascii_dec a b) as [-> | ]; [ | discriminate ].
    destruct (IH s Hp) as [rest ->]. exists rest. reflexivity.
Qed.

Lemma reference_v6_is_reference (url : string) :
  Py.startswith (path_of url) PINE_REFERENCE_V6_PREFIX = true ->
  detect_doc_type urlparse url = Some "reference".
Proof.
  unfold detect_doc_type, Py.startswith. intros Hp.
  apply prefix_split in Hp as [rest ->]. reflexivity.
Qed.

Lemma detect_pine_version_values (url : string) :
  detect_pine_version urlparse url = None
  \/ detect_pine_version urlparse url = Some "v5"
  \/ detect_pine_version urlparse url = Some "v6".
Proof.
  unfold detect_pine_version.
  destruct (_ || _); [ right; right; reflexivity | ].
  destruct (_ || _); [ right; left; reflexivity | left; reflexivity ].
Qed.

(** X23. One URL of a sitemap in [discover_guide_urls].  It is dropped
    without a trace only when it cannot be canonicalized.  It is excluded as
    [non_explicit_version] when its canonical path lies strictly below
    [/pine-script-docs], is not an excluded path and shows no version, and as
    [out_of_scope] only when one of the first three conditions fails: the
    check of the version against [v5] and [v6] never excludes anything.
    Otherwise it is discovered as a guide, under its canonical URL, with the
    version [detect_pine_version] reads, which is [v5] or [v6], and
    [detect_doc_type] calls it a guide too. *)
Theorem guide_url_outcome (entry_point discovered_at raw : string) :
  match discover_guide_url urlparse urlunparse entry_point discovered_at raw with
  | Skipped => canonical_of raw = None \/ canonical_of raw = Some ""
  | Excluded excluded =>
      raw_url excluded = raw
      /\ canonical_of raw = Some (resolved_url excluded)
      /\ (reason excluded = "non_explicit_version"
          /\ detect_pine_version urlparse (resolved_url excluded) = None
          /\ Py.startswith (path_of (resolved_url excluded)) PINE_DOCS_PREFIX = true
          /\ path_of (resolved_url excluded) <> PINE_DOCS_PREFIX
          /\ is_excluded_path urlparse (resolved_url excluded) = false
          \/ reason excluded = "out_of_scope"
             /\ (Py.startswith (path_of (resolved_url excluded)) PINE_DOCS_PREFIX = false
                 \/ path_of (resolved_url excluded) = PINE_DOCS_PREFIX
                 \/ is_excluded_path urlparse (resolved_url excluded) = true))
  | Discovered found =>
      canonical_of raw = Some (canonical_url found)
      /\ doc_type found = "guide"
      /\ detect_doc_type urlparse (canonical_url found) = Some "guide"
      /\ (pine_version found = "v5" \/ pine_version found = "v6")
      /\ detect_pine_version urlparse (canonical_url found) = Some (pine_version found)
      /\ path_of (canonical_url found) <> PINE_DOCS_PREFIX
      /\ is_excluded_path urlparse (canonical_url found) = false
  end.
Proof.
  unfold discover_guide_url.
  destruct (canonical_of raw) as [canonical |]; [ | left; reflexivity ].
  destruct canonical as [| c canonical]; [ right; reflexivity | ].
  cbn [Py.truthy negb]. cbv zeta.
  set (url := String c canonical).
  destruct (Py.startswith (path_of url) PINE_DOCS_PREFIX) eqn:Hscope; cbn [negb].
  2: { cbn. split; [ reflexivity | ]. split; [ reflexivity | ].
       right. split; [ reflexivity | left; exact Hscope ]. }
  destruct (String.eqb_spec (path_of url) PINE_DOCS_PREFIX) as [Heq | Hne].
  { cbn. split; [ reflexivity | ]. split; [ reflexivity | ].
    right. split; [ reflexivity | right; left; exact Heq ]. }
  destruct (is_excluded_path urlparse url) eqn:Hexcluded.
  { cbn. split; [ reflexivity | ]. split; [ reflexivity | ].
    right. split; [ reflexivity | right; right; exact Hexcluded ]. }
  destruct (detect_pine_version_values url) as [Hv | [Hv | Hv]]; rewrite Hv.
  - cbn. split; [ reflexivity | ]. split; [ reflexivity | ].
    left. repeat split; assumption.
  - cbn. split; [ reflexivity | ]. split; [ reflexivity | ].
    split; [ unfold detect_doc_type; fold url; rewrite Hscope; reflexivity | ].
    split; [ left; reflexivity | ]. split; [ exact Hv | ]. split; assumption.
  - cbn. split; [ reflexivity | ]. split; [ reflexivity | ].
    split; [ unfold detect_doc_type; fold url; rewrite Hscope; reflexivity | ].
    split; [ right; reflexivity | ]. split; [ exact Hv | ]. split; assumption.
Qed.

(** X24. [discover_reference_urls] returns exactly one record: the entry
    point is discovered when its canonical path starts with
    [/pine-script-reference/v6], and then it is a [reference] for
    [detect_doc_type] as well; otherwise it is excluded as [out_of_scope]. *)
Theorem reference_entry_point_outcome (entry_point discovered_at : string) :
  let out := discover_reference_urls urlparse urlunparse entry_point discovered_at in
  (exists found,
     out = ([found], [])
     /\ canonical_of entry_point = Some (canonical_url found)
     /\ Py.startswith (path_of (canonical_url found)) PINE_REFERENCE_V6_PREFIX = true
     /\ doc_type found = "reference" /\ pine_version found = "v6"
     /\ detect_doc_type urlparse (canonical_url found) = Some "reference")
  \/ (exists excluded,
        out = ([], [excluded])
        /\ reason excluded = "out_of_scope"
        /\ raw_url excluded = entry_point
        /\ forall canonical,
             canonical_of entry_point = Some canonical ->
             canonical <> "" ->
             resolved_url excluded = canonical
             /\ Py.startswith (path_of canonical) PINE_REFERENCE_V6_PREFIX = false).
Proof.
  cbv zeta. unfold discover_reference_urls.
  destruct (canonical_of entry_point) as [canonical |].
  2: { right. eexists. split; [ reflexivity | ]. cbn.
       split; [ reflexivity | ]. split; [ reflexivity | ].
       intros canonical Hsome. discriminate Hsome. }
  destruct canonical as [| c canonical]; cbn [Py.truthy negb].
  { right. eexists. split; [ reflexivity | ]. cbn.
    split; [ reflexivity | ]. split; [ reflexivity | ].
    intros canonical [= <-] Hne. contradiction. }
  set (url := String c canonical).
  destruct (Py.startswith (path_of url) PINE_REFERENCE_V6_PREFIX) eqn:Hscope; cbn [negb].
  - left. eexists. split; [ reflexivity | ]. cbn.
    split; [ reflexivity | ]. split; [ exact Hscope | ].
    split; [ reflexivity | ]. split; [ reflexivity | ].
    apply reference_v6_is_reference. exact Hscope.
  - right. eexists. split; [ reflexivity | ]. cbn.
    split; [ reflexivity | ]. split; [ reflexivity | ].
    intros canonical' [= <-] _. split; [ reflexivity | exact Hscope ].
Qed.

End DiscoveryScope.
